(** * chaptered-backend: the request handlers of [server.py]

    A shallow embedding of the FastAPI handlers of [src/server.py] over an
    explicit model of the document store, and the properties of the
    specification proved about them.

    Modelling conventions.
    - A MongoDB collection is the list of its documents in insertion order;
      [find_one], [update_one] and [delete_one] act on the first document
      that matches the query, [insert_one] appends, and a cursor's
      [to_list(n)] keeps the first [n] matches.  The source declares no
      unique index, so nothing in the store type forbids two documents with
      the same key.
    - A handler is a function from the store to an outcome and a store:
      [Return v] for a value, [Raise e] for an exception (an [HTTPException]
      with its status code and detail, or an unhandled Python error).
    - [datetime.now], [uuid.uuid4] and [bcrypt.gensalt] read the outside
      world; the values they produce are arguments of the handler that
      calls them.  Time is counted in whole seconds since the epoch, the
      resolution of a JWT [exp] claim.
    - Python integers are [Z]; Python floats are the rationals that are
      binary64 values, see [Float].
    - The store holds BSON documents, whose integers are 64-bit: a write
      whose document holds another integer raises [OverflowError] in the
      driver and leaves the store as it was, see [Bson]. *)

From Stdlib Require Import ZArith QArith Qabs Qround Qpower Lia Lqa String List Bool.
From Stdlib Require Import DecimalString.
From stdpp Require Import base tactics option list strings.
From stdpp Require Import sorting.

#[local] Open Scope Z_scope.
#[local] Open Scope string_scope.
#[local] Open Scope list_scope.

(** ** Documents *)

(** [datetime.now(timezone.utc)] in seconds since the epoch; the source
    stores its [isoformat()]. *)
Abbreviation datetime := Z (only parsing).

(** [class CartItem(BaseModel)] *)
Module CartItem.
Record t := mk {
    product_id : string;
    quantity : Z;
    size : string;
    color : string
}.
End CartItem.

(** A cart document, as [add_to_cart] inserts it. *)
Module Cart.
Record t := mk {
    user_id : string;
    items : list CartItem.t;
    updated_at : datetime
}.
End Cart.

(** The user document that [register] inserts. *)
Module UserDoc.
Record t := mk {
    id : string;
    name : string;
    email : string;
    password : string;
    is_admin : bool;
    wishlist : list string;
    created_at : datetime
}.
End UserDoc.

(** The user dictionary a handler receives from [get_current_user]: the
    document under the projection [{'_id': 0, 'password': 0}]. *)
Module User.
Record t := mk {
    id : string;
    name : string;
    email : string;
    is_admin : bool;
    wishlist : list string;
    created_at : datetime
}.
End User.

(** A Python [float] is modelled by its numeric value, a rational (the sign
    of a zero is not kept); [Float] below gives the binary64 operations. *)
Abbreviation float := Q (only parsing).

(** [class Product(BaseModel)]: the document [create_product] inserts. *)
Module Product.
Record t := mk {
    id : string;
    name : string;
    description : string;
    price : float;
    images : list string;
    sizes : list string;
    colors : list string;
    design_category : string;
    stock : Z;
    rating : float;
    review_count : Z;
    created_at : datetime
}.
End Product.

(** [class ReviewCreate(BaseModel)] *)
Module ReviewCreate.
Record t := mk {
    rating : Z;
    comment : string
}.
End ReviewCreate.

(** [class Review(BaseModel)]: the [review_doc] of [create_review]. *)
Module Review.
Record t := mk {
    id : string;
    product_id : string;
    user_id : string;
    user_name : string;
    rating : Z;
    comment : string;
    created_at : datetime
}.
End Review.

(** [class OrderItem(BaseModel)] *)
Module OrderItem.
Record t := mk {
    product_id : string;
    product_name : string;
    quantity : Z;
    size : string;
    color : string;
    price : float
}.
End OrderItem.

(** A [dict] of the request body that the handlers pass on unread. *)
Abbreviation dict := (list (string * string)) (only parsing).

(** [class OrderCreate(BaseModel)] *)
Module OrderCreate.
Record t := mk {
    items : list OrderItem.t;
    total_amount : float;
    shipping_address : dict
}.
End OrderCreate.

(** [class Order(BaseModel)]: the [order_doc] of [create_order]. *)
Module Order.
Record t := mk {
    id : string;
    user_id : string;
    user_name : string;
    user_email : string;
    items : list OrderItem.t;
    total_amount : float;
    shipping_address : dict;
    status : string;
    created_at : datetime
}.
End Order.

(** ** The document store *)

(** [db]: the five collections the handlers use. *)
Module Db.
Record t := mk {
    users : list UserDoc.t;
    products : list Product.t;
    reviews : list Review.t;
    carts : list Cart.t;
    orders : list Order.t
}.
Definition empty : t := mk [] [] [] [] [].
End Db.

(** What a handler can raise: [HTTPException(status_code, detail)], or a
    Python error no handler catches (the framework answers 500). *)
Inductive exn :=
  | HTTPException (status_code : Z) (detail : string)
  | ZeroDivisionError
  | OverflowError.

Inductive outcome (A : Type) :=
  | Return (a : A)
  | Raise (e : exn).
Arguments Return {A} a.
Arguments Raise {A} e.

(** A coroutine of the server: it reads and writes the store and ends in an
    outcome. *)
Definition handler (A : Type) : Type := Db.t -> outcome A * Db.t.

Definition ret {A} (a : A) : handler A := fun db => (Return a, db).

Definition raise {A} (e : exn) : handler A := fun db => (Raise e, db).

Definition bind {A B} (m : handler A) (k : A -> handler B) : handler B :=
  fun db =>
    match m db with
    | (Return a, db') => k a db'
    | (Raise e, db') => (Raise e, db')
    end.

Notation "x <- m ;; k" := (bind m (fun x => k))
  (at level 100, m at next level, right associativity,
   format "'[v' x  <-  m  ;;  '/' k ']'").
Notation "m ;;; k" := (bind m (fun _ => k))
  (at level 100, right associativity,
   format "'[v' m  ;;;  '/' k ']'").

(** A collection of the store: how to read it and how to replace it. *)
Record collection (A : Type) := Collection {
    docs : Db.t -> list A;
    put : list A -> Db.t -> Db.t
}.
Arguments docs {A} c db.
Arguments put {A} c l db.

Definition users : collection UserDoc.t :=
  Collection _ Db.users
    (fun l d => Db.mk l (Db.products d) (Db.reviews d) (Db.carts d) (Db.orders d)).
Definition products : collection Product.t :=
  Collection _ Db.products
    (fun l d => Db.mk (Db.users d) l (Db.reviews d) (Db.carts d) (Db.orders d)).
Definition reviews : collection Review.t :=
  Collection _ Db.reviews
    (fun l d => Db.mk (Db.users d) (Db.products d) l (Db.carts d) (Db.orders d)).
Definition carts : collection Cart.t :=
  Collection _ Db.carts
    (fun l d => Db.mk (Db.users d) (Db.products d) (Db.reviews d) l (Db.orders d)).
Definition orders : collection Order.t :=
  Collection _ Db.orders
    (fun l d => Db.mk (Db.users d) (Db.products d) (Db.reviews d) (Db.carts d) l).

(** The first document of a list that matches a query. *)
Fixpoint first_match {A} (q : A -> bool) (l : list A) : option A :=
  match l with
  | [] => None
  | d :: l' => if q d then Some d else first_match q l'
  end.

(** [$set] on the first document that matches. *)
Fixpoint set_first {A} (q : A -> bool) (upd : A -> A) (l : list A) : list A :=
  match l with
  | [] => []
  | d :: l' => if q d then upd d :: l' else d :: set_first q upd l'
  end.

(** The list without its first document that matches. *)
Fixpoint drop_first {A} (q : A -> bool) (l : list A) : list A :=
  match l with
  | [] => []
  | d :: l' => if q d then l' else d :: drop_first q l'
  end.

(** All documents that match, in store order. *)
Fixpoint matching {A} (q : A -> bool) (l : list A) : list A :=
  match l with
  | [] => []
  | d :: l' => if q d then d :: matching q l' else matching q l'
  end.

(** [await db.c.find_one(q)] *)
Definition find_one {A} (c : collection A) (q : A -> bool) : handler (option A) :=
  fun db => (Return (first_match q (docs c db)), db).

(** The integers BSON holds: 64-bit, signed. *)
Definition bson_int (z : Z) : bool := Z.leb (- 2 ^ 63) z && Z.ltb z (2 ^ 63).
Arguments bson_int : simpl never.

(** Whether PyMongo can encode a value for the server.  It encodes a
    document before it sends anything, and asked to encode a Python [int]
    that is no BSON integer it raises [OverflowError] ("MongoDB can only
    handle up to 8-byte ints").  Strings, floats, booleans and lists of
    them always encode, so a value encodes when its integers do. *)
Class Bson (A : Type) := encodable : A -> bool.

(** The [items] of a cart: the [quantity] of each is its one integer. *)
#[global] Instance cart_items_bson : Bson (list CartItem.t) :=
  forallb (fun item => bson_int (CartItem.quantity item)).

#[global] Instance cart_bson : Bson Cart.t := fun c => encodable (Cart.items c).

(** A user document holds no integer, and neither does a wishlist. *)
#[global] Instance user_bson : Bson UserDoc.t := fun _ => true.

#[global] Instance wishlist_bson : Bson (list string) := fun _ => true.

(** The integers of a product are [stock] and [review_count]. *)
#[global] Instance product_bson : Bson Product.t :=
  fun p => bson_int (Product.stock p) && bson_int (Product.review_count p).

(** The fields [rating] (a float) and [review_count] that [create_review]
    sets on a product. *)
#[global] Instance aggregate_bson : Bson (float * Z) := fun fields => bson_int fields.2.

#[global] Instance review_bson : Bson Review.t := fun r => bson_int (Review.rating r).

(** The integers of an order are the quantities of its items (the
    address is held with string values here). *)
#[global] Instance order_bson : Bson Order.t :=
  fun o => forallb (fun item => bson_int (OrderItem.quantity item)) (Order.items o).

(** [await db.c.insert_one(doc)] *)
Definition insert_one {A} `{Bson A} (c : collection A) (doc : A) : handler unit :=
  fun db =>
    if encodable doc then (Return tt, put c (docs c db ++ [doc]) db)
    else (Raise OverflowError, db).

(** [await db.c.update_one(q, {'$set': {...}})]: [fields] are the values of
    the update document in which an integer can occur (a time stamp set
    with them is a string), and [upd] is what setting the update document
    does to the document that matches. *)
Definition update_one {A F} `{Bson F} (c : collection A) (q : A -> bool) (fields : F)
    (upd : A -> A) : handler unit :=
  fun db =>
    if encodable fields then (Return tt, put c (set_first q upd (docs c db)) db)
    else (Raise OverflowError, db).

(** [await db.c.delete_one(q)]; the value is [deleted_count]. *)
Definition delete_one {A} (c : collection A) (q : A -> bool) : handler Z :=
  fun db =>
    (Return (match first_match q (docs c db) with Some _ => 1 | None => 0 end),
     put c (drop_first q (docs c db)) db).

(** [await db.c.find(q).to_list(n)] *)
Definition find_to_list {A} (c : collection A) (q : A -> bool) (n : nat) : handler (list A) :=
  fun db => (Return (take n (matching q (docs c db))), db).

(** ** Cart routes *)

(** The query [{'user_id': uid}] on [db.carts]. *)
Definition cart_of (uid : string) (c : Cart.t) : bool :=
  String.eqb (Cart.user_id c) uid.

(** [existing_item['product_id'] == product_id and existing_item['size'] ==
    size and existing_item['color'] == color] *)
Definition same_key (existing_item : CartItem.t) (product_id size color : string) : bool :=
  String.eqb (CartItem.product_id existing_item) product_id
  && String.eqb (CartItem.size existing_item) size
  && String.eqb (CartItem.color existing_item) color.

(** [item['quantity'] = q] *)
Definition with_quantity (item : CartItem.t) (q : Z) : CartItem.t :=
  CartItem.mk (CartItem.product_id item) q (CartItem.size item) (CartItem.color item).

(** The [for ... enumerate(items)] loop of [add_to_cart]: the items after
    the loop and the flag [found]. *)
Fixpoint add_to_cart_loop (item : CartItem.t) (items : list CartItem.t)
  : list CartItem.t * bool :=
  match items with
  | [] => ([], false)
  | existing_item :: rest =>
      if same_key existing_item
           (CartItem.product_id item) (CartItem.size item) (CartItem.color item)
      then (with_quantity existing_item
              (CartItem.quantity existing_item + CartItem.quantity item) :: rest,
            true)
      else
        let '(rest', found) := add_to_cart_loop item rest in
        (existing_item :: rest', found)
  end.

(** The [else] branch of [add_to_cart] up to the store update: the loop, then
    [if not found: items.append(...)]. *)
Definition add_to_cart_items (item : CartItem.t) (items : list CartItem.t)
  : list CartItem.t :=
  let '(items', found) := add_to_cart_loop item items in
  if negb found then items' ++ [item] else items'.

(** [{'$set': {'items': items, 'updated_at': now}}] *)
Definition set_items (items : list CartItem.t) (now : datetime) (c : Cart.t) : Cart.t :=
  Cart.mk (Cart.user_id c) items now.

(** [POST /cart] *)
Definition add_to_cart (now : datetime) (item : CartItem.t) (user : User.t)
  : handler string :=
  cart <- find_one carts (cart_of (User.id user)) ;;
  match cart with
  | None =>
      insert_one carts (Cart.mk (User.id user) [item] now)
  | Some cart =>
      let items := add_to_cart_items item (Cart.items cart) in
      update_one carts (cart_of (User.id user)) items (set_items items now)
  end ;;;
  ret "Item added to cart".

(** The [for item in items] loop of [update_cart_item]. *)
Fixpoint update_cart_item_loop (product_id : string) (quantity : Z) (size color : string)
    (items : list CartItem.t) : list CartItem.t :=
  match items with
  | [] => []
  | item :: rest =>
      if same_key item product_id size color
      then with_quantity item quantity :: rest
      else item :: update_cart_item_loop product_id quantity size color rest
  end.

(** [PUT /cart/{product_id}] *)
Definition update_cart_item (now : datetime) (product_id : string) (quantity : Z)
    (size color : string) (user : User.t) : handler string :=
  cart <- find_one carts (cart_of (User.id user)) ;;
  match cart with
  | None => raise (HTTPException 404 "Cart not found")
  | Some cart =>
      let items := update_cart_item_loop product_id quantity size color (Cart.items cart) in
      update_one carts (cart_of (User.id user)) items (set_items items now) ;;;
      ret "Cart updated"
  end.

(** [DELETE /cart/{product_id}] *)
Definition remove_from_cart (now : datetime) (product_id size color : string)
    (user : User.t) : handler string :=
  cart <- find_one carts (cart_of (User.id user)) ;;
  match cart with
  | None => raise (HTTPException 404 "Cart not found")
  | Some cart =>
      let items :=
        matching (fun item => negb (same_key item product_id size color)) (Cart.items cart) in
      update_one carts (cart_of (User.id user)) items (set_items items now) ;;;
      ret "Item removed from cart"
  end.

(** [GET /cart] *)
Definition get_cart (now : datetime) (user : User.t) : handler Cart.t :=
  cart <- find_one carts (cart_of (User.id user)) ;;
  match cart with
  | None => ret (Cart.mk (User.id user) [] now)
  | Some cart => ret cart
  end.

(** ** Wishlist routes *)

(** The query [{'id': uid}] on [db.users]. *)
Definition user_with_id (uid : string) (u : UserDoc.t) : bool :=
  String.eqb (UserDoc.id u) uid.

(** [product_id in wishlist] *)
Fixpoint contains (x : string) (l : list string) : bool :=
  match l with
  | [] => false
  | y :: l' => String.eqb y x || contains x l'
  end.

(** [{'$set': {'wishlist': wishlist}}] *)
Definition set_wishlist (wishlist : list string) (u : UserDoc.t) : UserDoc.t :=
  UserDoc.mk (UserDoc.id u) (UserDoc.name u) (UserDoc.email u) (UserDoc.password u)
    (UserDoc.is_admin u) wishlist (UserDoc.created_at u).

(** [POST /wishlist/{product_id}] *)
Definition add_to_wishlist (product_id : string) (user : User.t) : handler string :=
  let wishlist := User.wishlist user in
  (if negb (contains product_id wishlist)
   then update_one users (user_with_id (User.id user)) (wishlist ++ [product_id])
          (set_wishlist (wishlist ++ [product_id]))
   else ret tt) ;;;
  ret "Added to wishlist".

(** [DELETE /wishlist/{product_id}]; [list.remove] drops the first
    occurrence. *)
Definition remove_from_wishlist (product_id : string) (user : User.t) : handler string :=
  let wishlist := User.wishlist user in
  (if contains product_id wishlist
   then update_one users (user_with_id (User.id user))
          (drop_first (fun y => String.eqb y product_id) wishlist)
          (set_wishlist (drop_first (fun y => String.eqb y product_id) wishlist))
   else ret tt) ;;;
  ret "Removed from wishlist".

(** ** Order routes *)

(** The [order_doc] of [create_order]. *)
Definition order_doc (order_id : string) (now : datetime) (order_data : OrderCreate.t)
    (user : User.t) : Order.t :=
  Order.mk order_id (User.id user) (User.name user) (User.email user)
    (OrderCreate.items order_data) (OrderCreate.total_amount order_data)
    (OrderCreate.shipping_address order_data) "pending" now.

(** [POST /orders]; [order_id] is the [uuid.uuid4()] of the call.  The
    confirmation e-mail is printed to the server's output and touches
    neither the store nor the response. *)
Definition create_order (order_id : string) (now : datetime) (order_data : OrderCreate.t)
    (user : User.t) : handler Order.t :=
  insert_one orders (order_doc order_id now order_data user) ;;;
  delete_one carts (cart_of (User.id user)) ;;;
  ret (order_doc order_id now order_data user).

(** ** Binary64 arithmetic *)

Module Float.
#[local] Open Scope Q_scope.

(** The integer nearest to [q], a tie going to the even one. *)
Definition round_half_even (q : Q) : Z :=
  let f := Qfloor q in
  match Qcompare (q - inject_Z f) (1 # 2) with
  | Lt => f
  | Gt => (f + 1)%Z
  | Eq => if Z.even f then f else (f + 1)%Z
  end.

(** For [q > 0], the [l] with [2^l <= q < 2^(l+1)]. *)
Definition floor_log2 (q : Q) : Z :=
  let l := (Z.log2 (Qnum q) - Z.log2 (Zpos (Qden q)))%Z in
  if Qle_bool (2 ^ l) q then l else (l - 1)%Z.

(** The exponent of the last of the 53 significant bits of a binary64
    value near [q]; it is at least -1074 (the subnormal range). *)
Definition exponent (q : Q) : Z :=
  (Z.max (floor_log2 (Qabs q)) (-1022) - 52)%Z.

(** The binary64 value nearest to [q], ties to even, in lowest terms;
    [None] when it is out of range. *)
Definition nearest (q : Q) : option Q :=
  if Qeq_bool q 0 then Some 0
  else
    let e := exponent q in
    let r := Qred (inject_Z (round_half_even (q / 2 ^ e)) * 2 ^ e) in
    if Qle_bool (2 ^ 1024) (Qabs r) then None else Some r.

(** [a / b] on Python integers: the quotient correctly rounded. *)
Definition truediv (a b : Z) : outcome Q :=
  if (b =? 0)%Z then Raise ZeroDivisionError
  else
    match nearest (inject_Z a / inject_Z b) with
    | Some x => Return x
    | None => Raise OverflowError
    end.

(** [round(x, 1)]: the decimal with one fractional digit nearest to the
    value of [x], ties to even, read back as a float. *)
Definition round1 (x : Q) : outcome Q :=
  match nearest (inject_Z (round_half_even (x * 10)) / 10) with
  | Some y => Return y
  | None => Raise OverflowError
  end.

End Float.

(** ** Review routes *)

(** The query [{'id': pid}] on [db.products]. *)
Definition product_with_id (pid : string) (p : Product.t) : bool :=
  String.eqb (Product.id p) pid.

(** The query [{'product_id': pid}] on [db.reviews]. *)
Definition review_of_product (pid : string) (r : Review.t) : bool :=
  String.eqb (Review.product_id r) pid.

(** The query [{'product_id': pid, 'user_id': uid}] on [db.reviews]. *)
Definition review_of_product_by (pid uid : string) (r : Review.t) : bool :=
  String.eqb (Review.product_id r) pid && String.eqb (Review.user_id r) uid.

(** [sum(r['rating'] for r in reviews)] *)
Fixpoint sum_ratings (reviews : list Review.t) : Z :=
  match reviews with
  | [] => 0
  | r :: rest => Review.rating r + sum_ratings rest
  end.

(** [{'$set': {'rating': rating, 'review_count': review_count}}] *)
Definition set_rating (rating : float) (review_count : Z) (p : Product.t) : Product.t :=
  Product.mk (Product.id p) (Product.name p) (Product.description p) (Product.price p)
    (Product.images p) (Product.sizes p) (Product.colors p) (Product.design_category p)
    (Product.stock p) rating review_count (Product.created_at p).

(** A Python expression that may raise, inside a coroutine. *)
Definition eval {A} (o : outcome A) : handler A := fun db => (o, db).

(** The [review_doc] of [create_review]. *)
Definition review_doc (review_id : string) (now : datetime) (product_id : string)
    (review_data : ReviewCreate.t) (user : User.t) : Review.t :=
  Review.mk review_id product_id (User.id user) (User.name user)
    (ReviewCreate.rating review_data) (ReviewCreate.comment review_data) now.

(** [POST /products/{product_id}/reviews]; [review_id] is the
    [uuid.uuid4()] of the call. *)
Definition create_review (review_id : string) (now : datetime) (product_id : string)
    (review_data : ReviewCreate.t) (user : User.t) : handler Review.t :=
  product <- find_one products (product_with_id product_id) ;;
  match product with
  | None => raise (HTTPException 404 "Product not found")
  | Some _ =>
      existing <- find_one reviews (review_of_product_by product_id (User.id user)) ;;
      match existing with
      | Some _ => raise (HTTPException 400 "You already reviewed this product")
      | None =>
          let review_doc := review_doc review_id now product_id review_data user in
          insert_one reviews review_doc ;;;
          reviews <- find_to_list reviews (review_of_product product_id) 1000 ;;
          avg_rating <- eval (Float.truediv (sum_ratings reviews)
                                (Z.of_nat (length reviews))) ;;
          rating <- eval (Float.round1 avg_rating) ;;
          update_one products (product_with_id product_id)
            (rating, Z.of_nat (length reviews))
            (set_rating rating (Z.of_nat (length reviews))) ;;;
          ret review_doc
      end
  end.

(** ** Product routes *)

(** [class ProductCreate(BaseModel)] *)
Module ProductCreate.
Record t := mk {
    name : string;
    description : string;
    price : float;
    images : list string;
    sizes : list string;
    colors : list string;
    design_category : string;
    stock : Z
}.
End ProductCreate.

(** The one integer of the request body is [stock]. *)
#[global] Instance product_data_bson : Bson ProductCreate.t :=
  fun product_data => bson_int (ProductCreate.stock product_data).

(** The [product_doc] of [create_product]. *)
Definition product_doc (product_id : string) (now : datetime)
    (product_data : ProductCreate.t) : Product.t :=
  Product.mk product_id (ProductCreate.name product_data)
    (ProductCreate.description product_data) (ProductCreate.price product_data)
    (ProductCreate.images product_data) (ProductCreate.sizes product_data)
    (ProductCreate.colors product_data) (ProductCreate.design_category product_data)
    (ProductCreate.stock product_data) 0%Q 0 now.

(** [{'$set': product_data.model_dump()}] *)
Definition set_product_data (product_data : ProductCreate.t) (p : Product.t) : Product.t :=
  Product.mk (Product.id p) (ProductCreate.name product_data)
    (ProductCreate.description product_data) (ProductCreate.price product_data)
    (ProductCreate.images product_data) (ProductCreate.sizes product_data)
    (ProductCreate.colors product_data) (ProductCreate.design_category product_data)
    (ProductCreate.stock product_data) (Product.rating p) (Product.review_count p)
    (Product.created_at p).

(** [if not user.get('is_admin'): raise ...], the body of [get_admin_user]. *)
Definition get_admin_user (user : User.t) : handler User.t :=
  if negb (User.is_admin user)
  then raise (HTTPException 403 "Admin access required")
  else ret user.

(** [POST /products] *)
Definition create_product (product_id : string) (now : datetime)
    (product_data : ProductCreate.t) (admin : User.t) : handler Product.t :=
  insert_one products (product_doc product_id now product_data) ;;;
  ret (product_doc product_id now product_data).

(** [PUT /products/{product_id}] *)
Definition update_product (product_id : string) (product_data : ProductCreate.t)
    (admin : User.t) : handler (option Product.t) :=
  result <- find_one products (product_with_id product_id) ;;
  match result with
  | None => raise (HTTPException 404 "Product not found")
  | Some _ =>
      update_one products (product_with_id product_id) product_data
        (set_product_data product_data) ;;;
      find_one products (product_with_id product_id)
  end.

(** [DELETE /products/{product_id}] *)
Definition delete_product (product_id : string) (admin : User.t) : handler string :=
  deleted_count <- delete_one products (product_with_id product_id) ;;
  if Z.eqb deleted_count 0
  then raise (HTTPException 404 "Product not found")
  else ret "Product deleted".

(** ** Authentication *)

(** A JSON web token as [jwt.encode] builds it and [jwt.decode] reads it. *)
Module Jwt.

(** The claims this server uses; a token from elsewhere may lack either. *)
Record payload := Payload {
    user_id : option string;
    exp : option Z
}.

(** The string a client presents: three parts (the header's [alg], the
    claims, the signature), or something [jwt.decode] cannot parse. *)
Inductive token :=
  | Compact (alg : string) (claims : payload) (signature : string)
  | Malformed (s : string).

(** [jwt.ExpiredSignatureError] is caught before its base class
    [jwt.InvalidTokenError], which stands for every other decoding error. *)
Inductive error :=
  | ExpiredSignatureError
  | InvalidTokenError.

Section Signing.
(** The MAC of the signing input (header and claims) under a key. *)
Variable hmac_sha256 : string -> string -> payload -> string.

(** [jwt.encode(payload, key, algorithm=alg)] *)
Definition encode (claims : payload) (key alg : string) : token :=
  Compact alg claims (hmac_sha256 key alg claims).

(** [jwt.decode(token, key, algorithms=[alg])] at time [now]: the signature
    is checked first, then [exp] when the claims have one; a token is
    expired from the second [exp] on. *)
Definition decode (now : Z) (t : token) (key alg : string) : payload + error :=
  match t with
  | Malformed _ => inr InvalidTokenError
  | Compact alg' claims signature =>
      if negb (String.eqb alg' alg) then inr InvalidTokenError
      else if negb (String.eqb signature (hmac_sha256 key alg' claims))
      then inr InvalidTokenError
      else
        match exp claims with
        | Some exp => if Z.leb exp now then inr ExpiredSignatureError else inl claims
        | None => inl claims
        end
  end.
End Signing.
End Jwt.

(** [class UserCreate(BaseModel)] *)
Module UserCreate.
Record t := mk {
    name : string;
    email : string;
    password : string
}.
End UserCreate.

(** [class UserLogin(BaseModel)] *)
Module UserLogin.
Record t := mk {
    email : string;
    password : string
}.
End UserLogin.

(** The [user] object of the responses of [register] and [login]. *)
Module PublicUser.
Record t := mk {
    id : string;
    name : string;
    email : string;
    is_admin : bool
}.
End PublicUser.

(** [{'token': token, 'user': {...}}] *)
Module AuthResponse.
Record t := mk {
    token : Jwt.token;
    user : PublicUser.t
}.
End AuthResponse.

(** The projection [{'_id': 0, 'password': 0}] of a user document. *)
Definition without_password (u : UserDoc.t) : User.t :=
  User.mk (UserDoc.id u) (UserDoc.name u) (UserDoc.email u) (UserDoc.is_admin u)
    (UserDoc.wishlist u) (UserDoc.created_at u).

(** The query [{'email': email}] on [db.users]. *)
Definition user_with_email (email : string) (u : UserDoc.t) : bool :=
  String.eqb (UserDoc.email u) email.

(** The query [{'id': payload.get('user_id')}]: no stored user has a null
    [id], so a token without the claim finds nobody. *)
Definition user_with_claimed_id (user_id : option string) (u : UserDoc.t) : bool :=
  match user_id with
  | Some uid => user_with_id uid u
  | None => false
  end.

Definition JWT_ALGORITHM : string := "HS256".

(** [timedelta(days=7)] in seconds. *)
Definition seven_days : Z := (7 * 86400)%Z.

Section Auth.

(** The signing secret read from the environment, and the library
    functions [hmac] (inside PyJWT), [bcrypt.hashpw] (with the salt of
    [bcrypt.gensalt()]) and [bcrypt.checkpw]. *)
Variable JWT_SECRET : string.
Variable hmac_sha256 : string -> string -> Jwt.payload -> string.
Variable bcrypt_hashpw : string -> string -> string.
Variable bcrypt_checkpw : string -> string -> bool.

(** [hash_password], with the salt [bcrypt.gensalt()] drew. *)
Definition hash_password (salt password : string) : string :=
  bcrypt_hashpw password salt.

(** [verify_password] *)
Definition verify_password (password hashed : string) : bool :=
  bcrypt_checkpw password hashed.

(** [create_token], called at time [now]. *)
Definition create_token (now : datetime) (user_id : string) : Jwt.token :=
  let payload := Jwt.Payload (Some user_id) (Some (now + seven_days)) in
  Jwt.encode hmac_sha256 payload JWT_SECRET JWT_ALGORITHM.

(** [get_current_user], called at time [now] with the bearer token of the
    request. *)
Definition get_current_user (now : datetime) (token : Jwt.token) : handler User.t :=
  match Jwt.decode hmac_sha256 now token JWT_SECRET JWT_ALGORITHM with
  | inl payload =>
      user <- find_one users (user_with_claimed_id (Jwt.user_id payload)) ;;
      match user with
      | None => raise (HTTPException 401 "User not found")
      | Some user => ret (without_password user)
      end
  | inr Jwt.ExpiredSignatureError => raise (HTTPException 401 "Token expired")
  | inr Jwt.InvalidTokenError => raise (HTTPException 401 "Invalid token")
  end.

(** [POST /auth/register]; [user_id] is the [uuid.uuid4()] of the call,
    [salt] its [bcrypt.gensalt()], [now] the time the document is stamped
    with and [now'] the time the token is issued at. *)
Definition register (user_id salt : string) (now now' : datetime)
    (user_data : UserCreate.t) : handler AuthResponse.t :=
  existing <- find_one users (user_with_email (UserCreate.email user_data)) ;;
  match existing with
  | Some _ => raise (HTTPException 400 "Email already registered")
  | None =>
      let user_doc :=
        UserDoc.mk user_id (UserCreate.name user_data) (UserCreate.email user_data)
          (hash_password salt (UserCreate.password user_data)) false [] now in
      insert_one users user_doc ;;;
      let token := create_token now' user_id in
      ret (AuthResponse.mk token
             (PublicUser.mk user_id (UserCreate.name user_data)
                (UserCreate.email user_data) false))
  end.

(** [POST /auth/login], the token issued at time [now]. *)
Definition login (now : datetime) (credentials : UserLogin.t) : handler AuthResponse.t :=
  user <- find_one users (user_with_email (UserLogin.email credentials)) ;;
  match user with
  | None => raise (HTTPException 401 "Invalid credentials")
  | Some user =>
      if negb (verify_password (UserLogin.password credentials) (UserDoc.password user))
      then raise (HTTPException 401 "Invalid credentials")
      else
        let token := create_token now (UserDoc.id user) in
        ret (AuthResponse.mk token
               (PublicUser.mk (UserDoc.id user) (UserDoc.name user) (UserDoc.email user)
                  (UserDoc.is_admin user)))
  end.

End Auth.

(** ** Routes that only read *)

(** [GET /auth/me] *)
Definition get_me (user : User.t) : handler User.t := ret user.

(** [if size:] on an optional query parameter: set and not empty. *)
Definition truthy (s : option string) : bool :=
  match s with
  | None => false
  | Some s => negb (String.eqb s "")
  end.

(** The [query] dictionary of [get_products]: a key is present when its
    parameter is truthy. *)
Module ProductQuery.
Record t := mk {
    sizes : option string;
    colors : option string;
    design_category : option string
}.
End ProductQuery.

Definition products_query (size color design : option string) : ProductQuery.t :=
  ProductQuery.mk
    (if truthy size then size else None)
    (if truthy color then color else None)
    (if truthy design then design else None).

(** A product matches the query: a scalar asked of the array fields
    [sizes] and [colors] matches when the array holds it, and
    [design_category] matches by equality; an absent key asks nothing. *)
Definition product_matches (query : ProductQuery.t) (p : Product.t) : bool :=
  match ProductQuery.sizes query with
  | Some size => contains size (Product.sizes p)
  | None => true
  end
  && match ProductQuery.colors query with
     | Some color => contains color (Product.colors p)
     | None => true
     end
  && match ProductQuery.design_category query with
     | Some design => String.eqb (Product.design_category p) design
     | None => true
     end.

(** [GET /products] *)
Definition get_products (size color design : option string) : handler (list Product.t) :=
  find_to_list products (product_matches (products_query size color design)) 1000.

(** [GET /products/{product_id}] *)
Definition get_product (product_id : string) : handler Product.t :=
  product <- find_one products (product_with_id product_id) ;;
  match product with
  | None => raise (HTTPException 404 "Product not found")
  | Some product => ret product
  end.

(** [GET /products/{product_id}/reviews] *)
Definition get_reviews (product_id : string) : handler (list Review.t) :=
  find_to_list reviews (review_of_product product_id) 1000.

(** The query [{'id': {'$in': wishlist_ids}}] on [db.products]. *)
Definition product_in (wishlist_ids : list string) (p : Product.t) : bool :=
  contains (Product.id p) wishlist_ids.

(** [GET /wishlist] *)
Definition get_wishlist (user : User.t) : handler (list Product.t) :=
  let wishlist_ids := User.wishlist user in
  match wishlist_ids with
  | [] => ret []
  | _ :: _ => find_to_list products (product_in wishlist_ids) 1000
  end.

(** [cursor.sort(field, -1)]: the documents by decreasing [field].  The
    field sorted on is [created_at], whose stored [isoformat()] strings of
    UTC times compare as the times do.  Documents with equal fields are
    kept in store order here; the properties below do not depend on how
    ties fall. *)
Fixpoint insert_desc {A} (f : A -> Z) (d : A) (l : list A) : list A :=
  match l with
  | [] => [d]
  | d' :: l' => if Z.leb (f d') (f d) then d :: d' :: l' else d' :: insert_desc f d l'
  end.

Fixpoint sort_desc {A} (f : A -> Z) (l : list A) : list A :=
  match l with
  | [] => []
  | d :: l' => insert_desc f d (sort_desc f l')
  end.

(** [await db.c.find(q).sort(field, -1).to_list(n)] *)
Definition find_sort_to_list {A} (c : collection A) (q : A -> bool) (f : A -> Z) (n : nat)
  : handler (list A) :=
  fun db => (Return (take n (sort_desc f (matching q (docs c db)))), db).

(** The query [{'user_id': uid}] on [db.orders]. *)
Definition order_of (uid : string) (o : Order.t) : bool :=
  String.eqb (Order.user_id o) uid.

(** [GET /orders] *)
Definition get_user_orders (user : User.t) : handler (list Order.t) :=
  find_sort_to_list orders (order_of (User.id user)) Order.created_at 1000.

(** [GET /admin/orders]; the query [{}] matches every order. *)
Definition get_all_orders (admin : User.t) : handler (list Order.t) :=
  find_sort_to_list orders (fun _ => true) Order.created_at 1000.

(** ** Dependencies of the routes *)

Section Routes.

Variable JWT_SECRET : string.
Variable hmac_sha256 : string -> string -> Jwt.payload -> string.

(** A route declared with [user: dict = Depends(get_current_user)]: the
    dependency runs first, at time [now] on the bearer token of the
    request, and what it raises is the answer. *)
Definition depends_current_user {A} (now : datetime) (token : Jwt.token)
    (route : User.t -> handler A) : handler A :=
  user <- get_current_user JWT_SECRET hmac_sha256 now token ;;
  route user.

(** A route declared with [admin: dict = Depends(get_admin_user)], which
    itself depends on [get_current_user]. *)
Definition depends_admin_user {A} (now : datetime) (token : Jwt.token)
    (route : User.t -> handler A) : handler A :=
  user <- get_current_user JWT_SECRET hmac_sha256 now token ;;
  admin <- get_admin_user user ;;
  route admin.

End Routes.

(** ** Notions the properties are stated with *)

(** The line items of the cart [GET /cart] finds for a user. *)
Definition line_items (uid : string) (db : Db.t) : option (list CartItem.t) :=
  Cart.items <$> first_match (cart_of uid) (Db.carts db).

(** The (product, size, color) tuple of a line item. *)
Definition key (item : CartItem.t) : string * string * string :=
  (CartItem.product_id item, CartItem.size item, CartItem.color item).

(** At most one line item per (product, size, color) tuple. *)
Definition unique_keys (items : list CartItem.t) : Prop :=
  NoDup (key <$> items).

(** The user dictionary [get_current_user] hands to a handler when the
    token names [uid]: the first document with that [id], without its
    password. *)
Definition stored_user (uid : string) (db : Db.t) : option User.t :=
  without_password <$> first_match (user_with_id uid) (Db.users db).

(** Two readings of one account: everything but the wishlist agrees. *)
Definition same_account (u u' : User.t) : Prop :=
  User.id u' = User.id u
  /\ User.name u' = User.name u
  /\ User.email u' = User.email u
  /\ User.is_admin u' = User.is_admin u
  /\ User.created_at u' = User.created_at u.

(** The query [{'id': oid}] on [db.orders]. *)
Definition order_with_id (oid : string) (o : Order.t) : bool :=
  String.eqb (Order.id o) oid.

(** The reviews [create_review] reads back for a product: the cursor's
    [to_list(1000)]. *)
Definition reviews_read (product_id : string) (db : Db.t) : list Review.t :=
  take 1000 (matching (review_of_product product_id) (Db.reviews db)).

(** The rating and the count [create_review] computes from the reviews it
    read, or the error the computation raises. *)
Definition aggregate (reviews : list Review.t) : outcome (float * Z) :=
  match Float.truediv (sum_ratings reviews) (Z.of_nat (length reviews)) with
  | Raise e => Raise e
  | Return avg_rating =>
      match Float.round1 avg_rating with
      | Raise e => Raise e
      | Return rating => Return (rating, Z.of_nat (length reviews))
      end
  end.

(** The exact arithmetic mean of the ratings of a list of reviews. *)
Definition mean (reviews : list Review.t) : Q :=
  (inject_Z (sum_ratings reviews) / inject_Z (Z.of_nat (length reviews)))%Q.

(** [k / 10] is a decimal with one fractional digit nearest to [q]. *)
Definition nearest_tenth (q : Q) (k : Z) : Prop :=
  (Qabs (q * 10 - inject_Z k) <= 1 # 2)%Q.

(** One request that may write to the store.  A handler that depends on
    [get_current_user] runs on the stored user of some id (whichever the
    token names); the admin gate only refuses requests, so it is left out
    here. *)
Inductive step : Db.t -> Db.t -> Prop :=
  | step_register secret hmac hashpw user_id salt now now' user_data db :
      step db (register secret hmac hashpw user_id salt now now' user_data db).2
  | step_create_product product_id now product_data admin db :
      step db (create_product product_id now product_data admin db).2
  | step_update_product product_id product_data admin db :
      step db (update_product product_id product_data admin db).2
  | step_delete_product product_id admin db :
      step db (delete_product product_id admin db).2
  | step_create_review review_id now product_id review_data user db :
      stored_user (User.id user) db = Some user ->
      step db (create_review review_id now product_id review_data user db).2
  | step_add_to_cart now item user db :
      stored_user (User.id user) db = Some user ->
      step db (add_to_cart now item user db).2
  | step_update_cart_item now product_id quantity size color user db :
      stored_user (User.id user) db = Some user ->
      step db (update_cart_item now product_id quantity size color user db).2
  | step_remove_from_cart now product_id size color user db :
      stored_user (User.id user) db = Some user ->
      step db (remove_from_cart now product_id size color user db).2
  | step_add_to_wishlist product_id user db :
      stored_user (User.id user) db = Some user ->
      step db (add_to_wishlist product_id user db).2
  | step_remove_from_wishlist product_id user db :
      stored_user (User.id user) db = Some user ->
      step db (remove_from_wishlist product_id user db).2
  | step_create_order order_id now order_data user db :
      stored_user (User.id user) db = Some user ->
      step db (create_order order_id now order_data user db).2.

(** Any number of requests. *)
Inductive steps : Db.t -> Db.t -> Prop :=
  | steps_refl db : steps db db
  | steps_step db db' db'' : steps db db' -> step db' db'' -> steps db db''.

(** The data model's shape of a store: a wishlist is a set, a cart is keyed
    by its user, a cart has one line item per key. *)
Record well_formed (db : Db.t) : Prop := WellFormed {
    wishlists_are_sets : Forall (fun u => NoDup (UserDoc.wishlist u)) (Db.users db);
    one_cart_per_user : NoDup (Cart.user_id <$> Db.carts db);
    one_item_per_key : Forall (fun c => unique_keys (Cart.items c)) (Db.carts db)
}.

(** What an optional query parameter asks: nothing when it is absent or
    empty, [P] of its value otherwise. *)
Definition asked (param : option string) (P : string -> Prop) : Prop :=
  forall s, param = Some s -> s <> "" -> P s.

(** What the three parameters of [GET /products] ask of a product. *)
Definition wanted (size color design : option string) (p : Product.t) : Prop :=
  asked size (fun s => s ∈ Product.sizes p)
  /\ asked color (fun c => c ∈ Product.colors p)
  /\ asked design (fun d => Product.design_category p = d).

(** A product carries the eight fields of a request body. *)
Definition carries (product_data : ProductCreate.t) (p : Product.t) : Prop :=
  Product.name p = ProductCreate.name product_data
  /\ Product.description p = ProductCreate.description product_data
  /\ Product.price p = ProductCreate.price product_data
  /\ Product.images p = ProductCreate.images product_data
  /\ Product.sizes p = ProductCreate.sizes product_data
  /\ Product.colors p = ProductCreate.colors product_data
  /\ Product.design_category p = ProductCreate.design_category product_data
  /\ Product.stock p = ProductCreate.stock product_data.

(** The (product, user) pair a review is about. *)
Definition review_pair (r : Review.t) : string * string :=
  (Review.product_id r, Review.user_id r).

(** What [login] reads of the account behind an e-mail: the id, name,
    password hash and admin flag of the first user who has it. *)
Definition credentials (u : UserDoc.t) : string * string * string * bool :=
  (UserDoc.id u, UserDoc.name u, UserDoc.password u, UserDoc.is_admin u).


(** Newest first: no order is listed before a later one. *)
Definition newest_first : list Order.t -> Prop :=
  StronglySorted (fun a b => Order.created_at b <= Order.created_at a).

(** The store holds BSON documents only, as the store of a server does: a
    document enters it through a write, and a write encodes it. *)
Definition bson_store (db : Db.t) : Prop :=
  Forall (fun p => encodable p = true) (Db.products db)
  /\ Forall (fun r => encodable r = true) (Db.reviews db)
  /\ Forall (fun c => encodable c = true) (Db.carts db)
  /\ Forall (fun o => encodable o = true) (Db.orders db).

(** ** Stores to run the handlers on *)

Definition alice_doc : UserDoc.t :=
  UserDoc.mk "u1" "Alice" "alice@example.org" "$2b$12$hash.of.alice" false ["p1"] 50.

Definition alice : User.t := without_password alice_doc.

(** The tee [p1] in size M, red. *)
Definition tee (quantity : Z) : CartItem.t := CartItem.mk "p1" quantity "M" "red".

(** Alice has registered, wishes for [p1] and holds two red tees in her
    cart. *)
Definition shop : Db.t :=
  Db.mk [alice_doc] [] [] [Cart.mk "u1" [tee 2] 100] [].

(** What Alice submits as an order: one item that was never in her cart. *)
Definition alice_order : OrderCreate.t :=
  OrderCreate.mk [OrderItem.mk "p9" "Cap" 1 "one size" "black" (25 # 1)] (25 # 1)
    [("city", "Kochi")].

(** Stand-ins for the library functions, to run the handlers of [Auth]: a
    MAC that joins key, algorithm and subject, a hash that joins salt and
    password, and a check that accepts Alice's password [alice]. *)
Definition toy_hmac (key alg : string) (claims : Jwt.payload) : string :=
  key ++ "." ++ alg ++ "." ++ default "" (Jwt.user_id claims).

Definition toy_hashpw (password salt : string) : string := salt ++ password.

Definition toy_checkpw (password hashed : string) : bool :=
  String.eqb hashed ("$2b$12$hash.of." ++ password).

(** A product with one review, of four stars. *)
Definition review_shop : Db.t :=
  Db.mk [alice_doc]
    [Product.mk "p1" "Tee" "Oversized tee" (20 # 1) [] ["M"] ["red"] "plain" 5 (4 # 1) 1 1]
    [Review.mk "rev0" "p1" "u0" "Bob" 4 "fine" 10] [] [].

(** The decimal numeral of a number, to tell a thousand reviewers apart. *)
Definition decimal (n : nat) : string := NilZero.string_of_uint (Nat.to_uint n).

(** The review of reviewer [n]: five stars from the first fifty, four from
    the others. *)
Definition old_review (n : nat) : Review.t :=
  Review.mk ("rev" ++ decimal n) "p1" ("r" ++ decimal n) "Reviewer"
    (if Nat.ltb n 50 then 5 else 4) "fine" 10.

(** The product with the aggregate [create_review] stored at its
    thousandth review: rating 4.0, count 1000. *)
Definition tee_product : Product.t :=
  Product.mk "p1" "Tee" "Oversized tee" (20 # 1) [] ["M"] ["red"] "plain" 5 (4 # 1) 1000 1.

(** A product with a thousand reviews, one reviewer each. *)
Definition busy_shop : Db.t :=
  Db.mk [alice_doc] [tee_product] (List.map old_review (seq 0 1000)) [] [].

(** ** A store with two customers *)

Definition bob_doc : UserDoc.t :=
  UserDoc.mk "u2" "Bob" "bob@example.org" "$2b$12$hash.of.bob" false [] 60.

Definition bob : User.t := without_password bob_doc.

(** The hoodie [p2] and the cap [p3]. *)
Definition hoodie_product : Product.t :=
  Product.mk "p2" "Hoodie" "Heavy hoodie" (45 # 1) [] ["L"; "XL"] ["black"] "logo" 3 (0 # 1) 0 2.

Definition cap_product : Product.t :=
  Product.mk "p3" "Cap" "Dad cap" (15 # 1) [] ["one size"] ["black"; "red"] "plain" 9 (0 # 1) 0 3.

(** An order of a user at a time; what it holds does not matter here. *)
Definition order_at (order_id uid : string) (now : datetime) : Order.t :=
  Order.mk order_id uid "N" "n@example.org" [] (0 # 1) [] "pending" now.

(** Alice and Bob, three products, Bob's review of the tee, a cart each,
    and three orders. *)
Definition market : Db.t :=
  Db.mk [alice_doc; bob_doc]
    [Product.mk "p1" "Tee" "Oversized tee" (20 # 1) [] ["M"] ["red"] "plain" 5 (4 # 1) 1 1;
     hoodie_product; cap_product]
    [Review.mk "rev0" "p1" "u2" "Bob" 4 "fine" 10]
    [Cart.mk "u1" [tee 2] 100; Cart.mk "u2" [CartItem.mk "p2" 1 "L" "black"] 110]
    [order_at "o1" "u1" 10; order_at "o2" "u2" 20; order_at "o3" "u1" 30].

(** * Properties *)

(** ** The store operations *)

Lemma first_match_app {A} (q : A -> bool) (l : list A) (d : A) :
  first_match q (l ++ [d]) =
  match first_match q l with
  | Some x => Some x
  | None => if q d then Some d else None
  end.
Proof.
  induction l as [|x l IH]; simpl; [reflexivity|].
  destruct (q x); [reflexivity|exact IH].
Qed.

Lemma first_match_Some {A} (q : A -> bool) (l : list A) (d : A) :
  first_match q l = Some d -> d ∈ l /\ q d = true.
Proof.
  induction l as [|x l IH]; simpl; [discriminate|].
  destruct (q x) eqn:Hx.
  - intros [= <-]. split; [left|assumption].
  - intros H. destruct (IH H) as [Hin Hq]. split; [right|]; assumption.
Qed.

Lemma first_match_None {A} (q : A -> bool) (l : list A) :
  first_match q l = None <-> Forall (fun d => q d = false) l.
Proof.
  induction l as [|x l IH]; simpl.
  - split; [constructor|reflexivity].
  - destruct (q x) eqn:Hx; split.
    + discriminate.
    + intros H. inversion H; subst. congruence.
    + intros H. constructor; [assumption|]. apply IH, H.
    + intros H. inversion H; subst. apply IH. assumption.
Qed.

Lemma first_match_set_first {A} (q : A -> bool) (upd : A -> A) (l : list A) :
  (forall d, q d = true -> q (upd d) = true) ->
  first_match q (set_first q upd l) = upd <$> first_match q l.
Proof.
  intros Hupd. induction l as [|x l IH]; simpl; [reflexivity|].
  destruct (q x) eqn:Hx; simpl.
  - rewrite (Hupd x Hx). reflexivity.
  - rewrite Hx. exact IH.
Qed.

Lemma Forall_set_first {A} (P : A -> Prop) (q : A -> bool) (upd : A -> A) (l : list A) :
  Forall P l -> (forall d, d ∈ l -> q d = true -> P (upd d)) -> Forall P (set_first q upd l).
Proof.
  induction l as [|x l IH]; simpl; intros Hl Hupd; [constructor|].
  inversion Hl; subst. destruct (q x) eqn:Hx.
  - constructor; [apply Hupd; [left|assumption]|assumption].
  - constructor; [assumption|]. apply IH; [assumption|].
    intros d Hd. apply Hupd. right. assumption.
Qed.

Lemma matching_sublist {A} (q : A -> bool) (l : list A) : sublist (matching q l) l.
Proof.
  induction l as [|x l IH]; simpl; [constructor|].
  destruct (q x); constructor; assumption.
Qed.

Lemma bson_int_spec (z : Z) : bson_int z = true <-> - 2 ^ 63 <= z < 2 ^ 63.
Proof. unfold bson_int. rewrite andb_true_iff, Z.leb_le, Z.ltb_lt. reflexivity. Qed.

Lemma encodable_items_cons (x : CartItem.t) (l : list CartItem.t) :
  encodable (x :: l) = bson_int (CartItem.quantity x) && encodable l.
Proof. reflexivity. Qed.

Lemma encodable_items_app (l l' : list CartItem.t) :
  encodable (l ++ l') = encodable l && encodable l'.
Proof. apply forallb_app. Qed.

Lemma encodable_items_sublist (l l' : list CartItem.t) :
  sublist l l' -> encodable l' = true -> encodable l = true.
Proof.
  induction 1 as [|x l l' _ IH|x l l' _ IH]; [reflexivity|..];
    rewrite !encodable_items_cons, ?andb_true_iff.
  - intros [Hx Hl]. auto.
  - intros [_ Hl]. auto.
Qed.

(** Running a coroutine step by step. *)
Ltac run :=
  unfold bind, find_one, insert_one, update_one, delete_one, find_to_list, ret, raise, eval;
  simpl.

(** ** Cart merge *)

Lemma same_key_true (x : CartItem.t) (p s c : string) :
  same_key x p s c = true <-> key x = (p, s, c).
Proof.
  unfold same_key, key. rewrite !andb_true_iff, !String.eqb_eq.
  split; [intros [[-> ->] ->]; reflexivity|intros [= -> -> ->]; auto].
Qed.

Lemma same_key_false (x : CartItem.t) (p s c : string) :
  same_key x p s c = false <-> key x <> (p, s, c).
Proof.
  rewrite <- same_key_true. destruct (same_key x p s c); split; congruence.
Qed.

Lemma same_key_item (item x : CartItem.t) :
  same_key x (CartItem.product_id item) (CartItem.size item) (CartItem.color item) = true
  <-> key x = key item.
Proof. apply same_key_true. Qed.

Lemma add_to_cart_loop_found (item existing : CartItem.t) (pre post : list CartItem.t) :
  Forall (fun x => key x <> key item) pre ->
  key existing = key item ->
  add_to_cart_loop item (pre ++ existing :: post) =
  (pre ++ with_quantity existing (CartItem.quantity existing + CartItem.quantity item) :: post,
   true).
Proof.
  intros Hpre Hex. induction Hpre as [|x pre Hx _ IH]; simpl.
  - apply same_key_item in Hex. rewrite Hex. reflexivity.
  - apply same_key_false in Hx. rewrite Hx, IH. reflexivity.
Qed.

Lemma add_to_cart_loop_not_found (item : CartItem.t) (items : list CartItem.t) :
  Forall (fun x => key x <> key item) items ->
  add_to_cart_loop item items = (items, false).
Proof.
  intros H. induction H as [|x items Hx _ IH]; simpl; [reflexivity|].
  apply same_key_false in Hx. rewrite Hx, IH. reflexivity.
Qed.

Lemma add_to_cart_items_found (item existing : CartItem.t) (pre post : list CartItem.t) :
  Forall (fun x => key x <> key item) pre ->
  key existing = key item ->
  add_to_cart_items item (pre ++ existing :: post) =
  pre ++ with_quantity existing (CartItem.quantity existing + CartItem.quantity item) :: post.
Proof.
  intros Hpre Hex. unfold add_to_cart_items.
  rewrite add_to_cart_loop_found by assumption. reflexivity.
Qed.

Lemma add_to_cart_items_not_found (item : CartItem.t) (items : list CartItem.t) :
  Forall (fun x => key x <> key item) items ->
  add_to_cart_items item items = items ++ [item].
Proof.
  intros H. unfold add_to_cart_items.
  rewrite add_to_cart_loop_not_found by assumption. reflexivity.
Qed.

(** What [add_to_cart] leaves in the store. *)
Lemma add_to_cart_run (now : datetime) (item : CartItem.t) (user : User.t) (db : Db.t) :
  add_to_cart now item user db =
  match first_match (cart_of (User.id user)) (Db.carts db) with
  | None =>
      if encodable [item]
      then (Return "Item added to cart",
            put carts (Db.carts db ++ [Cart.mk (User.id user) [item] now]) db)
      else (Raise OverflowError, db)
  | Some cart =>
      if encodable (add_to_cart_items item (Cart.items cart))
      then (Return "Item added to cart",
            put carts
              (set_first (cart_of (User.id user))
                 (set_items (add_to_cart_items item (Cart.items cart)) now) (Db.carts db))
              db)
      else (Raise OverflowError, db)
  end.
Proof.
  unfold add_to_cart. run.
  destruct (first_match (cart_of (User.id user)) (Db.carts db)) as [cart|].
  - destruct (encodable (add_to_cart_items item (Cart.items cart))); reflexivity.
  - change (encodable (Cart.mk (User.id user) [item] now)) with (encodable [item]).
    destruct (encodable [item]); reflexivity.
Qed.

(** The line items [add_to_cart] asks the store to hold. *)
Lemma line_items_add_to_cart (now : datetime) (item : CartItem.t) (user : User.t) (db : Db.t) :
  line_items (User.id user) (add_to_cart now item user db).2 =
  let items' :=
    match line_items (User.id user) db with
    | None => [item]
    | Some items => add_to_cart_items item items
    end in
  if encodable items' then Some items' else line_items (User.id user) db.
Proof.
  rewrite add_to_cart_run. unfold line_items. cbv zeta.
  destruct (first_match (cart_of (User.id user)) (Db.carts db)) as [cart|] eqn:Hc;
    cbn [fmap option_fmap option_map].
  - destruct (encodable (add_to_cart_items item (Cart.items cart))); cbn [snd put carts
      Db.carts]; [|rewrite Hc; reflexivity].
    rewrite first_match_set_first by (intros d Hd; exact Hd).
    rewrite Hc. reflexivity.
  - destruct (encodable [item]); cbn [snd put carts Db.carts]; [|rewrite Hc; reflexivity].
    rewrite first_match_app, Hc. unfold cart_of at 1. cbn [Cart.user_id].
    rewrite String.eqb_refl. reflexivity.
Qed.

(** [get_cart] never fails and never writes: it returns the stored cart of
    the caller, or an empty cart stamped with the time of the call when
    there is none; so [line_items] is what [GET /cart] shows. *)
Theorem get_cart_never_fails (now : datetime) (user : User.t) (db : Db.t) :
  exists cart,
    get_cart now user db = (Return cart, db)
    /\ cart = default (Cart.mk (User.id user) [] now)
                (first_match (cart_of (User.id user)) (Db.carts db))
    /\ Cart.items cart = default [] (line_items (User.id user) db).
Proof.
  unfold get_cart, line_items. run.
  destruct (first_match (cart_of (User.id user)) (Db.carts db)) as [cart|];
    eexists; repeat split.
Qed.

(** C2, amended.  [add_to_cart] asks the store to hold line items for the
    caller: the new item alone when the caller has no cart, and the outcome
    of the merge otherwise.  (0) When these line items are BSON-encodable
    (every quantity is a 64-bit integer) it answers "Item added to cart"
    and they are the caller's line items; when they are not, it raises
    [OverflowError] and the store is as it was.  On quantities that
    encode: (1) without a cart, a cart holding exactly the new item is
    created; (2) when the first line item with the key (product, size,
    color) of the new item is [existing], that item's quantity grows by the
    new quantity and the list is otherwise the same; (3) when no line item
    has the key, the new item is appended.  In particular, for a caller
    whose cart (if any) does not have the key, (4) adding the key twice
    with quantities [q1] and [q2] adds one line item of quantity
    [q1 + q2], and (5) adding two different keys adds two line items. *)
Theorem add_to_cart_merges_by_key :
  (forall now item user db,
      let items' :=
        default [item] (add_to_cart_items item <$> line_items (User.id user) db) in
      if encodable items'
      then (add_to_cart now item user db).1 = Return "Item added to cart"
           /\ line_items (User.id user) (add_to_cart now item user db).2 = Some items'
      else add_to_cart now item user db = (Raise OverflowError, db))
  /\ (forall now item user db,
      line_items (User.id user) db = None ->
      bson_int (CartItem.quantity item) = true ->
      line_items (User.id user) (add_to_cart now item user db).2 = Some [item])
  /\ (forall now item user db pre existing post,
      line_items (User.id user) db = Some (pre ++ existing :: post) ->
      Forall (fun x => key x <> key item) pre ->
      key existing = key item ->
      encodable (pre ++ post) = true ->
      bson_int (CartItem.quantity existing + CartItem.quantity item) = true ->
      line_items (User.id user) (add_to_cart now item user db).2 =
      Some (pre
            ++ with_quantity existing (CartItem.quantity existing + CartItem.quantity item)
            :: post))
  /\ (forall now item user db items,
      line_items (User.id user) db = Some items ->
      Forall (fun x => key x <> key item) items ->
      encodable items = true ->
      bson_int (CartItem.quantity item) = true ->
      line_items (User.id user) (add_to_cart now item user db).2 = Some (items ++ [item]))
  /\ (forall now1 now2 product_id size color q1 q2 user db,
      let items := default [] (line_items (User.id user) db) in
      let db1 := (add_to_cart now1 (CartItem.mk product_id q1 size color) user db).2 in
      let db2 := (add_to_cart now2 (CartItem.mk product_id q2 size color) user db1).2 in
      Forall (fun x => key x <> (product_id, size, color)) items ->
      encodable items = true ->
      bson_int q1 = true ->
      bson_int (q1 + q2) = true ->
      line_items (User.id user) db2
      = Some (items ++ [CartItem.mk product_id (q1 + q2) size color]))
  /\ (forall now1 now2 item1 item2 user db,
      let items := default [] (line_items (User.id user) db) in
      let db1 := (add_to_cart now1 item1 user db).2 in
      let db2 := (add_to_cart now2 item2 user db1).2 in
      Forall (fun x => key x <> key item1) items ->
      Forall (fun x => key x <> key item2) items ->
      key item1 <> key item2 ->
      encodable items = true ->
      bson_int (CartItem.quantity item1) = true ->
      bson_int (CartItem.quantity item2) = true ->
      line_items (User.id user) db2 = Some (items ++ [item1; item2])).
Proof.
  assert (Hone : forall item : CartItem.t,
             encodable [item] = bson_int (CartItem.quantity item)).
  { intros item. rewrite encodable_items_cons. apply andb_true_r. }
  assert (Hfirst : forall now item user db,
             let items := default [] (line_items (User.id user) db) in
             Forall (fun x => key x <> key item) items ->
             encodable items = true ->
             bson_int (CartItem.quantity item) = true ->
             line_items (User.id user) (add_to_cart now item user db).2
             = Some (items ++ [item])).
  { intros now item user db items Hno Henc Hq. subst items.
    rewrite line_items_add_to_cart. cbv zeta.
    destruct (line_items (User.id user) db) as [l|]; cbn [default from_option id] in *.
    - rewrite add_to_cart_items_not_found by exact Hno.
      rewrite encodable_items_app, Henc, Hone, Hq. reflexivity.
    - rewrite Hone, Hq. reflexivity. }
  split; [|split; [|split; [|split; [|split]]]].
  - intros now item user db. cbv zeta.
    pose proof (line_items_add_to_cart now item user db) as Hline. cbv zeta in Hline.
    rewrite add_to_cart_run in *. unfold line_items in *.
    destruct (first_match (cart_of (User.id user)) (Db.carts db)) as [cart|];
      cbn [fmap option_fmap option_map default from_option id] in *.
    + destruct (encodable (add_to_cart_items item (Cart.items cart)));
        [split; [reflexivity|exact Hline]|reflexivity].
    + destruct (encodable [item]); [split; [reflexivity|exact Hline]|reflexivity].
  - intros * Hnone Hq. rewrite line_items_add_to_cart, Hnone. cbv zeta.
    rewrite Hone, Hq. reflexivity.
  - intros * Hitems Hpre Hex Henc Hq. rewrite line_items_add_to_cart, Hitems. cbv zeta.
    rewrite add_to_cart_items_found by assumption.
    rewrite encodable_items_app, encodable_items_cons in *.
    apply andb_true_iff in Henc as [-> ->]. unfold with_quantity at 1.
    cbn [CartItem.quantity]. rewrite Hq. reflexivity.
  - intros * Hitems Hno Henc Hq.
    pose proof (Hfirst now item user db) as H. cbv zeta in H. rewrite Hitems in H.
    apply H; assumption.
  - intros * Hno Henc Hq1 Hq12. subst db2 db1.
    pose proof (Hfirst now1 (CartItem.mk product_id q1 size color) user db Hno Henc Hq1)
      as H1. fold items in H1.
    rewrite line_items_add_to_cart, H1. cbv zeta.
    rewrite (add_to_cart_items_found _ (CartItem.mk product_id q1 size color) items [])
      by (assumption || reflexivity).
    unfold with_quantity.
    cbn [CartItem.quantity CartItem.product_id CartItem.size CartItem.color].
    rewrite encodable_items_app, Henc, Hone. cbn [CartItem.quantity]. rewrite Hq12.
    reflexivity.
  - intros * Hno1 Hno2 Hne Henc Hq1 Hq2. subst db2 db1.
    pose proof (Hfirst now1 item1 user db Hno1 Henc Hq1) as H1. fold items in H1.
    rewrite line_items_add_to_cart, H1. cbv zeta.
    rewrite add_to_cart_items_not_found.
    + rewrite !encodable_items_app, Henc, !Hone, Hq1, Hq2, <- app_assoc. reflexivity.
    + apply Forall_app. split; [assumption|]. constructor; [assumption|constructor].
Qed.

(** On [shop]: three more red tees in size M merge into the line item
    Alice has, and a tee in size L becomes a second line item. *)
Lemma add_to_cart_merges_by_key_witness :
  line_items "u1" (add_to_cart 200 (tee 3) alice shop).2 = Some [tee 5]
  /\ line_items "u1" (add_to_cart 200 (CartItem.mk "p1" 1 "L" "red") alice shop).2
     = Some [tee 2; CartItem.mk "p1" 1 "L" "red"].
Proof.
  destruct add_to_cart_merges_by_key as (_ & _ & Hmerge & Happend & _).
  split.
  - apply (Hmerge 200 (tee 3) alice shop [] (tee 2) []);
      [reflexivity|constructor|reflexivity..].
  - apply (Happend 200 (CartItem.mk "p1" 1 "L" "red") alice shop [tee 2]);
      [reflexivity| |reflexivity..]. constructor; [discriminate|constructor].
Defined.

(** C2, as the specification states it, fails on the store [shop]: Alice
    holds two red tees in size M and adds [2^63 - 2] more, a quantity that
    is itself a 64-bit integer.  The merged quantity [2^63] is not, so the
    call raises [OverflowError] and her line item keeps the quantity 2:
    it is not increased by the given quantity.  And on the empty store a
    first item of quantity [2^63] creates no cart. *)
Lemma add_to_cart_overflows :
  line_items "u1" shop = Some [tee 2]
  /\ key (tee 2) = key (tee (2 ^ 63 - 2))
  /\ bson_int (2 ^ 63 - 2) = true
  /\ add_to_cart 200 (tee (2 ^ 63 - 2)) alice shop = (Raise OverflowError, shop)
  /\ line_items "u1" (add_to_cart 200 (tee (2 ^ 63 - 2)) alice shop).2 = Some [tee 2]
  /\ line_items "u1" (add_to_cart 200 (tee (2 ^ 63 - 2)) alice shop).2
     <> Some [tee (2 + (2 ^ 63 - 2))]
  /\ add_to_cart 200 (tee (2 ^ 63)) alice Db.empty = (Raise OverflowError, Db.empty)
  /\ line_items "u1" (add_to_cart 200 (tee (2 ^ 63)) alice Db.empty).2 = None.
Proof. repeat split; try reflexivity. discriminate. Qed.

(** ** The key invariant of a cart *)

Lemma add_to_cart_loop_keys (item : CartItem.t) (items : list CartItem.t) :
  key <$> (add_to_cart_loop item items).1 = key <$> items.
Proof.
  induction items as [|x items IH]; [reflexivity|].
  cbn [add_to_cart_loop]. destruct (same_key x _ _ _); [reflexivity|].
  destruct (add_to_cart_loop item items) as [rest found].
  cbn [fst] in *. rewrite !fmap_cons, IH. reflexivity.
Qed.

Lemma add_to_cart_loop_flag (item : CartItem.t) (items : list CartItem.t) :
  (add_to_cart_loop item items).2 = false -> key item ∉ key <$> items.
Proof.
  induction items as [|x items IH].
  - intros _ H. inversion H.
  - cbn [add_to_cart_loop]. destruct (same_key x _ _ _) eqn:Hx; [discriminate|].
    destruct (add_to_cart_loop item items) as [rest found]. cbn [snd] in *.
    intros Hf. apply same_key_false in Hx. rewrite fmap_cons, not_elem_of_cons.
    split; [intros E; apply Hx; symmetry; exact E|apply IH, Hf].
Qed.

Lemma add_to_cart_items_unique (item : CartItem.t) (items : list CartItem.t) :
  unique_keys items -> unique_keys (add_to_cart_items item items).
Proof.
  unfold unique_keys, add_to_cart_items. intros Hu.
  pose proof (add_to_cart_loop_keys item items) as Hk.
  pose proof (add_to_cart_loop_flag item items) as Hf.
  destruct (add_to_cart_loop item items) as [items' found]. cbn [fst snd] in *.
  destruct found; cbn [negb].
  - rewrite Hk. exact Hu.
  - rewrite fmap_app, Hk. apply NoDup_app. split; [exact Hu|]. split.
    + intros k Hin Hk'. apply list_elem_of_singleton in Hk'. subst k.
      exact (Hf eq_refl Hin).
    + apply NoDup_singleton.
Qed.

Lemma update_cart_item_loop_keys (product_id : string) (quantity : Z) (size color : string)
    (items : list CartItem.t) :
  key <$> update_cart_item_loop product_id quantity size color items = key <$> items.
Proof.
  induction items as [|x items IH]; [reflexivity|].
  cbn [update_cart_item_loop]. destruct (same_key x _ _ _); [reflexivity|].
  rewrite !fmap_cons, IH. reflexivity.
Qed.

Lemma matching_unique (q : CartItem.t -> bool) (items : list CartItem.t) :
  unique_keys items -> unique_keys (matching q items).
Proof.
  unfold unique_keys. intros Hu.
  apply (sublist_NoDup _ (key <$> items) Hu).
  apply fmap_sublist, matching_sublist.
Qed.

Lemma update_cart_item_run (now : datetime) (product_id : string) (quantity : Z)
    (size color : string) (user : User.t) (db : Db.t) :
  update_cart_item now product_id quantity size color user db =
  match first_match (cart_of (User.id user)) (Db.carts db) with
  | None => (Raise (HTTPException 404 "Cart not found"), db)
  | Some cart =>
      let items := update_cart_item_loop product_id quantity size color (Cart.items cart) in
      if encodable items
      then (Return "Cart updated",
            put carts
              (set_first (cart_of (User.id user)) (set_items items now) (Db.carts db)) db)
      else (Raise OverflowError, db)
  end.
Proof.
  unfold update_cart_item. run.
  destruct (first_match (cart_of (User.id user)) (Db.carts db)) as [cart|]; [|reflexivity].
  destruct (encodable _); reflexivity.
Qed.

Lemma remove_from_cart_run (now : datetime) (product_id size color : string)
    (user : User.t) (db : Db.t) :
  remove_from_cart now product_id size color user db =
  match first_match (cart_of (User.id user)) (Db.carts db) with
  | None => (Raise (HTTPException 404 "Cart not found"), db)
  | Some cart =>
      let items :=
        matching (fun item => negb (same_key item product_id size color)) (Cart.items cart) in
      if encodable items
      then (Return "Item removed from cart",
            put carts
              (set_first (cart_of (User.id user)) (set_items items now) (Db.carts db)) db)
      else (Raise OverflowError, db)
  end.
Proof.
  unfold remove_from_cart. run.
  destruct (first_match (cart_of (User.id user)) (Db.carts db)) as [cart|]; [|reflexivity].
  destruct (encodable _); reflexivity.
Qed.

(** The line items a cart holds after a write of [items'] that the driver
    may refuse. *)
Lemma line_items_written (uid : string) (items' : list CartItem.t) (now : datetime)
    (cart : Cart.t) (db : Db.t) (answer : string) :
  first_match (cart_of uid) (Db.carts db) = Some cart ->
  line_items uid
    (if encodable items'
     then (Return answer,
           put carts (set_first (cart_of uid) (set_items items' now) (Db.carts db)) db)
     else (Raise OverflowError, db)).2
  = Some (if encodable items' then items' else Cart.items cart).
Proof.
  intros Hc. unfold line_items. destruct (encodable items'); cbn [snd put carts Db.carts].
  - rewrite first_match_set_first by (intros d Hd; exact Hd). rewrite Hc. reflexivity.
  - rewrite Hc. reflexivity.
Qed.

Lemma line_items_update_cart_item (now : datetime) (product_id : string) (quantity : Z)
    (size color : string) (user : User.t) (db : Db.t) :
  line_items (User.id user) (update_cart_item now product_id quantity size color user db).2 =
  (fun items =>
     let items' := update_cart_item_loop product_id quantity size color items in
     if encodable items' then items' else items)
    <$> line_items (User.id user) db.
Proof.
  rewrite update_cart_item_run.
  destruct (first_match (cart_of (User.id user)) (Db.carts db)) as [cart|] eqn:Hc.
  - cbv zeta. rewrite (line_items_written _ _ _ cart) by exact Hc.
    unfold line_items. rewrite Hc. reflexivity.
  - unfold line_items. cbn [snd]. rewrite Hc. reflexivity.
Qed.

Lemma line_items_remove_from_cart (now : datetime) (product_id size color : string)
    (user : User.t) (db : Db.t) :
  line_items (User.id user) (remove_from_cart now product_id size color user db).2 =
  (fun items =>
     let items' := matching (fun item => negb (same_key item product_id size color)) items in
     if encodable items' then items' else items)
    <$> line_items (User.id user) db.
Proof.
  rewrite remove_from_cart_run.
  destruct (first_match (cart_of (User.id user)) (Db.carts db)) as [cart|] eqn:Hc.
  - cbv zeta. rewrite (line_items_written _ _ _ cart) by exact Hc.
    unfold line_items. rewrite Hc. reflexivity.
  - unfold line_items. cbn [snd]. rewrite Hc. reflexivity.
Qed.

(** C3.  Let the line items of the caller's cart, when the caller has one,
    hold at most one item per (product, size, color) tuple.  Then so do the
    line items of the caller's cart after [add_to_cart], after
    [update_cart_item] and after [remove_from_cart]. *)
Theorem cart_operations_keep_keys_unique (user : User.t) (db : Db.t) :
  (forall items, line_items (User.id user) db = Some items -> unique_keys items) ->
  (forall now item items',
      line_items (User.id user) (add_to_cart now item user db).2 = Some items' ->
      unique_keys items')
  /\ (forall now product_id quantity size color items',
      line_items (User.id user)
        (update_cart_item now product_id quantity size color user db).2 = Some items' ->
      unique_keys items')
  /\ (forall now product_id size color items',
      line_items (User.id user)
        (remove_from_cart now product_id size color user db).2 = Some items' ->
      unique_keys items').
Proof.
  intros Hinv. repeat split.
  - intros now item items'. rewrite line_items_add_to_cart. cbv zeta.
    destruct (encodable _); [|apply Hinv]. intros [= <-].
    destruct (line_items (User.id user) db) as [items|].
    + apply add_to_cart_items_unique, Hinv. reflexivity.
    + unfold unique_keys. simpl. apply NoDup_singleton.
  - intros now product_id quantity size color items'.
    rewrite line_items_update_cart_item.
    destruct (line_items (User.id user) db) as [items|]; simpl; [|discriminate].
    destruct (encodable _); intros [= <-]; [|apply Hinv; reflexivity].
    unfold unique_keys. rewrite update_cart_item_loop_keys.
    apply Hinv. reflexivity.
  - intros now product_id size color items'. rewrite line_items_remove_from_cart.
    destruct (line_items (User.id user) db) as [items|]; simpl; [|discriminate].
    destruct (encodable _); intros [= <-]; [|apply Hinv; reflexivity].
    apply matching_unique, Hinv. reflexivity.
Qed.

Lemma cart_operations_keep_keys_unique_witness :
  unique_keys [tee 5]
  /\ unique_keys [tee 2; CartItem.mk "p1" 1 "L" "red"].
Proof.
  assert (H : forall items, line_items (User.id alice) shop = Some items -> unique_keys items).
  { intros items [= <-]. apply NoDup_singleton. }
  split.
  - apply (proj1 (cart_operations_keep_keys_unique alice shop H) 200 (tee 3)).
    reflexivity.
  - apply (proj1 (cart_operations_keep_keys_unique alice shop H) 200
             (CartItem.mk "p1" 1 "L" "red")).
    reflexivity.
Defined.

(** ** Requests that are refused *)

(** Without a cart, [update_cart_item] and [remove_from_cart] raise 404
    "Cart not found" and leave the store as it was. *)
Theorem cart_not_found (now : datetime) (product_id : string) (quantity : Z)
    (size color : string) (user : User.t) (db : Db.t) :
  line_items (User.id user) db = None ->
  update_cart_item now product_id quantity size color user db
  = (Raise (HTTPException 404 "Cart not found"), db)
  /\ remove_from_cart now product_id size color user db
     = (Raise (HTTPException 404 "Cart not found"), db).
Proof.
  unfold line_items. rewrite update_cart_item_run, remove_from_cart_run.
  destruct (first_match (cart_of (User.id user)) (Db.carts db)); [discriminate|].
  intros _. split; reflexivity.
Qed.

Lemma cart_not_found_witness :
  update_cart_item 30 "p1" 2 "M" "red" alice Db.empty
  = (Raise (HTTPException 404 "Cart not found"), Db.empty)
  /\ remove_from_cart 30 "p1" "M" "red" alice Db.empty
     = (Raise (HTTPException 404 "Cart not found"), Db.empty).
Proof. apply (cart_not_found 30 "p1" 2 "M" "red" alice Db.empty). reflexivity. Defined.

(** [get_admin_user] lets a user through exactly when the admin flag is
    set, and raises 403 "Admin access required" otherwise. *)
Theorem get_admin_user_gate (user : User.t) (db : Db.t) :
  get_admin_user user db
  = if User.is_admin user then (Return user, db)
    else (Raise (HTTPException 403 "Admin access required"), db).
Proof. unfold get_admin_user. destruct (User.is_admin user); reflexivity. Qed.

(** ** Updating a key the cart does not hold *)

Lemma update_cart_item_loop_no_match (product_id : string) (quantity : Z)
    (size color : string) (items : list CartItem.t) :
  Forall (fun x => key x <> (product_id, size, color)) items ->
  update_cart_item_loop product_id quantity size color items = items.
Proof.
  intros H. induction H as [|x items Hx _ IH]; simpl; [reflexivity|].
  apply same_key_false in Hx. rewrite Hx, IH. reflexivity.
Qed.

Lemma set_first_split {A} (q : A -> bool) (upd : A -> A) (l : list A) (d : A) :
  first_match q l = Some d ->
  exists pre post,
    l = pre ++ d :: post
    /\ Forall (fun x => q x = false) pre
    /\ set_first q upd l = pre ++ upd d :: post.
Proof.
  induction l as [|x l IH]; simpl; [discriminate|].
  destruct (q x) eqn:Hx.
  - intros [= <-]. exists [], l. repeat split. constructor.
  - intros H. destruct (IH H) as (pre & post & -> & Hpre & Hset).
    exists (x :: pre), post. repeat split.
    + constructor; assumption.
    + simpl. rewrite Hset. reflexivity.
Qed.

(** C4, as the specification states it, fails on the store [shop]: Alice
    has a cart, no line item of it has the key (p2, M, red), and
    [update_cart_item] answers "Cart updated", but the store it leaves is
    not the one it found: the cart's [updated_at] went from 100 to the
    time of the call, 200. *)
Lemma update_cart_item_no_match_touches_cart :
  first_match (cart_of "u1") (Db.carts shop) = Some (Cart.mk "u1" [tee 2] 100)
  /\ Forall (fun x => key x <> ("p2", "M", "red")) [tee 2]
  /\ (update_cart_item 200 "p2" 7 "M" "red" alice shop).1 = Return "Cart updated"
  /\ Db.carts (update_cart_item 200 "p2" 7 "M" "red" alice shop).2
     = [Cart.mk "u1" [tee 2] 200]
  /\ (update_cart_item 200 "p2" 7 "M" "red" alice shop).2 <> shop.
Proof.
  repeat split.
  - constructor; [discriminate|constructor].
  - discriminate.
Qed.

(** C4, amended.  When the caller has a cart and none of its line items
    has the key (product_id, size, color), [update_cart_item] answers
    "Cart updated" and rewrites that one cart document with the same user
    and the same line items and with [updated_at] set to the time of the
    call; every other document of the store stays as it was.  The line
    items written back are the stored ones, which are BSON-encodable in
    every store the requests lead to; were they not, the driver would
    raise [OverflowError] and the store would stay as it was. *)
Theorem update_cart_item_no_match (now : datetime) (product_id : string) (quantity : Z)
    (size color : string) (user : User.t) (db : Db.t) (cart : Cart.t) :
  first_match (cart_of (User.id user)) (Db.carts db) = Some cart ->
  Forall (fun x => key x <> (product_id, size, color)) (Cart.items cart) ->
  (encodable (Cart.items cart) = true ->
   exists db' pre post,
     update_cart_item now product_id quantity size color user db
     = (Return "Cart updated", db')
     /\ Db.carts db = pre ++ cart :: post
     /\ Db.carts db' = pre ++ Cart.mk (Cart.user_id cart) (Cart.items cart) now :: post
     /\ line_items (User.id user) db' = Some (Cart.items cart)
     /\ Db.users db' = Db.users db
     /\ Db.products db' = Db.products db
     /\ Db.reviews db' = Db.reviews db
     /\ Db.orders db' = Db.orders db)
  /\ (encodable (Cart.items cart) = false ->
      update_cart_item now product_id quantity size color user db
      = (Raise OverflowError, db)).
Proof.
  intros Hcart Hno.
  rewrite update_cart_item_run, Hcart. cbv zeta.
  rewrite update_cart_item_loop_no_match by exact Hno.
  split; intros ->; [|reflexivity].
  destruct (set_first_split _ (set_items (Cart.items cart) now) _ _ Hcart)
    as (pre & post & Hsplit & _ & Hset).
  eexists _, pre, post. split; [reflexivity|].
  split; [exact Hsplit|]. split; [exact Hset|].
  split; [|repeat split].
  unfold line_items. simpl.
  rewrite first_match_set_first by (intros d Hd; exact Hd).
  rewrite Hcart. reflexivity.
Qed.

Lemma update_cart_item_no_match_witness :
  exists db' pre post,
    update_cart_item 200 "p2" 7 "M" "red" alice shop = (Return "Cart updated", db')
    /\ Db.carts shop = pre ++ Cart.mk "u1" [tee 2] 100 :: post
    /\ Db.carts db' = pre ++ Cart.mk "u1" [tee 2] 200 :: post
    /\ line_items "u1" db' = Some [tee 2]
    /\ Db.users db' = Db.users shop
    /\ Db.products db' = Db.products shop
    /\ Db.reviews db' = Db.reviews shop
    /\ Db.orders db' = Db.orders shop.
Proof.
  apply (update_cart_item_no_match 200 "p2" 7 "M" "red" alice shop (Cart.mk "u1" [tee 2] 100)).
  - reflexivity.
  - constructor; [discriminate|constructor].
  - reflexivity.
Defined.

(** ** Wishlist *)

Lemma contains_true (x : string) (l : list string) : contains x l = true <-> x ∈ l.
Proof.
  induction l as [|y l IH]; simpl.
  - split; [discriminate|intros H; inversion H].
  - rewrite orb_true_iff, String.eqb_eq, IH, elem_of_cons. split; intros [->|?]; auto.
Qed.

Lemma contains_false (x : string) (l : list string) : contains x l = false <-> x ∉ l.
Proof. rewrite <- contains_true. destruct (contains x l); split; congruence. Qed.

Lemma drop_first_not_elem (x : string) (l : list string) :
  NoDup l -> x ∉ drop_first (fun y => String.eqb y x) l.
Proof.
  induction 1 as [|y l Hy Hl IH]; simpl.
  - intros H. inversion H.
  - destruct (String.eqb y x) eqn:E.
    + apply String.eqb_eq in E. subst y. exact Hy.
    + apply String.eqb_neq in E. rewrite not_elem_of_cons. split; [congruence|exact IH].
Qed.

Lemma drop_first_sublist {A} (q : A -> bool) (l : list A) : sublist (drop_first q l) l.
Proof.
  induction l as [|x l IH]; simpl; [constructor|].
  destruct (q x); [apply sublist_cons; reflexivity|apply sublist_skip, IH].
Qed.

Lemma user_with_id_set_wishlist (uid : string) (w : list string) (u : UserDoc.t) :
  user_with_id uid (set_wishlist w u) = user_with_id uid u.
Proof. reflexivity. Qed.

(** The stored user after [{'$set': {'wishlist': w}}] on that user. *)
Lemma stored_user_set_wishlist (uid : string) (w : list string) (db : Db.t) :
  stored_user uid (put users (set_first (user_with_id uid) (set_wishlist w) (Db.users db)) db)
  = (fun u => User.mk (User.id u) (User.name u) (User.email u) (User.is_admin u) w
                (User.created_at u)) <$> stored_user uid db.
Proof.
  unfold stored_user. simpl.
  rewrite first_match_set_first by (intros d Hd; exact Hd).
  destruct (first_match (user_with_id uid) (Db.users db)); reflexivity.
Qed.

Lemma add_to_wishlist_run (product_id : string) (user : User.t) (db : Db.t) :
  add_to_wishlist product_id user db =
  (Return "Added to wishlist",
   if contains product_id (User.wishlist user) then db
   else put users
          (set_first (user_with_id (User.id user))
             (set_wishlist (User.wishlist user ++ [product_id])) (Db.users db)) db).
Proof.
  unfold add_to_wishlist. run. destruct (contains product_id (User.wishlist user)); reflexivity.
Qed.

Lemma remove_from_wishlist_run (product_id : string) (user : User.t) (db : Db.t) :
  remove_from_wishlist product_id user db =
  (Return "Removed from wishlist",
   if contains product_id (User.wishlist user)
   then put users
          (set_first (user_with_id (User.id user))
             (set_wishlist (drop_first (fun y => String.eqb y product_id) (User.wishlist user)))
             (Db.users db)) db
   else db).
Proof.
  unfold remove_from_wishlist. run.
  destruct (contains product_id (User.wishlist user)); reflexivity.
Qed.

(** C10.  Let [user] be what [get_current_user] reads for the caller.
    (1, 2) Both wishlist handlers always answer with their success message.
    (3) Adding a product the wishlist holds leaves the store as it is, and
    (4) so does removing a product it does not hold.  (5) After an add, the
    caller's stored wishlist holds the product and the same add again
    leaves the store as it is; (6) after a remove from a wishlist without
    repeated entries (the data model's set), the stored wishlist no longer
    holds the product and the same remove again leaves the store as it
    is. *)
Theorem wishlist_mutation_idempotent (product_id : string) (user : User.t) (db : Db.t) :
  stored_user (User.id user) db = Some user ->
  (add_to_wishlist product_id user db).1 = Return "Added to wishlist"
  /\ (remove_from_wishlist product_id user db).1 = Return "Removed from wishlist"
  /\ (product_id ∈ User.wishlist user -> (add_to_wishlist product_id user db).2 = db)
  /\ (product_id ∉ User.wishlist user -> (remove_from_wishlist product_id user db).2 = db)
  /\ (forall db1, db1 = (add_to_wishlist product_id user db).2 ->
      exists user1,
        stored_user (User.id user) db1 = Some user1
        /\ User.id user1 = User.id user
        /\ product_id ∈ User.wishlist user1
        /\ add_to_wishlist product_id user1 db1 = (Return "Added to wishlist", db1))
  /\ (forall db1, db1 = (remove_from_wishlist product_id user db).2 ->
      NoDup (User.wishlist user) ->
      exists user1,
        stored_user (User.id user) db1 = Some user1
        /\ User.id user1 = User.id user
        /\ (product_id ∉ User.wishlist user1)
        /\ remove_from_wishlist product_id user1 db1 = (Return "Removed from wishlist", db1)).
Proof.
  intros Hu. rewrite add_to_wishlist_run, remove_from_wishlist_run. cbn [fst snd].
  split; [reflexivity|]. split; [reflexivity|].
  split; [intros Hin; apply contains_true in Hin; rewrite Hin; reflexivity|].
  split; [intros Hin; apply contains_false in Hin; rewrite Hin; reflexivity|].
  split.
  - intros db1 ->. destruct (contains product_id (User.wishlist user)) eqn:Hc.
    + exists user. split; [exact Hu|]. split; [reflexivity|].
      split; [apply contains_true, Hc|].
      rewrite add_to_wishlist_run, Hc. reflexivity.
    + eexists. rewrite stored_user_set_wishlist, Hu. cbn [fmap option_fmap option_map].
      split; [reflexivity|]. split; [reflexivity|].
      assert (Hin : contains product_id (User.wishlist user ++ [product_id]) = true).
      { apply contains_true, elem_of_app. right. left. }
      split; [apply contains_true, Hin|].
      rewrite add_to_wishlist_run. cbn [User.wishlist]. rewrite Hin. reflexivity.
  - intros db1 -> Hnd. destruct (contains product_id (User.wishlist user)) eqn:Hc.
    + eexists. rewrite stored_user_set_wishlist, Hu. cbn [fmap option_fmap option_map].
      split; [reflexivity|]. split; [reflexivity|].
      pose proof (drop_first_not_elem product_id _ Hnd) as Hout.
      split; [exact Hout|].
      rewrite remove_from_wishlist_run. cbn [User.wishlist].
      apply contains_false in Hout. rewrite Hout. reflexivity.
    + exists user. split; [exact Hu|]. split; [reflexivity|].
      split; [apply contains_false, Hc|].
      rewrite remove_from_wishlist_run, Hc. reflexivity.
Qed.

(** On [shop], where Alice's wishlist is [p1]: adding [p1] and removing
    [p2] change nothing, and after [p1] is removed a second removal changes
    nothing. *)
Lemma wishlist_mutation_idempotent_witness :
  (add_to_wishlist "p1" alice shop).2 = shop
  /\ (remove_from_wishlist "p2" alice shop).2 = shop
  /\ exists user1,
       stored_user "u1" (remove_from_wishlist "p1" alice shop).2 = Some user1
       /\ User.id user1 = "u1"
       /\ ("p1" ∉ User.wishlist user1)
       /\ remove_from_wishlist "p1" user1 (remove_from_wishlist "p1" alice shop).2
          = (Return "Removed from wishlist", (remove_from_wishlist "p1" alice shop).2).
Proof.
  pose proof (wishlist_mutation_idempotent "p1" alice shop eq_refl)
    as (_ & _ & Hadd & _ & _ & Htwice).
  pose proof (wishlist_mutation_idempotent "p2" alice shop eq_refl) as (_ & _ & _ & Hrem & _).
  split; [apply Hadd; left|].
  split; [apply Hrem; intros Hin; apply contains_true in Hin; discriminate|].
  apply (Htwice _ eq_refl). apply NoDup_singleton.
Defined.

(** ** The shape of the store is kept by every request *)

Lemma fmap_set_first {A B} (f : A -> B) (q : A -> bool) (upd : A -> A) (l : list A) :
  (forall d, f (upd d) = f d) -> f <$> set_first q upd l = f <$> l.
Proof.
  intros Hf. induction l as [|x l IH]; [reflexivity|].
  cbn [set_first]. destruct (q x); rewrite !fmap_cons; [rewrite Hf|rewrite IH]; reflexivity.
Qed.

Lemma Forall_drop_first {A} (P : A -> Prop) (q : A -> bool) (l : list A) :
  Forall P l -> Forall P (drop_first q l).
Proof.
  induction 1 as [|x l Hx Hl IH]; simpl; [constructor|].
  destruct (q x); [exact Hl|constructor; assumption].
Qed.

Lemma stored_user_wishlist (uid : string) (user : User.t) (db : Db.t) :
  stored_user uid db = Some user ->
  exists doc, doc ∈ Db.users db /\ UserDoc.wishlist doc = User.wishlist user.
Proof.
  unfold stored_user. destruct (first_match _ _) as [doc|] eqn:Hd; [|discriminate].
  intros [= <-]. exists doc. split; [|reflexivity].
  apply first_match_Some in Hd. apply Hd.
Qed.

(** What each handler leaves of the collections it does not write to. *)
Lemma register_frame secret hmac hashpw user_id salt now now' user_data db :
  let db' := (register secret hmac hashpw user_id salt now now' user_data db).2 in
  Db.carts db' = Db.carts db
  /\ (Db.users db' = Db.users db
      \/ exists doc, Db.users db' = Db.users db ++ [doc] /\ UserDoc.wishlist doc = []).
Proof.
  unfold register. run.
  destruct (first_match _ _); simpl; split; auto.
  right. eexists. split; reflexivity.
Qed.

Lemma bson_int_length_take {A} (l : list A) :
  bson_int (Z.of_nat (length (take 1000 l))) = true.
Proof.
  apply bson_int_spec. rewrite length_take.
  assert (H : 0 < 2 ^ 63) by reflexivity. assert (H' : 1000 < 2 ^ 63) by reflexivity. lia.
Qed.

(** What [create_review] does, step by step: the two refusals, the insert
    that the driver refuses for a rating that is no BSON integer, then the
    aggregate of the reviews read back, set on the product. *)
Lemma create_review_run (review_id : string) (now : datetime) (product_id : string)
    (review_data : ReviewCreate.t) (user : User.t) (db : Db.t) :
  create_review review_id now product_id review_data user db =
  match first_match (product_with_id product_id) (Db.products db) with
  | None => (Raise (HTTPException 404 "Product not found"), db)
  | Some _ =>
      match first_match (review_of_product_by product_id (User.id user)) (Db.reviews db) with
      | Some _ => (Raise (HTTPException 400 "You already reviewed this product"), db)
      | None =>
          if bson_int (ReviewCreate.rating review_data)
          then
            let doc := review_doc review_id now product_id review_data user in
            let db1 := put reviews (Db.reviews db ++ [doc]) db in
            match aggregate (reviews_read product_id db1) with
            | Raise e => (Raise e, db1)
            | Return (rating, review_count) =>
                (Return doc,
                 put products
                   (set_first (product_with_id product_id) (set_rating rating review_count)
                      (Db.products db)) db1)
            end
          else (Raise OverflowError, db)
      end
  end.
Proof.
  unfold create_review, bind, find_one, ret, raise. cbn [docs products reviews].
  destruct (first_match (product_with_id product_id) (Db.products db)); [|reflexivity].
  destruct (first_match (review_of_product_by product_id (User.id user)) (Db.reviews db));
    [reflexivity|].
  unfold insert_one.
  change (encodable (review_doc review_id now product_id review_data user))
    with (bson_int (ReviewCreate.rating review_data)).
  destruct (bson_int (ReviewCreate.rating review_data)); [|reflexivity].
  cbv zeta. unfold aggregate, reviews_read, find_to_list, eval, update_one.
  cbn [docs put reviews products Db.reviews Db.products].
  destruct (Float.truediv _ _) as [avg|e]; [|reflexivity].
  destruct (Float.round1 avg) as [rating|e]; [|reflexivity].
  change (encodable (rating, Z.of_nat (length (take 1000 (matching
            (review_of_product product_id)
            (Db.reviews db ++ [review_doc review_id now product_id review_data user]))))))
    with (bson_int (Z.of_nat (length (take 1000 (matching
            (review_of_product product_id)
            (Db.reviews db ++ [review_doc review_id now product_id review_data user])))))).
  rewrite bson_int_length_take. reflexivity.
Qed.

Lemma create_review_frame review_id now product_id review_data user db :
  let db' := (create_review review_id now product_id review_data user db).2 in
  Db.users db' = Db.users db /\ Db.carts db' = Db.carts db /\ Db.orders db' = Db.orders db.
Proof.
  rewrite create_review_run.
  destruct (first_match _ (Db.products db)); [|repeat split].
  destruct (first_match _ (Db.reviews db)); [repeat split|].
  destruct (bson_int _); [|repeat split]. cbv zeta.
  destruct (aggregate _) as [[rating review_count]|e]; repeat split.
Qed.

Lemma encodable_product_doc (product_id : string) (now : datetime)
    (product_data : ProductCreate.t) :
  encodable (product_doc product_id now product_data)
  = bson_int (ProductCreate.stock product_data).
Proof. apply andb_true_r. Qed.

Lemma create_product_run (product_id : string) (now : datetime)
    (product_data : ProductCreate.t) (admin : User.t) (db : Db.t) :
  create_product product_id now product_data admin db =
  if bson_int (ProductCreate.stock product_data)
  then (Return (product_doc product_id now product_data),
        put products (Db.products db ++ [product_doc product_id now product_data]) db)
  else (Raise OverflowError, db).
Proof.
  unfold create_product, bind, insert_one, ret. rewrite encodable_product_doc.
  destruct (bson_int _); reflexivity.
Qed.

Lemma update_product_run (product_id : string) (product_data : ProductCreate.t)
    (admin : User.t) (db : Db.t) :
  update_product product_id product_data admin db =
  match first_match (product_with_id product_id) (Db.products db) with
  | None => (Raise (HTTPException 404 "Product not found"), db)
  | Some _ =>
      if bson_int (ProductCreate.stock product_data)
      then
        let db' :=
          put products
            (set_first (product_with_id product_id) (set_product_data product_data)
               (Db.products db)) db in
        (Return (first_match (product_with_id product_id) (Db.products db')), db')
      else (Raise OverflowError, db)
  end.
Proof.
  unfold update_product, bind, find_one, update_one, raise. cbn [docs products].
  destruct (first_match (product_with_id product_id) (Db.products db)); [|reflexivity].
  change (encodable product_data) with (bson_int (ProductCreate.stock product_data)).
  destruct (bson_int _); reflexivity.
Qed.

Lemma product_routes_frame product_id now product_data admin db :
  ((create_product product_id now product_data admin db).2 = db
   \/ (create_product product_id now product_data admin db).2
      = put products (Db.products db ++ [product_doc product_id now product_data]) db)
  /\ Db.users (update_product product_id product_data admin db).2 = Db.users db
  /\ Db.carts (update_product product_id product_data admin db).2 = Db.carts db
  /\ Db.users (delete_product product_id admin db).2 = Db.users db
  /\ Db.carts (delete_product product_id admin db).2 = Db.carts db.
Proof.
  rewrite create_product_run, update_product_run.
  split; [destruct (bson_int _); auto|].
  unfold delete_product. run.
  destruct (first_match _ (Db.products db)); [|repeat split].
  destruct (bson_int _); repeat split.
Qed.

Lemma create_order_run order_id now order_data user db :
  create_order order_id now order_data user db =
  if encodable (order_doc order_id now order_data user)
  then (Return (order_doc order_id now order_data user),
        Db.mk (Db.users db) (Db.products db) (Db.reviews db)
          (drop_first (cart_of (User.id user)) (Db.carts db))
          (Db.orders db ++ [order_doc order_id now order_data user]))
  else (Raise OverflowError, db).
Proof.
  unfold create_order, bind, insert_one. destruct (encodable _); reflexivity.
Qed.

Lemma cart_update_well_formed (uid : string) (items : list CartItem.t) (now : datetime)
    (db : Db.t) :
  well_formed db -> unique_keys items ->
  well_formed (put carts (set_first (cart_of uid) (set_items items now) (Db.carts db)) db).
Proof.
  intros [Hw Hc Hk] Hitems. constructor; simpl.
  - exact Hw.
  - rewrite fmap_set_first by reflexivity. exact Hc.
  - apply Forall_set_first; [exact Hk|]. intros d _ _. exact Hitems.
Qed.

Lemma first_match_cart_elem (uid : string) (l : list Cart.t) :
  first_match (cart_of uid) l = None -> uid ∉ Cart.user_id <$> l.
Proof.
  intros H Hin. apply first_match_None in H.
  apply list_elem_of_fmap in Hin as (c & -> & Hc).
  rewrite Forall_forall in H. specialize (H c Hc).
  unfold cart_of in H. rewrite String.eqb_refl in H. discriminate.
Qed.

Lemma found_cart_unique (uid : string) (db : Db.t) (cart : Cart.t) :
  well_formed db -> first_match (cart_of uid) (Db.carts db) = Some cart ->
  unique_keys (Cart.items cart).
Proof.
  intros [_ _ Hk] Hc. apply first_match_Some in Hc as [Hin _].
  rewrite Forall_forall in Hk. apply Hk, Hin.
Qed.

Lemma well_formed_empty : well_formed Db.empty.
Proof. constructor; simpl; constructor. Qed.

Lemma step_well_formed (db db' : Db.t) : well_formed db -> step db db' -> well_formed db'.
Proof.
  intros Hwf Hstep. pose proof Hwf as [Hw Hc Hk].
  destruct Hstep.
  - destruct (register_frame secret hmac hashpw user_id salt now now' user_data db)
      as [Hcarts [Hu|(doc & Hu & Hdoc)]].
    + constructor; rewrite ?Hcarts, ?Hu; assumption.
    + constructor; rewrite ?Hcarts, ?Hu; try assumption.
      apply Forall_app. split; [assumption|]. constructor; [|constructor].
      rewrite Hdoc. constructor.
  - destruct (product_routes_frame product_id now product_data admin db) as ([-> | ->] & _);
      [exact Hwf|]. constructor; assumption.
  - destruct (product_routes_frame product_id 0 product_data admin db)
      as (_ & Hu & Hcarts & _).
    constructor; rewrite ?Hcarts, ?Hu; assumption.
  - destruct (product_routes_frame product_id 0 (ProductCreate.mk "" "" 0 [] [] [] "" 0)
                admin db) as (_ & _ & _ & Hu & Hcarts).
    constructor; rewrite ?Hcarts, ?Hu; assumption.
  - destruct (create_review_frame review_id now product_id review_data user db)
      as (Hu & Hcarts & _).
    constructor; rewrite ?Hcarts, ?Hu; assumption.
  - rewrite add_to_cart_run.
    destruct (first_match _ _) as [cart|] eqn:Hcart;
      (destruct (encodable _); cbn [snd]; [|exact Hwf]).
    + apply cart_update_well_formed; [exact Hwf|].
      apply add_to_cart_items_unique. eapply found_cart_unique; eassumption.
    + constructor; simpl.
      * exact Hw.
      * rewrite fmap_app. apply NoDup_app. split; [exact Hc|]. split.
        -- intros uid Hin Hin'. apply list_elem_of_singleton in Hin'. subst uid.
           exact (first_match_cart_elem _ _ Hcart Hin).
        -- apply NoDup_singleton.
      * apply Forall_app. split; [exact Hk|]. constructor; [|constructor].
        apply NoDup_singleton.
  - rewrite update_cart_item_run.
    destruct (first_match _ _) as [cart|] eqn:Hcart; [|exact Hwf]. cbv zeta.
    destruct (encodable _); cbn [snd]; [|exact Hwf].
    apply cart_update_well_formed; [exact Hwf|].
    unfold unique_keys. rewrite update_cart_item_loop_keys.
    eapply found_cart_unique; eassumption.
  - rewrite remove_from_cart_run.
    destruct (first_match _ _) as [cart|] eqn:Hcart; [|exact Hwf]. cbv zeta.
    destruct (encodable _); cbn [snd]; [|exact Hwf].
    apply cart_update_well_formed; [exact Hwf|].
    apply matching_unique. eapply found_cart_unique; eassumption.
  - rewrite add_to_wishlist_run. cbn [snd].
    destruct (contains _ _) eqn:Hin; [exact Hwf|].
    destruct (stored_user_wishlist _ _ _ H) as (doc & Hdoc & Hwl).
    constructor; simpl; [|exact Hc|exact Hk].
    apply Forall_set_first; [exact Hw|]. intros d _ _. simpl.
    apply NoDup_app. rewrite Forall_forall in Hw. specialize (Hw doc Hdoc).
    rewrite Hwl in Hw. split; [exact Hw|]. split; [|apply NoDup_singleton].
    intros x Hx Hx'. apply list_elem_of_singleton in Hx'. subst x.
    apply contains_false in Hin. exact (Hin Hx).
  - rewrite remove_from_wishlist_run. cbn [snd].
    destruct (contains _ _) eqn:Hin; [|exact Hwf].
    destruct (stored_user_wishlist _ _ _ H) as (doc & Hdoc & Hwl).
    constructor; simpl; [|exact Hc|exact Hk].
    apply Forall_set_first; [exact Hw|]. intros d _ _. simpl.
    rewrite Forall_forall in Hw. specialize (Hw doc Hdoc). rewrite Hwl in Hw.
    eapply sublist_NoDup; [exact Hw|apply drop_first_sublist].
  - rewrite create_order_run. destruct (encodable _); cbn [snd]; [|exact Hwf].
    constructor; simpl.
    + exact Hw.
    + eapply sublist_NoDup; [exact Hc|]. apply fmap_sublist, drop_first_sublist.
    + apply Forall_drop_first, Hk.
Qed.

Lemma steps_keep_well_formed (db db' : Db.t) :
  well_formed db -> steps db db' -> well_formed db'.
Proof.
  intros Hwf Hsteps. induction Hsteps as [|db db' db'' _ IH Hstep]; [exact Hwf|].
  eapply step_well_formed; [apply IH, Hwf|exact Hstep].
Qed.

(** The data model's invariants hold of the empty store and are kept along
    any sequence of requests. *)
Theorem requests_keep_store_well_formed :
  well_formed Db.empty
  /\ forall db db', well_formed db -> steps db db' -> well_formed db'.
Proof. split; [exact well_formed_empty|exact steps_keep_well_formed]. Qed.

Lemma well_formed_shop : well_formed shop.
Proof.
  constructor; simpl.
  - constructor; [apply NoDup_singleton|constructor].
  - apply NoDup_singleton.
  - constructor; [apply NoDup_singleton|constructor].
Qed.

Lemma requests_keep_store_well_formed_witness :
  well_formed (create_order "o1" 300 alice_order alice (add_to_cart 200 (tee 3) alice shop).2).2.
Proof.
  apply (proj2 requests_keep_store_well_formed shop); [exact well_formed_shop|].
  apply (steps_step shop (add_to_cart 200 (tee 3) alice shop).2).
  - apply (steps_step shop shop); [apply steps_refl|].
    apply (step_add_to_cart 200 (tee 3) alice shop). reflexivity.
  - apply (step_create_order "o1" 300 alice_order alice). reflexivity.
Defined.


(** ** Orders *)

Lemma no_cart_after_drop (uid : string) (l : list Cart.t) :
  NoDup (Cart.user_id <$> l) ->
  first_match (cart_of uid) (drop_first (cart_of uid) l) = None.
Proof.
  induction l as [|c l IH]; [reflexivity|].
  rewrite fmap_cons, NoDup_cons. intros [Hc Hl]. cbn [drop_first].
  destruct (cart_of uid c) eqn:E.
  - apply first_match_None, Forall_forall. intros d Hd.
    unfold cart_of in *. apply String.eqb_eq in E. apply String.eqb_neq.
    intros Hd'. apply Hc. rewrite E, <- Hd'. apply list_elem_of_fmap_2, Hd.
  - cbn [first_match]. rewrite E. apply IH, Hl.
Qed.

Lemma matching_app {A} (q : A -> bool) (l1 l2 : list A) :
  matching q (l1 ++ l2) = matching q l1 ++ matching q l2.
Proof.
  induction l1 as [|x l1 IH]; [reflexivity|].
  simpl. destruct (q x); simpl; rewrite IH; reflexivity.
Qed.

Lemma matching_none {A} (q : A -> bool) (l : list A) :
  Forall (fun d => q d = false) l -> matching q l = [].
Proof.
  induction 1 as [|x l Hx _ IH]; [reflexivity|]. simpl. rewrite Hx. exact IH.
Qed.

(** C8.  A [create_order] that succeeds returns the order it stored.  The
    stored order is appended to the orders; its identifier is the [uuid4]
    drawn for the call (so it is the only order with that identifier
    whenever the draw is new to the store); it carries the caller's id,
    name and e-mail, the status "pending", and the submitted items, total
    and address as they came.  The first cart document of the caller is
    removed whatever was submitted, so a caller with at most one cart
    document has no cart afterwards; users, products and reviews are not
    touched.  The call succeeds exactly when the order is BSON-encodable
    (the submitted quantities are 64-bit integers); otherwise the driver
    raises [OverflowError] and the store, cart included, is as it was. *)
Theorem create_order_records_and_clears_cart (order_id : string) (now : datetime)
    (order_data : OrderCreate.t) (user : User.t) (db : Db.t) :
  (forall order db',
      create_order order_id now order_data user db = (Return order, db') ->
      Db.orders db' = Db.orders db ++ [order]
      /\ Order.id order = order_id
      /\ (order_id ∉ Order.id <$> Db.orders db ->
          matching (order_with_id order_id) (Db.orders db') = [order])
      /\ Order.user_id order = User.id user
      /\ Order.user_name order = User.name user
      /\ Order.user_email order = User.email user
      /\ Order.status order = "pending"
      /\ Order.items order = OrderCreate.items order_data
      /\ Order.total_amount order = OrderCreate.total_amount order_data
      /\ Order.shipping_address order = OrderCreate.shipping_address order_data
      /\ Db.carts db' = drop_first (cart_of (User.id user)) (Db.carts db)
      /\ (NoDup (Cart.user_id <$> Db.carts db) -> line_items (User.id user) db' = None)
      /\ Db.users db' = Db.users db
      /\ Db.products db' = Db.products db
      /\ Db.reviews db' = Db.reviews db)
  /\ (encodable (order_doc order_id now order_data user) = true ->
      exists order db', create_order order_id now order_data user db = (Return order, db'))
  /\ (encodable (order_doc order_id now order_data user) = false ->
      create_order order_id now order_data user db = (Raise OverflowError, db)).
Proof.
  rewrite create_order_run.
  destruct (encodable (order_doc order_id now order_data user));
    [|split; [discriminate|split; [discriminate|reflexivity]]].
  split; [|split; [eauto|discriminate]].
  intros order db' [= <- <-]. cbn [Db.orders Db.carts Db.users].
  split; [reflexivity|]. split; [reflexivity|]. split.
  - intros Hfresh. rewrite matching_app. rewrite matching_none.
    + simpl. unfold order_with_id. simpl. rewrite String.eqb_refl. reflexivity.
    + apply Forall_forall. intros o Ho. unfold order_with_id. apply String.eqb_neq.
      intros E. apply Hfresh. rewrite <- E. apply list_elem_of_fmap_2, Ho.
  - repeat (split; [reflexivity|]). split; [|repeat split].
    intros Hone. unfold line_items. cbn [Db.carts].
    rewrite no_cart_after_drop by exact Hone. reflexivity.
Qed.

Lemma create_order_records_and_clears_cart_witness :
  line_items "u1" shop = Some [tee 2]
  /\ line_items "u1" (create_order "o1" 300 alice_order alice shop).2 = None
  /\ matching (order_with_id "o1") (Db.orders (create_order "o1" 300 alice_order alice shop).2)
     = [order_doc "o1" 300 alice_order alice].
Proof.
  destruct (create_order_records_and_clears_cart "o1" 300 alice_order alice shop)
    as (Hdone & _ & _).
  destruct (Hdone (order_doc "o1" 300 alice_order alice)
              (create_order "o1" 300 alice_order alice shop).2 eq_refl)
    as (_ & _ & Hfresh & _ & _ & _ & _ & _ & _ & _ & _ & Hcart & _).
  split; [reflexivity|]. split.
  - apply Hcart. apply NoDup_singleton.
  - apply Hfresh. intros Hin. inversion Hin.
Defined.

(** ** Accounts are kept by every request *)

Lemma same_account_refl (u : User.t) : same_account u u.
Proof. repeat split. Qed.

Lemma same_account_trans (u u' u'' : User.t) :
  same_account u u' -> same_account u' u'' -> same_account u u''.
Proof.
  unfold same_account. intros (-> & -> & -> & -> & ->) (-> & -> & -> & -> & ->).
  repeat split.
Qed.

Lemma first_match_app_Some {A} (q : A -> bool) (l l' : list A) (d : A) :
  first_match q l = Some d -> first_match q (l ++ l') = Some d.
Proof.
  induction l as [|x l IH]; simpl; [discriminate|].
  destruct (q x); [trivial|exact IH].
Qed.

Lemma first_match_set_first_other {A} (q q' : A -> bool) (upd : A -> A) (l : list A) (d : A) :
  (forall x, q (upd x) = q x) ->
  first_match q l = Some d ->
  first_match q (set_first q' upd l) = Some d
  \/ first_match q (set_first q' upd l) = Some (upd d).
Proof.
  intros Hq. induction l as [|x l IH]; simpl; [discriminate|].
  destruct (q x) eqn:Hx.
  - intros [= <-]. destruct (q' x); simpl.
    + rewrite Hq, Hx. right. reflexivity.
    + rewrite Hx. left. reflexivity.
  - intros H. destruct (q' x); simpl.
    + rewrite Hq, Hx. left. exact H.
    + rewrite Hx. exact (IH H).
Qed.

Lemma stored_user_set_wishlist_any (uid uid' : string) (w : list string) (db : Db.t)
    (u : User.t) :
  stored_user uid db = Some u ->
  exists u',
    stored_user uid
      (put users (set_first (user_with_id uid') (set_wishlist w) (Db.users db)) db) = Some u'
    /\ same_account u u'.
Proof.
  unfold stored_user. simpl.
  destruct (first_match (user_with_id uid) (Db.users db)) as [doc|] eqn:Hd; [|discriminate].
  intros [= <-].
  destruct (first_match_set_first_other (user_with_id uid) (user_with_id uid')
              (set_wishlist w) _ _ (user_with_id_set_wishlist uid w) Hd) as [-> | ->];
    eexists; (split; [reflexivity|repeat split]).
Qed.

Lemma stored_user_same_users (uid : string) (db db' : Db.t) (u : User.t) :
  Db.users db' = Db.users db -> stored_user uid db = Some u ->
  exists u', stored_user uid db' = Some u' /\ same_account u u'.
Proof.
  unfold stored_user. intros -> H. exists u. split; [exact H|apply same_account_refl].
Qed.

Lemma step_keeps_account (uid : string) (db db' : Db.t) (u : User.t) :
  stored_user uid db = Some u -> step db db' ->
  exists u', stored_user uid db' = Some u' /\ same_account u u'.
Proof.
  intros Hu Hstep. destruct Hstep.
  - destruct (register_frame secret hmac hashpw user_id salt now now' user_data db)
      as [_ [Hus|(doc & Hus & _)]].
    + apply (stored_user_same_users _ db); assumption.
    + exists u. split; [|apply same_account_refl].
      unfold stored_user in *. rewrite Hus.
      destruct (first_match (user_with_id uid) (Db.users db)) as [d|] eqn:Hd;
        [|discriminate].
      rewrite (first_match_app_Some _ _ _ _ Hd). exact Hu.
  - destruct (product_routes_frame product_id now product_data admin db) as ([-> | ->] & _);
      apply (stored_user_same_users _ db); (reflexivity || assumption).
  - destruct (product_routes_frame product_id 0 product_data admin db) as (_ & Hus & _).
    apply (stored_user_same_users _ db); assumption.
  - destruct (product_routes_frame product_id 0 (ProductCreate.mk "" "" 0 [] [] [] "" 0)
                admin db) as (_ & _ & _ & Hus & _).
    apply (stored_user_same_users _ db); assumption.
  - destruct (create_review_frame review_id now product_id review_data user db)
      as (Hus & _).
    apply (stored_user_same_users _ db); assumption.
  - apply (stored_user_same_users _ db); [|assumption].
    rewrite add_to_cart_run. destruct (first_match _ _); destruct (encodable _); reflexivity.
  - apply (stored_user_same_users _ db); [|assumption].
    rewrite update_cart_item_run.
    destruct (first_match _ _); [cbv zeta; destruct (encodable _)|]; reflexivity.
  - apply (stored_user_same_users _ db); [|assumption].
    rewrite remove_from_cart_run.
    destruct (first_match _ _); [cbv zeta; destruct (encodable _)|]; reflexivity.
  - rewrite add_to_wishlist_run. cbn [snd]. destruct (contains _ _).
    + exists u. split; [assumption|apply same_account_refl].
    + apply stored_user_set_wishlist_any, Hu.
  - rewrite remove_from_wishlist_run. cbn [snd]. destruct (contains _ _).
    + apply stored_user_set_wishlist_any, Hu.
    + exists u. split; [assumption|apply same_account_refl].
  - apply (stored_user_same_users _ db); [|assumption].
    rewrite create_order_run. destruct (encodable _); reflexivity.
Qed.

(** No request deletes an account or changes its id, name, e-mail, admin
    flag or creation time. *)
Lemma steps_keep_account (uid : string) (db db' : Db.t) (u : User.t) :
  stored_user uid db = Some u -> steps db db' ->
  exists u', stored_user uid db' = Some u' /\ same_account u u'.
Proof.
  intros Hu Hsteps. induction Hsteps as [|db db' db'' _ IH Hstep].
  - exists u. split; [assumption|apply same_account_refl].
  - destruct (IH Hu) as (u' & Hu' & Hsame).
    destruct (step_keeps_account uid _ _ _ Hu' Hstep) as (u'' & Hu'' & Hsame').
    exists u''. split; [assumption|]. eapply same_account_trans; eassumption.
Qed.

(** ** Tokens, login and registration *)

Section AuthProperties.

Variable JWT_SECRET : string.
Variable hmac_sha256 : string -> string -> Jwt.payload -> string.
Variable bcrypt_hashpw : string -> string -> string.
Variable bcrypt_checkpw : string -> string -> bool.

#[local] Abbreviation issue := (create_token JWT_SECRET hmac_sha256).
#[local] Abbreviation authenticate := (get_current_user JWT_SECRET hmac_sha256).
#[local] Abbreviation sign_up := (register JWT_SECRET hmac_sha256 bcrypt_hashpw).
#[local] Abbreviation sign_in := (login JWT_SECRET hmac_sha256 bcrypt_checkpw).

(** Decoding a token this server issued: its own signature verifies, so
    only the clock decides. *)
Lemma decode_create_token (issued now : datetime) (uid : string) :
  Jwt.decode hmac_sha256 now (issue issued uid) JWT_SECRET JWT_ALGORITHM =
  if Z.leb (issued + seven_days) now then inr Jwt.ExpiredSignatureError
  else inl (Jwt.Payload (Some uid) (Some (issued + seven_days))).
Proof.
  unfold create_token, Jwt.encode, Jwt.decode. simpl. rewrite !String.eqb_refl.
  reflexivity.
Qed.

Lemma get_current_user_create_token (issued now : datetime) (uid : string) (db : Db.t) :
  authenticate now (issue issued uid) db =
  if Z.leb (issued + seven_days) now then (Raise (HTTPException 401 "Token expired"), db)
  else
    match stored_user uid db with
    | Some user => (Return user, db)
    | None => (Raise (HTTPException 401 "User not found"), db)
    end.
Proof.
  unfold get_current_user. rewrite decode_create_token.
  destruct (Z.leb (issued + seven_days) now); [reflexivity|].
  run. unfold stored_user.
  change (user_with_claimed_id (Some uid)) with (user_with_id uid).
  destruct (first_match (user_with_id uid) (Db.users db)); reflexivity.
Qed.

(** C5.  Take a token that [create_token] issues at time [issued] for a
    user who is in the store then, and any later store the requests have
    led to.  (1) The token's claims are the user id and the expiry
    [issued + 7 days].  (2) At any time before the expiry
    [get_current_user] returns the stored user of that id, who is the same
    account (id, name, e-mail, admin flag, creation time).  (3) At any
    time after the expiry it raises 401 "Token expired", which (4, 5) is
    not the 401 "Invalid token" that a token with another signature
    gets. *)
Theorem token_valid_for_seven_days (issued : datetime) (uid : string) (db0 db : Db.t)
    (u0 : User.t) :
  stored_user uid db0 = Some u0 ->
  steps db0 db ->
  (exists signature,
      issue issued uid
      = Jwt.Compact "HS256" (Jwt.Payload (Some uid) (Some (issued + 7 * 86400))) signature)
  /\ (forall now, now < issued + 7 * 86400 ->
      exists u,
        authenticate now (issue issued uid) db = (Return u, db)
        /\ stored_user uid db = Some u
        /\ same_account u0 u)
  /\ (forall now, issued + 7 * 86400 < now ->
      authenticate now (issue issued uid) db
      = (Raise (HTTPException 401 "Token expired"), db))
  /\ (forall now claims signature,
      signature <> hmac_sha256 JWT_SECRET "HS256" claims ->
      authenticate now (Jwt.Compact "HS256" claims signature) db
      = (Raise (HTTPException 401 "Invalid token"), db))
  /\ HTTPException 401 "Token expired" <> HTTPException 401 "Invalid token".
Proof.
  intros Hu0 Hsteps. fold seven_days.
  destruct (steps_keep_account uid db0 db u0 Hu0 Hsteps) as (u & Hu & Hsame).
  split; [eexists; reflexivity|]. split; [|split; [|split]].
  - intros now Hnow. exists u. rewrite get_current_user_create_token.
    destruct (Z.leb_spec (issued + seven_days) now) as [Hle|_]; [lia|].
    rewrite Hu. split; [reflexivity|]. split; [reflexivity|exact Hsame].
  - intros now Hnow. rewrite get_current_user_create_token.
    destruct (Z.leb_spec (issued + seven_days) now) as [_|Hlt]; [reflexivity|lia].
  - intros now claims signature Hsig. unfold get_current_user, Jwt.decode. simpl.
    apply String.eqb_neq in Hsig. rewrite Hsig. reflexivity.
  - discriminate.
Qed.

(** C6.  A login with an e-mail no stored user has and a login with a
    stored e-mail and a password that [verify_password] rejects have the
    same outcome, 401 "Invalid credentials", and each leaves its store as
    it was. *)
Theorem login_failures_look_alike (now1 now2 : datetime) (credentials1 credentials2 : UserLogin.t)
    (db1 db2 : Db.t) (user2 : UserDoc.t) :
  first_match (user_with_email (UserLogin.email credentials1)) (Db.users db1) = None ->
  first_match (user_with_email (UserLogin.email credentials2)) (Db.users db2) = Some user2 ->
  verify_password bcrypt_checkpw (UserLogin.password credentials2) (UserDoc.password user2)
  = false ->
  sign_in now1 credentials1 db1 = (Raise (HTTPException 401 "Invalid credentials"), db1)
  /\ sign_in now2 credentials2 db2 = (Raise (HTTPException 401 "Invalid credentials"), db2)
  /\ (sign_in now1 credentials1 db1).1 = (sign_in now2 credentials2 db2).1.
Proof.
  intros Habsent Hpresent Hwrong.
  assert (H1 : sign_in now1 credentials1 db1
               = (Raise (HTTPException 401 "Invalid credentials"), db1)).
  { unfold login. run. rewrite Habsent. reflexivity. }
  assert (H2 : sign_in now2 credentials2 db2
               = (Raise (HTTPException 401 "Invalid credentials"), db2)).
  { unfold login. run. rewrite Hpresent, Hwrong. reflexivity. }
  rewrite H1, H2. repeat split.
Qed.


Lemma register_run (user_id salt : string) (now now' : datetime) (user_data : UserCreate.t)
    (db : Db.t) :
  sign_up user_id salt now now' user_data db =
  match first_match (user_with_email (UserCreate.email user_data)) (Db.users db) with
  | Some _ => (Raise (HTTPException 400 "Email already registered"), db)
  | None =>
      (Return
         (AuthResponse.mk (issue now' user_id)
            (PublicUser.mk user_id (UserCreate.name user_data) (UserCreate.email user_data)
               false)),
       put users
         (Db.users db
          ++ [UserDoc.mk user_id (UserCreate.name user_data) (UserCreate.email user_data)
                (bcrypt_hashpw (UserCreate.password user_data) salt) false [] now]) db)
  end.
Proof.
  unfold register. run.
  destruct (first_match (user_with_email (UserCreate.email user_data)) (Db.users db));
    reflexivity.
Qed.


End AuthProperties.

Lemma token_valid_for_seven_days_witness :
  (exists u,
      get_current_user "k" toy_hmac 604799 (create_token "k" toy_hmac 0 "u1")
        (add_to_wishlist "p2" alice shop).2
      = (Return u, (add_to_wishlist "p2" alice shop).2)
      /\ stored_user "u1" (add_to_wishlist "p2" alice shop).2 = Some u
      /\ same_account alice u)
  /\ get_current_user "k" toy_hmac 604801 (create_token "k" toy_hmac 0 "u1")
       (add_to_wishlist "p2" alice shop).2
     = (Raise (HTTPException 401 "Token expired"), (add_to_wishlist "p2" alice shop).2).
Proof.
  assert (Hsteps : steps shop (add_to_wishlist "p2" alice shop).2).
  { eapply steps_step; [apply steps_refl|]. apply step_add_to_wishlist. reflexivity. }
  destruct (token_valid_for_seven_days "k" toy_hmac 0 "u1" shop _ alice eq_refl Hsteps)
    as (_ & Hbefore & Hafter & _).
  split; [apply (Hbefore 604799); lia|apply (Hafter 604801); lia].
Defined.

Lemma login_failures_look_alike_witness :
  login "k" toy_hmac toy_checkpw 10 (UserLogin.mk "bob@example.org" "alice") shop
  = (Raise (HTTPException 401 "Invalid credentials"), shop)
  /\ login "k" toy_hmac toy_checkpw 20 (UserLogin.mk "alice@example.org" "bob") shop
     = (Raise (HTTPException 401 "Invalid credentials"), shop)
  /\ (login "k" toy_hmac toy_checkpw 10 (UserLogin.mk "bob@example.org" "alice") shop).1
     = (login "k" toy_hmac toy_checkpw 20 (UserLogin.mk "alice@example.org" "bob") shop).1.
Proof.
  apply (login_failures_look_alike "k" toy_hmac toy_checkpw 10 20
           (UserLogin.mk "bob@example.org" "alice") (UserLogin.mk "alice@example.org" "bob")
           shop shop alice_doc); reflexivity.
Defined.


(** ** Reviews *)

Lemma reviews_read_after_insert (product_id : string) (doc : Review.t) (db : Db.t) :
  Review.product_id doc = product_id ->
  reviews_read product_id (put reviews (Db.reviews db ++ [doc]) db)
  = take 1000 (matching (review_of_product product_id) (Db.reviews db) ++ [doc]).
Proof.
  intros Hdoc. unfold reviews_read. simpl. rewrite matching_app. simpl.
  unfold review_of_product at 2. rewrite Hdoc, String.eqb_refl. reflexivity.
Qed.

Lemma length_reviews_read (product_id : string) (db : Db.t) :
  (length (reviews_read product_id db) <= 1000)%nat.
Proof. unfold reviews_read. rewrite length_take. lia. Qed.

Lemma length_reviews_read_after_insert (product_id : string) (doc : Review.t) (db : Db.t) :
  Review.product_id doc = product_id ->
  (1 <= length (reviews_read product_id (put reviews (Db.reviews db ++ [doc]) db)))%nat.
Proof.
  intros Hdoc. rewrite reviews_read_after_insert by exact Hdoc.
  rewrite length_take, length_app. cbn [length]. lia.
Qed.

Lemma truediv_ZeroDivisionError (a b : Z) :
  Float.truediv a b = Raise ZeroDivisionError <-> b = 0.
Proof.
  unfold Float.truediv. destruct (Z.eqb_spec b 0) as [->|Hb].
  - split; reflexivity.
  - destruct (Float.nearest _); split; (discriminate || contradiction).
Qed.

Lemma truediv_ZeroDivisionError_Return (a : Z) (avg : Q) :
  Float.truediv a 0 = Return avg -> False.
Proof. discriminate. Qed.

Lemma round1_no_ZeroDivisionError (x : Q) : Float.round1 x <> Raise ZeroDivisionError.
Proof. unfold Float.round1. destruct (Float.nearest _); discriminate. Qed.

(** C9.  In [create_review], the list read back after the insert holds at
    least one review (the one just inserted is for the product), so the
    divisor [len(reviews)] is at least 1 and the division does not raise
    [ZeroDivisionError].  The insert is refused (with [OverflowError])
    only for a rating that is no BSON integer, and then the handler ends
    there and nothing is read back or divided.  So the handler never
    raises [ZeroDivisionError], whatever the request and the store. *)
Theorem create_review_divisor_positive (review_id : string) (now : datetime)
    (product_id : string) (review_data : ReviewCreate.t) (user : User.t) (db : Db.t) :
  let doc := review_doc review_id now product_id review_data user in
  (forall db1,
      insert_one reviews doc db = (Return tt, db1) ->
      exists l,
        find_to_list reviews (review_of_product product_id) 1000 db1 = (Return l, db1)
        /\ 1 <= Z.of_nat (length l)
        /\ Float.truediv (sum_ratings l) (Z.of_nat (length l)) <> Raise ZeroDivisionError)
  /\ (bson_int (ReviewCreate.rating review_data) = true ->
      exists db1, insert_one reviews doc db = (Return tt, db1))
  /\ (bson_int (ReviewCreate.rating review_data) = false ->
      insert_one reviews doc db = (Raise OverflowError, db))
  /\ (create_review review_id now product_id review_data user db).1 <> Raise ZeroDivisionError.
Proof.
  intros doc.
  pose proof (length_reviews_read_after_insert product_id doc db eq_refl) as Hlen.
  unfold reviews_read in Hlen. cbn [put reviews Db.reviews] in Hlen.
  unfold insert_one.
  change (encodable doc) with (bson_int (ReviewCreate.rating review_data)).
  split; [|split; [|split]].
  - destruct (bson_int _); [|discriminate]. intros db1 [= <-].
    unfold find_to_list. cbn [docs put reviews Db.reviews].
    eexists. split; [reflexivity|]. split; [lia|].
    rewrite truediv_ZeroDivisionError. lia.
  - intros ->. eauto.
  - intros ->. reflexivity.
  - rewrite create_review_run.
    destruct (first_match (product_with_id product_id) (Db.products db)); [|discriminate].
    destruct (first_match _ (Db.reviews db)); [discriminate|].
    destruct (bson_int _); [|discriminate]. cbv zeta.
    fold doc. unfold aggregate, reviews_read. cbn [put reviews Db.reviews].
    destruct (Float.truediv _ _) as [avg|e] eqn:Hdiv.
    + pose proof (round1_no_ZeroDivisionError avg).
      destruct (Float.round1 avg); cbn [fst]; [discriminate|congruence].
    + cbn [fst]. intros [= ->]. apply truediv_ZeroDivisionError in Hdiv. lia.
Qed.

(** C1, as the specification states it, fails on the store [busy_shop]:
    Alice's review of the product [p1] succeeds and is the 1001st stored for
    it, but the product record is left with [review_count] 1000 and with
    the rating 4.0 of the first thousand, where the mean of all 1001
    ratings, 4055/1001, rounds to 4.1. *)
Lemma create_review_reads_at_most_1000 :
  (create_review "rev-a" 20 "p1" (ReviewCreate.mk 5 "great") alice busy_shop).1
  = Return (Review.mk "rev-a" "p1" "u1" "Alice" 5 "great" 20)
  /\ length (matching (review_of_product "p1")
               (Db.reviews
                  (create_review "rev-a" 20 "p1" (ReviewCreate.mk 5 "great") alice
                     busy_shop).2))
     = 1001%nat
  /\ (Product.review_count
        <$> first_match (product_with_id "p1")
              (Db.products
                 (create_review "rev-a" 20 "p1" (ReviewCreate.mk 5 "great") alice
                    busy_shop).2))
     = Some 1000
  /\ (Product.rating
        <$> first_match (product_with_id "p1")
              (Db.products
                 (create_review "rev-a" 20 "p1" (ReviewCreate.mk 5 "great") alice
                    busy_shop).2))
     = Some (4 # 1)
  /\ aggregate
       (matching (review_of_product "p1")
          (Db.reviews
             (create_review "rev-a" 20 "p1" (ReviewCreate.mk 5 "great") alice busy_shop).2))
     = Return (2308094809027379 # 562949953421312, 1001).
Proof. vm_compute. repeat split. Qed.

(** ** Binary64 rounding *)

Section FloatFacts.
#[local] Open Scope Q_scope.

(** Rounding to an integer moves a number by at most a half. *)
Lemma round_half_even_error (y : Q) :
  Qabs (inject_Z (Float.round_half_even y) - y) <= 1 # 2.
Proof.
  unfold Float.round_half_even.
  pose proof (Qfloor_le y) as Hlo. pose proof (Qlt_floor y) as Hhi.
  rewrite inject_Z_plus in Hhi. change (inject_Z 1) with 1 in Hhi.
  apply Qabs_Qle_condition.
  destruct (Qcompare (y - inject_Z (Qfloor y)) (1 # 2)) eqn:C.
  - apply Qeq_alt in C.
    destruct (Z.even (Qfloor y)); [|rewrite inject_Z_plus; change (inject_Z 1) with 1]; lra.
  - apply Qlt_alt in C. lra.
  - apply Qgt_alt in C. rewrite inject_Z_plus. change (inject_Z 1) with 1. lra.
Qed.

(** Rounding to binary64 moves a number by at most half a unit in the
    last place. *)
Lemma nearest_error (q x : Q) :
  Float.nearest q = Some x -> Qabs (x - q) <= 2 ^ Float.exponent q * (1 # 2).
Proof.
  unfold Float.nearest.
  assert (Hpos : 0 < 2 ^ Float.exponent q) by (apply Qpower_0_lt; reflexivity).
  destruct (Qeq_bool q 0) eqn:Hz.
  - intros [= <-]. apply Qeq_bool_iff in Hz. apply Qabs_Qle_condition. lra.
  - cbv zeta. destruct (Qle_bool _ _); [discriminate|]. intros [= <-].
    rewrite Qred_correct.
    set (e := Float.exponent q) in *.
    set (m := Float.round_half_even (q / 2 ^ e)).
    assert (E : inject_Z m * 2 ^ e - q == (inject_Z m - q / 2 ^ e) * 2 ^ e)
      by (field; lra).
    rewrite E, Qabs_Qmult, (Qabs_pos (2 ^ e)) by lra.
    rewrite (Qmult_comm (2 ^ e)).
    apply Qmult_le_compat_r; [apply round_half_even_error|lra].
Qed.

(** Powers of two around a positive integer. *)
Lemma two_power_log2 (a : Z) :
  (0 < a)%Z -> 2 ^ Z.log2 a <= inject_Z a /\ inject_Z a < 2 * 2 ^ Z.log2 a.
Proof.
  intros Ha. pose proof (Z.log2_spec a Ha) as [Hlo Hhi].
  pose proof (Z.log2_nonneg a) as Hnn.
  rewrite Z.pow_succ_r in Hhi by exact Hnn.
  assert (E : 2 ^ Z.log2 a == inject_Z (2 ^ Z.log2 a)%Z).
  { rewrite Zpower_Qpower by exact Hnn. reflexivity. }
  rewrite E. change 2 with (inject_Z 2).
  rewrite <- inject_Z_mult, <- Zle_Qle, <- Zlt_Qlt. split; assumption.
Qed.

(** [floor_log2] brackets a positive rational between two powers of
    two. *)
Lemma floor_log2_spec (q : Q) :
  0 < q -> 2 ^ Float.floor_log2 q <= q /\ q < 2 ^ (Float.floor_log2 q + 1).
Proof.
  intros Hq. destruct q as [a b]. unfold Float.floor_log2. cbn [Qnum Qden].
  assert (Ha : (0 < a)%Z).
  { unfold Qlt in Hq. simpl in Hq. lia. }
  destruct (two_power_log2 a Ha) as [Ha1 Ha2].
  destruct (two_power_log2 (Zpos b) eq_refl) as [Hb1 Hb2].
  set (la := Z.log2 a) in *. set (lb := Z.log2 (Zpos b)) in *.
  assert (Hpa : 0 < 2 ^ la) by (apply Qpower_0_lt; reflexivity).
  assert (Hpb : 0 < 2 ^ lb) by (apply Qpower_0_lt; reflexivity).
  assert (Hl : 2 ^ (la - lb) == 2 ^ la / 2 ^ lb) by (apply Qpower_minus; lra).
  assert (Hl1 : 2 ^ (la - lb + 1) == 2 * (2 ^ la / 2 ^ lb)).
  { rewrite Qpower_plus by lra. rewrite Hl. change (2 ^ 1) with 2. ring. }
  assert (Hl0 : 2 ^ (la - lb - 1) == (2 ^ la / 2 ^ lb) / 2).
  { replace (la - lb - 1)%Z with (la - lb + -1)%Z by lia.
    rewrite Qpower_plus by lra. rewrite Hl. change (2 ^ (-1)) with (1 # 2).
    field. lra. }
  assert (Hab : a # b == inject_Z a / inject_Z (Zpos b)) by apply Qmake_Qdiv.
  set (A := inject_Z a) in *. set (B := inject_Z (Zpos b)) in *.
  assert (HB : 0 < B) by lra.
  assert (Hup : A / B < 2 * (2 ^ la / 2 ^ lb)).
  { apply Qlt_shift_div_r; [exact HB|].
    assert (E : 2 * (2 ^ la / 2 ^ lb) * B == (2 * 2 ^ la) * (B / 2 ^ lb)) by (field; lra).
    rewrite E.
    assert (1 <= B / 2 ^ lb) by (apply Qle_shift_div_l; lra).
    nra. }
  assert (Hdown : (2 ^ la / 2 ^ lb) / 2 <= A / B).
  { apply Qle_shift_div_l; [exact HB|].
    assert (E : 2 ^ la / 2 ^ lb / 2 * B == 2 ^ la * (B / (2 * 2 ^ lb))) by (field; lra).
    rewrite E.
    assert (B / (2 * 2 ^ lb) <= 1) by (apply Qle_shift_div_r; lra).
    nra. }
  destruct (Qle_bool (2 ^ (la - lb)) (a # b)) eqn:Hc.
  - apply Qle_bool_iff in Hc. split; [exact Hc|]. rewrite Hl1, Hab. exact Hup.
  - assert (Hlt : a # b < 2 ^ (la - lb)).
    { apply Qnot_le_lt. intros H. apply Qle_bool_iff in H. congruence. }
    split.
    + rewrite Hl0, Hab. exact Hdown.
    + replace (la - lb - 1 + 1)%Z with (la - lb)%Z by lia. exact Hlt.
Qed.
(** What [nearest] returns is a binary64 value: an integer of at most 53
    bits times a power of two not below [2^-1074]. *)
Lemma nearest_is_binary64 (q x : Q) :
  Float.nearest q = Some x ->
  exists m : Z,
    x == inject_Z m * 2 ^ Float.exponent q
    /\ (Z.abs m <= 2 ^ 53)%Z
    /\ (-1074 <= Float.exponent q)%Z.
Proof.
  unfold Float.nearest. destruct (Qeq_bool q 0) eqn:Hz.
  - intros [= <-]. exists 0%Z. split; [ring|]. split; [lia|unfold Float.exponent; lia].
  - cbv zeta. destruct (Qle_bool _ _); [discriminate|]. intros [= <-].
    apply Qeq_bool_neq in Hz.
    assert (Hq : 0 < Qabs q).
    { destruct (Qlt_le_dec 0 (Qabs q)) as [H|H]; [exact H|].
      exfalso. apply Hz. pose proof (Qabs_nonneg q).
      apply Qabs_Qle_condition in H. lra. }
    destruct (floor_log2_spec _ Hq) as [_ Hhi].
    set (l := Float.floor_log2 (Qabs q)) in *.
    set (e := Float.exponent q).
    assert (He : (l - 52 <= e)%Z /\ (-1074 <= e)%Z) by (unfold e, Float.exponent; fold l; lia).
    exists (Float.round_half_even (q / 2 ^ e)).
    split; [apply Qred_correct|]. split; [|apply He].
    assert (Hpe : 0 < 2 ^ e) by (apply Qpower_0_lt; reflexivity).
    assert (Hpow : 2 ^ (l + 1) <= 2 ^ 53 * 2 ^ e).
    { rewrite <- Qpower_plus by lra. apply Qpower_le_compat_l; [lia|lra]. }
    assert (Hy : Qabs (q / 2 ^ e) < 2 ^ 53).
    { unfold Qdiv. rewrite Qabs_Qmult, Qabs_Qinv, (Qabs_pos (2 ^ e)) by lra.
      apply Qlt_shift_div_r; [exact Hpe|]. lra. }
    pose proof (round_half_even_error (q / 2 ^ e)) as Hm.
    set (m := Float.round_half_even (q / 2 ^ e)) in *.
    set (y := q / 2 ^ e) in *.
    apply Qabs_Qle_condition in Hm.
    apply Qabs_Qlt_condition in Hy.
    change (2 ^ 53) with (inject_Z (2 ^ 53)) in Hy.
    assert (Hup : inject_Z m < inject_Z (2 ^ 53 + 1)).
    { rewrite inject_Z_plus. change (inject_Z 1) with 1. lra. }
    assert (Hdown : inject_Z (- 2 ^ 53 + -1) < inject_Z m).
    { rewrite inject_Z_plus, inject_Z_opp. change (inject_Z (-1)) with (- (1)). lra. }
    rewrite <- Zlt_Qlt in Hup, Hdown. lia.
Qed.
(** The exponent is at most that of numerator over denominator. *)
Lemma floor_log2_le (q : Q) :
  (Float.floor_log2 q <= Z.log2 (Qnum q) - Z.log2 (Zpos (Qden q)))%Z.
Proof. unfold Float.floor_log2. destruct (Qle_bool _ _); lia. Qed.

(** A quotient of magnitude at most [2^31] has its last bit at [2^-21] or
    below. *)
Lemma exponent_of_mean (s n : Z) :
  (0 < n)%Z -> (Z.abs s <= n * 2 ^ 31)%Z ->
  (Float.exponent (inject_Z s / inject_Z n) <= -21)%Z.
Proof.
  intros Hn Hs. unfold Float.exponent.
  pose proof (floor_log2_le (Qabs (inject_Z s / inject_Z n))) as Hl.
  destruct n as [|p|p]; try lia.
  assert (Hnum : Qnum (Qabs (inject_Z s / inject_Z (Zpos p))) = Z.abs s).
  { unfold Qdiv, Qinv, Qmult, Qabs, inject_Z. simpl. f_equal. lia. }
  assert (Hden : Qden (Qabs (inject_Z s / inject_Z (Zpos p))) = p).
  { unfold Qdiv, Qinv, Qmult, Qabs, inject_Z. simpl. reflexivity. }
  rewrite Hnum, Hden in Hl.
  assert (Z.log2 (Z.abs s) <= Z.log2 (Zpos p) + 31)%Z.
  { etransitivity; [apply Z.log2_le_mono, Hs|].
    rewrite Z.log2_mul_pow2 by lia. lia. }
  lia.
Qed.

(** The float quotient [avg] of [s] by [n <= 1000] rounds to the same
    tenth as the exact quotient, up to the choice at an exact midpoint:
    [20 s - 2 k n] is an integer, so the exact quotient is either on the
    same side of a midpoint as [avg] or at least [1 / (20 n)] away from it,
    which is more than the rounding error of the division. *)
Lemma nearest_tenth_of_mean (s n : Z) (avg : Q) :
  (1 <= n <= 1000)%Z -> (Z.abs s <= n * 2 ^ 31)%Z ->
  Float.truediv s n = Return avg ->
  Qabs (inject_Z s / inject_Z n * 10 - inject_Z (Float.round_half_even (avg * 10))) <= 1 # 2.
Proof.
  intros Hn Hs Hdiv. unfold Float.truediv in Hdiv.
  destruct (Z.eqb_spec n 0) as [|_]; [lia|].
  destruct (Float.nearest _) as [x|] eqn:Hnear; [|discriminate].
  injection Hdiv as ->.
  pose proof (nearest_error _ _ Hnear) as Herr.
  pose proof (exponent_of_mean s n ltac:(lia) Hs) as Hexp.
  pose proof (Qpower_le_compat_l 2 _ _ Hexp ltac:(lra)) as Hpow.
  change (2 ^ (-21)) with (1 # 2097152) in Hpow.
  pose proof (round_half_even_error (avg * 10)) as Hk.
  set (k := Float.round_half_even (avg * 10)) in *.
  set (q := inject_Z s / inject_Z n) in *.
  set (u := 2 ^ Float.exponent q) in *.
  apply Qabs_Qle_condition in Herr, Hk.
  assert (HN : 1 <= inject_Z n <= 1000).
  { split; [change 1 with (inject_Z 1)|change 1000 with (inject_Z 1000)];
      rewrite <- Zle_Qle; lia. }
  assert (Hq : q * inject_Z n == inject_Z s) by (unfold q; field; lra).
  set (N := inject_Z n) in *. set (S := inject_Z s) in *. set (K := inject_Z k) in *.
  assert (Hint : forall d : Z, inject_Z d == 20 * S - 2 * K * N ->
                   (Z.abs d <= n)%Z).
  { intros d Hd.
    assert (Hup : inject_Z d < N + 1).
    { rewrite Hd. nra. }
    assert (Hdown : - N - 1 < inject_Z d).
    { rewrite Hd. nra. }
    assert (Hup' : inject_Z d < inject_Z (n + 1)).
    { rewrite inject_Z_plus. exact Hup. }
    assert (Hdown' : inject_Z (- n + - 1) < inject_Z d).
    { rewrite inject_Z_plus, inject_Z_opp. fold N. change (inject_Z (-1)) with (- (1)). lra. }
    rewrite <- Zlt_Qlt in Hup', Hdown'. lia. }
  specialize (Hint (20 * s - 2 * k * n)%Z).
  assert (Hd : inject_Z (20 * s - 2 * k * n) == 20 * S - 2 * K * N).
  { unfold S, K, N, Z.sub. rewrite inject_Z_plus, inject_Z_opp, !inject_Z_mult. ring. }
  specialize (Hint Hd).
  assert (Hle : - N <= 20 * S - 2 * K * N <= N).
  { rewrite <- Hd. unfold N. rewrite <- inject_Z_opp, <- !Zle_Qle. lia. }
  apply Qabs_Qle_condition. split; nra.
Qed.
End FloatFacts.

(** The model computes the doubles Python prints: [1/10] is
    [(0.1).as_integer_ratio()], and [round(63/20, 1)] is 3.1 although the
    mean is exactly 3.15, whose double lies just below it. *)
Example truediv_1_10 :
  Float.truediv 1 10 = Return (3602879701896397 # 36028797018963968).
Proof. vm_compute. reflexivity. Qed.

Example round1_63_20 :
  Float.truediv 63 20 = Return (7093169413108531 # 2251799813685248)
  /\ Float.round1 (7093169413108531 # 2251799813685248)
     = Float.truediv 31 10.
Proof. vm_compute. split; reflexivity. Qed.

(** ** The review aggregate *)

Lemma sum_ratings_bound (bound : Z) (l : list Review.t) :
  Forall (fun r => Z.abs (Review.rating r) <= bound) l ->
  Z.abs (sum_ratings l) <= Z.of_nat (length l) * bound.
Proof.
  induction 1 as [|r l Hr _ IH]; [simpl; lia|].
  cbn [sum_ratings length]. lia.
Qed.

Lemma aggregate_Return (l : list Review.t) (rating : Q) (review_count : Z) :
  aggregate l = Return (rating, review_count) ->
  review_count = Z.of_nat (length l)
  /\ exists avg_rating,
      Float.truediv (sum_ratings l) (Z.of_nat (length l)) = Return avg_rating
      /\ Float.round1 avg_rating = Return rating.
Proof.
  unfold aggregate. destruct (Float.truediv _ _) as [avg|]; [|discriminate].
  destruct (Float.round1 avg) as [r|] eqn:Hr; [|discriminate].
  intros [= <- <-]. split; [reflexivity|]. exists avg. split; [reflexivity|exact Hr].
Qed.

(** When the ratings are 32-bit numbers, the rating computed from at most
    1000 reviews is the float of a one-digit decimal nearest to their exact
    mean: the error of the float division is too small to carry the
    quotient across the midpoint between two such decimals. *)
Lemma aggregate_nearest_tenth (l : list Review.t) (rating : Q) (review_count : Z) :
  (length l <= 1000)%nat ->
  Forall (fun r => Z.abs (Review.rating r) <= 2 ^ 31) l ->
  aggregate l = Return (rating, review_count) ->
  exists k, nearest_tenth (mean l) k /\ Float.nearest (inject_Z k / 10) = Some rating.
Proof.
  intros Hlen Hbound Hagg.
  destruct (aggregate_Return _ _ _ Hagg) as (_ & avg & Hdiv & Hround).
  exists (Float.round_half_even (avg * 10)). split.
  - apply nearest_tenth_of_mean; [|apply sum_ratings_bound, Hbound|exact Hdiv].
    split; [|lia]. destruct l; [|cbn [length]; lia].
    apply truediv_ZeroDivisionError_Return in Hdiv. contradiction.
  - unfold Float.round1 in Hround.
    destruct (Float.nearest _) as [y|]; [|discriminate]. congruence.
Qed.

(** C1, amended.  After a successful [create_review] the review is stored,
    and the product record found for the id carries, as [review_count], the
    number of reviews that were read back for the product and, as [rating],
    Python's [round(sum / len, 1)] of their ratings.  The reviews read back
    are the first 1000 stored for the product, hence all of them when it
    has at most 1000.  The rating is the arithmetic mean rounded to one
    decimal place in this sense: for ratings that are 32-bit numbers, it is
    the float of a one-digit decimal nearest to the exact mean. *)
Theorem create_review_updates_aggregate (review_id : string) (now : datetime)
    (product_id : string) (review_data : ReviewCreate.t) (user : User.t) (db : Db.t)
    (doc : Review.t) (db' : Db.t) :
  create_review review_id now product_id review_data user db = (Return doc, db') ->
  exists product,
    Db.reviews db' = Db.reviews db ++ [doc]
    /\ Review.product_id doc = product_id
    /\ Review.rating doc = ReviewCreate.rating review_data
    /\ first_match (product_with_id product_id) (Db.products db') = Some product
    /\ Product.review_count product = Z.of_nat (length (reviews_read product_id db'))
    /\ aggregate (reviews_read product_id db')
       = Return (Product.rating product, Product.review_count product)
    /\ ((length (matching (review_of_product product_id) (Db.reviews db')) <= 1000)%nat ->
        reviews_read product_id db'
        = matching (review_of_product product_id) (Db.reviews db'))
    /\ (Forall (fun r => Z.abs (Review.rating r) <= 2 ^ 31) (reviews_read product_id db') ->
        exists k,
          nearest_tenth (mean (reviews_read product_id db')) k
          /\ Float.nearest (inject_Z k / 10) = Some (Product.rating product)).
Proof.
  rewrite create_review_run.
  destruct (first_match (product_with_id product_id) (Db.products db)) as [p|] eqn:Hp;
    [|discriminate].
  destruct (first_match _ (Db.reviews db)); [discriminate|].
  destruct (bson_int _); [|discriminate]. cbv zeta.
  set (doc0 := review_doc review_id now product_id review_data user).
  set (db1 := put reviews (Db.reviews db ++ [doc0]) db).
  destruct (aggregate (reviews_read product_id db1)) as [[rating review_count]|e] eqn:Hagg;
    [|discriminate].
  intros [= <- Hdb].
  assert (Hread : reviews_read product_id db' = reviews_read product_id db1)
    by (rewrite <- Hdb; reflexivity).
  assert (Hstored : Db.reviews db' = Db.reviews db ++ [doc0])
    by (rewrite <- Hdb; reflexivity).
  rewrite Hread.
  exists (set_rating rating review_count p).
  split; [exact Hstored|]. split; [reflexivity|]. split; [reflexivity|]. split.
  { rewrite <- Hdb. cbn [put products Db.products].
    rewrite first_match_set_first by (intros d Hd; exact Hd). rewrite Hp. reflexivity. }
  destruct (aggregate_Return _ _ _ Hagg) as (Hcount & _).
  split; [exact Hcount|]. split; [exact Hagg|]. split.
  - rewrite <- Hread. unfold reviews_read. intros Hlen. apply take_ge. exact Hlen.
  - intros Hbound.
    apply (aggregate_nearest_tenth _ _ _ (length_reviews_read product_id db1) Hbound Hagg).
Qed.

Lemma create_review_updates_aggregate_witness :
  exists product,
    first_match (product_with_id "p1")
      (Db.products (create_review "rev1" 20 "p1" (ReviewCreate.mk 5 "great") alice review_shop).2)
    = Some product
    /\ Product.review_count product = 2
    /\ Product.rating product = 9 # 2.
Proof.
  assert (Hrun : create_review "rev1" 20 "p1" (ReviewCreate.mk 5 "great") alice review_shop
                 = (Return (review_doc "rev1" 20 "p1" (ReviewCreate.mk 5 "great") alice),
                    (create_review "rev1" 20 "p1" (ReviewCreate.mk 5 "great") alice
                       review_shop).2))
    by (vm_compute; reflexivity).
  destruct (create_review_updates_aggregate _ _ _ _ _ _ _ _ Hrun)
    as (product & _ & _ & _ & Hfound & _ & Hagg & _).
  exists product. split; [exact Hfound|].
  vm_compute in Hagg. injection Hagg as Hrating Hcount.
  split; [exact (eq_sym Hcount)|exact (eq_sym Hrating)].
Defined.

(** * Further properties of the handlers *)

(** ** Carts: who is touched, what is kept *)

Lemma first_match_set_first_apart {A} (q q' : A -> bool) (upd : A -> A) (l : list A) :
  (forall d, q' d = true -> q d = false /\ q (upd d) = false) ->
  first_match q (set_first q' upd l) = first_match q l.
Proof.
  intros Hapart. induction l as [|x l IH]; [reflexivity|].
  cbn [set_first first_match]. destruct (q' x) eqn:Hx.
  - destruct (Hapart x Hx) as [-> Hupd]. cbn [first_match]. rewrite Hupd. reflexivity.
  - cbn [first_match]. rewrite IH. reflexivity.
Qed.

Lemma first_match_drop_first_apart {A} (q q' : A -> bool) (l : list A) :
  (forall d, q' d = true -> q d = false) ->
  first_match q (drop_first q' l) = first_match q l.
Proof.
  intros Hapart. induction l as [|x l IH]; [reflexivity|].
  cbn [drop_first first_match]. destruct (q' x) eqn:Hx.
  - rewrite (Hapart x Hx). reflexivity.
  - cbn [first_match]. rewrite IH. reflexivity.
Qed.

Lemma cart_of_apart (uid uid' : string) (c : Cart.t) :
  uid' <> uid -> cart_of uid c = true -> cart_of uid' c = false.
Proof.
  unfold cart_of. intros Hne Hc. apply String.eqb_eq in Hc. apply String.eqb_neq.
  congruence.
Qed.

Lemma cart_of_set_items_eq (uid : string) (items : list CartItem.t) (now : datetime)
    (c : Cart.t) :
  cart_of uid (set_items items now c) = cart_of uid c.
Proof. reflexivity. Qed.

Lemma first_match_cart_update_apart (uid uid' : string) (items : list CartItem.t)
    (now : datetime) (l : list Cart.t) :
  uid' <> uid ->
  first_match (cart_of uid') (set_first (cart_of uid) (set_items items now) l)
  = first_match (cart_of uid') l.
Proof.
  intros Hne. apply first_match_set_first_apart. intros d Hd.
  split; [exact (cart_of_apart _ _ _ Hne Hd)|].
  rewrite cart_of_set_items_eq. exact (cart_of_apart _ _ _ Hne Hd).
Qed.

(** The four requests that write to carts touch the caller's cart only:
    the cart document any other user would get is the same before and
    after, timestamp included. *)
Theorem cart_requests_leave_other_carts (uid' : string) (user : User.t) (db : Db.t) :
  uid' <> User.id user ->
  (forall now item,
      first_match (cart_of uid') (Db.carts (add_to_cart now item user db).2)
      = first_match (cart_of uid') (Db.carts db))
  /\ (forall now product_id quantity size color,
      first_match (cart_of uid')
        (Db.carts (update_cart_item now product_id quantity size color user db).2)
      = first_match (cart_of uid') (Db.carts db))
  /\ (forall now product_id size color,
      first_match (cart_of uid')
        (Db.carts (remove_from_cart now product_id size color user db).2)
      = first_match (cart_of uid') (Db.carts db))
  /\ (forall order_id now order_data,
      first_match (cart_of uid') (Db.carts (create_order order_id now order_data user db).2)
      = first_match (cart_of uid') (Db.carts db)).
Proof.
  intros Hne. repeat split.
  - intros now item. rewrite add_to_cart_run.
    destruct (first_match (cart_of (User.id user)) (Db.carts db));
      (destruct (encodable _); cbn [snd put carts Db.carts]; [|reflexivity]).
    + apply first_match_cart_update_apart, Hne.
    + rewrite first_match_app. unfold cart_of at 2. cbn [Cart.user_id].
      apply String.eqb_neq in Hne. rewrite String.eqb_sym, Hne.
      destruct (first_match (cart_of uid') (Db.carts db)); reflexivity.
  - intros. rewrite update_cart_item_run.
    destruct (first_match (cart_of (User.id user)) (Db.carts db)); [|reflexivity].
    cbv zeta. destruct (encodable _); [|reflexivity].
    apply first_match_cart_update_apart, Hne.
  - intros. rewrite remove_from_cart_run.
    destruct (first_match (cart_of (User.id user)) (Db.carts db)); [|reflexivity].
    cbv zeta. destruct (encodable _); [|reflexivity].
    apply first_match_cart_update_apart, Hne.
  - intros. rewrite create_order_run. destruct (encodable _); [|reflexivity].
    cbn [snd Db.carts].
    apply first_match_drop_first_apart. intros d Hd. exact (cart_of_apart _ _ _ Hne Hd).
Qed.

Lemma cart_requests_leave_other_carts_witness :
  first_match (cart_of "u2") (Db.carts (add_to_cart 200 (tee 1) alice market).2)
  = Some (Cart.mk "u2" [CartItem.mk "p2" 1 "L" "black"] 110)
  /\ first_match (cart_of "u2") (Db.carts (create_order "o4" 200 alice_order alice market).2)
     = Some (Cart.mk "u2" [CartItem.mk "p2" 1 "L" "black"] 110).
Proof.
  assert (Hne : "u2" <> User.id alice) by discriminate.
  destruct (cart_requests_leave_other_carts "u2" alice market Hne) as (Hadd & _ & _ & Horder).
  split; [rewrite Hadd|rewrite Horder]; reflexivity.
Defined.

Lemma in_matching {A} (q : A -> bool) (l : list A) (d : A) :
  d ∈ matching q l <-> d ∈ l /\ q d = true.
Proof.
  induction l as [|x l IH]; cbn [matching].
  - split; [intros H; inversion H|intros [H _]; inversion H].
  - destruct (q x) eqn:Hx; rewrite ?elem_of_cons, IH; split.
    + intros [->|[? ?]]; auto.
    + intros [[->|?] ?]; auto.
    + intros [? ?]; auto.
    + intros [[->|?] ?]; [congruence|auto].
Qed.

Lemma matching_all {A} (q : A -> bool) (l : list A) :
  Forall (fun d => q d = true) l -> matching q l = l.
Proof.
  induction 1 as [|x l Hx _ IH]; [reflexivity|]. cbn [matching]. rewrite Hx, IH. reflexivity.
Qed.

(** [remove_from_cart] on a caller with a cart removes every line item with
    the key (product, size, color) and keeps the other line items in their
    order; a cart emptied this way stays in the store as an empty cart.
    In particular, adding a key the cart does not hold and removing it
    again gives back the line items there were (also when the add was
    refused for its quantity).  The line items written back are stored
    ones, which are BSON-encodable in every store the requests lead to. *)
Theorem remove_from_cart_removes_key (now : datetime) (product_id size color : string)
    (user : User.t) (db : Db.t) (items : list CartItem.t) :
  line_items (User.id user) db = Some items ->
  encodable items = true ->
  exists items',
    line_items (User.id user) (remove_from_cart now product_id size color user db).2
    = Some items'
    /\ (forall x, x ∈ items' <-> x ∈ items /\ key x <> (product_id, size, color))
    /\ sublist items' items
    /\ (Forall (fun x => key x = (product_id, size, color)) items -> items' = [])
    /\ (Forall (fun x => key x <> (product_id, size, color)) items ->
        items' = items
        /\ forall now1 now2 quantity,
            line_items (User.id user)
              (remove_from_cart now2 product_id size color user
                 (add_to_cart now1 (CartItem.mk product_id quantity size color) user db).2).2
            = Some items).
Proof.
  intros Hitems Henc. rewrite line_items_remove_from_cart, Hitems.
  cbn [fmap option_fmap option_map]. cbv zeta.
  rewrite (encodable_items_sublist _ items (matching_sublist _ _) Henc).
  eexists. split; [reflexivity|]. split; [|split; [apply matching_sublist|split]].
  - intros x. rewrite in_matching, negb_true_iff, same_key_false. reflexivity.
  - intros Hall. apply matching_none. eapply Forall_impl; [exact Hall|].
    cbn beta. intros x Hx. apply negb_false_iff, same_key_true, Hx.
  - intros Hno.
    assert (Hkeep : forall l, Forall (fun x => key x <> (product_id, size, color)) l ->
                      matching (fun item => negb (same_key item product_id size color)) l = l).
    { intros l Hl. apply matching_all. eapply Forall_impl; [exact Hl|].
      cbn beta. intros x Hx. apply negb_true_iff, same_key_false, Hx. }
    split; [apply Hkeep, Hno|].
    intros now1 now2 quantity.
    rewrite line_items_remove_from_cart, line_items_add_to_cart, Hitems. cbv zeta.
    rewrite add_to_cart_items_not_found by exact Hno.
    destruct (encodable (items ++ [CartItem.mk product_id quantity size color]));
      cbn [fmap option_fmap option_map].
    + assert (Hback :
        matching (fun item => negb (same_key item product_id size color))
          (items ++ [CartItem.mk product_id quantity size color]) = items).
      { rewrite matching_app, (Hkeep _ Hno). cbn [matching].
        unfold same_key. cbn [CartItem.product_id CartItem.size CartItem.color].
        rewrite !String.eqb_refl. cbn [andb negb]. apply app_nil_r. }
      rewrite Hback, Henc. reflexivity.
    + rewrite (Hkeep _ Hno), Henc. reflexivity.
Qed.

Lemma remove_from_cart_removes_key_witness :
  line_items "u1" (remove_from_cart 300 "p1" "M" "red" alice shop).2 = Some []
  /\ line_items "u1"
       (remove_from_cart 300 "p3" "one size" "black" alice
          (add_to_cart 200 (CartItem.mk "p3" 2 "one size" "black") alice shop).2).2
     = Some [tee 2].
Proof.
  destruct (remove_from_cart_removes_key 300 "p1" "M" "red" alice shop [tee 2] eq_refl
              eq_refl) as (items' & Hrun & _ & _ & Hall & _).
  destruct (remove_from_cart_removes_key 300 "p3" "one size" "black" alice shop [tee 2] eq_refl
              eq_refl) as (items'' & _ & _ & _ & _ & Hno).
  split.
  - etransitivity; [exact Hrun|]. f_equal. apply Hall.
    constructor; [reflexivity|constructor].
  - apply Hno. constructor; [discriminate|constructor].
Defined.

Lemma update_cart_item_loop_found (product_id : string) (quantity : Z) (size color : string)
    (pre post : list CartItem.t) (existing : CartItem.t) :
  Forall (fun x => key x <> (product_id, size, color)) pre ->
  key existing = (product_id, size, color) ->
  update_cart_item_loop product_id quantity size color (pre ++ existing :: post)
  = pre ++ with_quantity existing quantity :: post.
Proof.
  intros Hpre Hex. induction Hpre as [|x pre Hx _ IH]; cbn [app update_cart_item_loop].
  - apply same_key_true in Hex. rewrite Hex. reflexivity.
  - apply same_key_false in Hx. rewrite Hx, IH. reflexivity.
Qed.

Lemma update_cart_item_loop_twice (product_id : string) (q1 q2 : Z) (size color : string)
    (items : list CartItem.t) :
  update_cart_item_loop product_id q2 size color
    (update_cart_item_loop product_id q1 size color items)
  = update_cart_item_loop product_id q2 size color items.
Proof.
  induction items as [|x items IH]; [reflexivity|].
  cbn [update_cart_item_loop]. destruct (same_key x product_id size color) eqn:Hx.
  - cbn [update_cart_item_loop].
    change (same_key (with_quantity x q1) product_id size color)
      with (same_key x product_id size color).
    rewrite Hx. reflexivity.
  - cbn [update_cart_item_loop]. rewrite Hx, IH. reflexivity.
Qed.

Lemma encodable_update_cart_item_loop (product_id : string) (quantity : Z)
    (size color : string) (items : list CartItem.t) :
  encodable items = true ->
  encodable (update_cart_item_loop product_id quantity size color items)
  = bson_int quantity
    || negb (existsb (fun x => same_key x product_id size color) items).
Proof.
  induction items as [|x items IH]; [intros _; symmetry; apply orb_true_r|].
  rewrite encodable_items_cons. intros [Hx Hitems]%andb_true_iff.
  cbn [update_cart_item_loop existsb]. destruct (same_key x product_id size color).
  - rewrite encodable_items_cons. cbn [with_quantity CartItem.quantity orb negb].
    rewrite Hitems, andb_true_r, orb_false_r. reflexivity.
  - rewrite encodable_items_cons, Hx, (IH Hitems). reflexivity.
Qed.

Lemma existsb_same_key (product_id size color : string) (items : list CartItem.t) :
  existsb (fun x => same_key x product_id size color) items = false
  <-> Forall (fun x => key x <> (product_id, size, color)) items.
Proof.
  induction items as [|x items IH]; cbn [existsb].
  - split; [constructor|reflexivity].
  - rewrite orb_false_iff, IH, same_key_false. split.
    + intros [Hx Hl]. constructor; assumption.
    + intros H. inversion H; subst. auto.
Qed.

(** [update_cart_item] on a caller with a cart never adds or removes a line
    item: when its quantity is a BSON integer (zero and negative ones
    included, which are stored as given), or when no line item has the key,
    it answers "Cart updated", the keys of the cart stay the same, in
    order, the first line item with the key gets the given quantity in
    place of its own (it is not added to it), and of two updates of one
    key the later one decides.  A quantity that is no 64-bit integer, for a
    key the cart holds, makes the driver raise [OverflowError], and the
    store is as it was.  The line items written back with the updated one
    are stored ones, which are BSON-encodable in every store the requests
    lead to. *)
Theorem update_cart_item_overwrites_quantity (now : datetime) (product_id : string)
    (quantity : Z) (size color : string) (user : User.t) (db : Db.t)
    (items : list CartItem.t) :
  line_items (User.id user) db = Some items ->
  encodable items = true ->
  (bson_int quantity = true
   \/ Forall (fun x => key x <> (product_id, size, color)) items ->
   exists items',
     (update_cart_item now product_id quantity size color user db).1 = Return "Cart updated"
     /\ line_items (User.id user)
          (update_cart_item now product_id quantity size color user db).2 = Some items'
     /\ key <$> items' = key <$> items
     /\ (forall pre existing post,
           items = pre ++ existing :: post ->
           Forall (fun x => key x <> (product_id, size, color)) pre ->
           key existing = (product_id, size, color) ->
           items' = pre ++ with_quantity existing quantity :: post)
     /\ (forall now2 quantity2,
           bson_int quantity2 = true ->
           line_items (User.id user)
             (update_cart_item now2 product_id quantity2 size color user
                (update_cart_item now product_id quantity size color user db).2).2
           = line_items (User.id user)
               (update_cart_item now2 product_id quantity2 size color user db).2))
  /\ (bson_int quantity = false ->
      ~ Forall (fun x => key x <> (product_id, size, color)) items ->
      update_cart_item now product_id quantity size color user db
      = (Raise OverflowError, db)).
Proof.
  intros Hitems Henc.
  pose proof (encodable_update_cart_item_loop product_id quantity size color items Henc)
    as Hwritten.
  pose proof (existsb_same_key product_id size color items) as Hkey.
  assert (Hrun : update_cart_item now product_id quantity size color user db
                 = if encodable (update_cart_item_loop product_id quantity size color items)
                   then (Return "Cart updated",
                         (update_cart_item now product_id quantity size color user db).2)
                   else (Raise OverflowError, db)).
  { rewrite update_cart_item_run. unfold line_items in Hitems.
    destruct (first_match (cart_of (User.id user)) (Db.carts db)) as [cart|];
      [|discriminate].
    injection Hitems as ->. cbv zeta.
    destruct (encodable (update_cart_item_loop _ _ _ _ _)); reflexivity. }
  split.
  - intros Hok.
    assert (Hfits : encodable (update_cart_item_loop product_id quantity size color items)
                    = true).
    { rewrite Hwritten. destruct Hok as [-> | Hno]; [reflexivity|].
      apply Hkey in Hno. rewrite Hno. apply orb_true_r. }
    exists (update_cart_item_loop product_id quantity size color items).
    split; [rewrite Hrun, Hfits; reflexivity|].
    rewrite !line_items_update_cart_item, Hitems. cbn [fmap option_fmap option_map].
    cbv zeta. rewrite Hfits.
    split; [reflexivity|]. split; [apply update_cart_item_loop_keys|]. split.
    + intros pre existing post -> Hpre Hex. apply update_cart_item_loop_found; assumption.
    + intros now2 quantity2 Hq2. rewrite !line_items_update_cart_item, Hitems.
      cbn [fmap option_fmap option_map]. cbv zeta. rewrite Hfits.
      rewrite update_cart_item_loop_twice.
      rewrite (encodable_update_cart_item_loop product_id quantity2 size color items Henc).
      rewrite Hq2. reflexivity.
  - intros Hq Hheld. rewrite Hrun, Hwritten, Hq.
    destruct (existsb _ items); [reflexivity|]. exfalso. apply Hheld, Hkey. reflexivity.
Qed.

Lemma update_cart_item_overwrites_quantity_witness :
  line_items "u1" (update_cart_item 300 "p1" 0 "M" "red" alice shop).2 = Some [tee 0]
  /\ line_items "u1"
       (update_cart_item 400 "p1" 7 "M" "red" alice
          (update_cart_item 300 "p1" (-3) "M" "red" alice shop).2).2
     = Some [tee 7]
  /\ line_items "u1" (update_cart_item 300 "p1" (2 ^ 63 - 1) "M" "red" alice shop).2
     = Some [tee (2 ^ 63 - 1)]
  /\ line_items "u1" (update_cart_item 300 "p1" (- 2 ^ 63) "M" "red" alice shop).2
     = Some [tee (- 2 ^ 63)]
  /\ update_cart_item 300 "p1" (2 ^ 63) "M" "red" alice shop = (Raise OverflowError, shop)
  /\ update_cart_item 300 "p1" (- 2 ^ 63 - 1) "M" "red" alice shop
     = (Raise OverflowError, shop).
Proof.
  assert (Hheld : ~ Forall (fun x => key x <> ("p1", "M", "red")) [tee 2]).
  { intros Hno. inversion Hno as [|x l Hx]. apply Hx. reflexivity. }
  assert (Hset : forall quantity,
             bson_int quantity = true ->
             line_items "u1" (update_cart_item 300 "p1" quantity "M" "red" alice shop).2
             = Some [tee quantity]).
  { intros quantity Hq.
    destruct (update_cart_item_overwrites_quantity 300 "p1" quantity "M" "red" alice shop
                [tee 2] eq_refl eq_refl) as (Hfits & _).
    destruct (Hfits (or_introl Hq)) as (items' & _ & Hrun & _ & Hitem & _).
    etransitivity; [exact Hrun|]. f_equal.
    apply (Hitem [] (tee 2) []); [reflexivity|constructor|reflexivity]. }
  destruct (update_cart_item_overwrites_quantity 300 "p1" (-3) "M" "red" alice shop [tee 2]
              eq_refl eq_refl) as (Hneg & _).
  destruct (Hneg (or_introl eq_refl)) as (items'' & _ & _ & _ & _ & Hlast).
  split; [apply Hset; reflexivity|].
  split; [etransitivity; [apply Hlast; reflexivity|]; reflexivity|].
  split; [apply Hset; reflexivity|]. split; [apply Hset; reflexivity|]. split.
  - apply (update_cart_item_overwrites_quantity 300 "p1" (2 ^ 63) "M" "red" alice shop
             [tee 2] eq_refl eq_refl); [reflexivity|exact Hheld].
  - apply (update_cart_item_overwrites_quantity 300 "p1" (- 2 ^ 63 - 1) "M" "red" alice shop
             [tee 2] eq_refl eq_refl); [reflexivity|exact Hheld].
Defined.

(** ** Wishlists: undoing an add, and what [GET /wishlist] shows *)

Lemma set_first_undo {A} (q : A -> bool) (upd1 upd2 : A -> A) (l : list A) (d : A) :
  first_match q l = Some d ->
  q (upd1 d) = true ->
  upd2 (upd1 d) = d ->
  set_first q upd2 (set_first q upd1 l) = l.
Proof.
  intros Hd Hq Hundo. induction l as [|x l IH]; [reflexivity|].
  cbn [first_match set_first] in *. destruct (q x) eqn:Hx.
  - injection Hd as ->. cbn [set_first]. rewrite Hq, Hundo. reflexivity.
  - cbn [set_first]. rewrite Hx, (IH Hd). reflexivity.
Qed.

Lemma drop_first_added (x : string) (l : list string) :
  x ∉ l -> drop_first (fun y => String.eqb y x) (l ++ [x]) = l.
Proof.
  induction l as [|y l IH]; intros Hx; cbn [app drop_first].
  - rewrite String.eqb_refl. reflexivity.
  - apply not_elem_of_cons in Hx as [Hne Hx].
    assert (E : String.eqb y x = false) by (apply String.eqb_neq; congruence).
    rewrite E, (IH Hx). reflexivity.
Qed.

Lemma stored_user_apart (uid uid' : string) (w : list string) (db : Db.t) :
  uid' <> uid ->
  stored_user uid'
    (put users (set_first (user_with_id uid) (set_wishlist w) (Db.users db)) db)
  = stored_user uid' db.
Proof.
  intros Hne. unfold stored_user. cbn [put users Db.users]. f_equal.
  apply first_match_set_first_apart. intros d Hd.
  unfold user_with_id in *. cbn [set_wishlist UserDoc.id].
  apply String.eqb_eq in Hd.
  assert (String.eqb (UserDoc.id d) uid' = false) by (apply String.eqb_neq; congruence).
  auto.
Qed.

(** For the user [get_current_user] reads and a product the wishlist does
    not hold: after [add_to_wishlist] the stored wishlist is the old one
    with the product at its end, and [remove_from_wishlist] then gives back
    the store there was.  Neither handler looks at the catalogue (any
    product id is accepted), and what any other user has stored stays as it
    is. *)
Theorem wishlist_add_then_remove (product_id : string) (user : User.t) (db : Db.t) :
  stored_user (User.id user) db = Some user ->
  product_id ∉ User.wishlist user ->
  (exists user1,
      stored_user (User.id user) (add_to_wishlist product_id user db).2 = Some user1
      /\ User.wishlist user1 = User.wishlist user ++ [product_id]
      /\ same_account user user1
      /\ (remove_from_wishlist product_id user1 (add_to_wishlist product_id user db).2).2
         = db)
  /\ (forall uid', uid' <> User.id user ->
        stored_user uid' (add_to_wishlist product_id user db).2 = stored_user uid' db).
Proof.
  intros Hu Hout. rewrite add_to_wishlist_run. cbn [snd].
  pose proof Hout as Hc. apply contains_false in Hc. rewrite Hc.
  split; [|intros uid' Hne; apply stored_user_apart, Hne].
  eexists. rewrite stored_user_set_wishlist, Hu. cbn [fmap option_fmap option_map].
  split; [reflexivity|]. split; [reflexivity|]. split; [repeat split|].
  rewrite remove_from_wishlist_run. cbn [snd User.wishlist User.id].
  assert (Hin : contains product_id (User.wishlist user ++ [product_id]) = true).
  { apply contains_true, elem_of_app. right. left. }
  rewrite Hin, (drop_first_added _ _ Hout). cbn [put users Db.users].
  unfold stored_user in Hu.
  destruct (first_match (user_with_id (User.id user)) (Db.users db)) as [doc|] eqn:Hdoc;
    [|discriminate].
  injection Hu as Hu.
  rewrite (set_first_undo _ _ _ _ doc Hdoc).
  - destruct db. reflexivity.
  - apply first_match_Some in Hdoc. apply Hdoc.
  - destruct doc. cbn in *. subst user. reflexivity.
Qed.

Lemma wishlist_add_then_remove_witness :
  (remove_from_wishlist "p404"
     (User.mk "u1" "Alice" "alice@example.org" false ["p1"; "p404"] 50)
     (add_to_wishlist "p404" alice market).2).2 = market
  /\ stored_user "u2" (add_to_wishlist "p404" alice market).2 = Some bob.
Proof.
  assert (Hout : "p404" ∉ User.wishlist alice).
  { intros Hin. apply contains_true in Hin. discriminate. }
  destruct (wishlist_add_then_remove "p404" alice market eq_refl Hout)
    as ((user1 & Hu1 & _ & _ & Hback) & Hother).
  injection Hu1 as <-. split; [exact Hback|].
  etransitivity; [apply Hother; discriminate|reflexivity].
Defined.

Lemma find_to_list_sound {A} (q : A -> bool) (n : nat) (l : list A) :
  sublist (take n (matching q l)) l
  /\ (length (take n (matching q l)) <= n)%nat
  /\ (forall d, d ∈ take n (matching q l) -> d ∈ l /\ q d = true)
  /\ ((length l <= n)%nat -> forall d, d ∈ l -> q d = true -> d ∈ take n (matching q l)).
Proof.
  split; [etransitivity; [apply sublist_take|apply matching_sublist]|].
  split; [rewrite length_take; lia|]. split.
  - intros d Hd. apply in_matching. eapply elem_of_sublist; [exact Hd|apply sublist_take].
  - intros Hlen d Hd Hq. rewrite take_ge.
    + apply in_matching. auto.
    + pose proof (sublist_length _ _ (matching_sublist q l)). lia.
Qed.

(** [get_wishlist] never fails and never writes.  It returns products of
    the catalogue, in the catalogue's order and at most 1000 of them, whose
    ids the caller's wishlist holds; a wishlisted id with no product (never
    created, or deleted since) is left out without an error; with a
    catalogue of at most 1000 products every wishlisted product is
    returned; and an empty wishlist gives the empty list. *)
Theorem get_wishlist_shows_catalogue_products (user : User.t) (db : Db.t) :
  exists shown,
    get_wishlist user db = (Return shown, db)
    /\ sublist shown (Db.products db)
    /\ (length shown <= 1000)%nat
    /\ (forall p, p ∈ shown -> p ∈ Db.products db /\ Product.id p ∈ User.wishlist user)
    /\ ((length (Db.products db) <= 1000)%nat ->
        forall p, p ∈ Db.products db -> Product.id p ∈ User.wishlist user -> p ∈ shown)
    /\ (User.wishlist user = [] -> shown = []).
Proof.
  unfold get_wishlist. destruct (User.wishlist user) as [|w ws] eqn:Hw.
  - exists []. split; [reflexivity|]. split; [apply sublist_nil_l|].
    split; [cbn [length]; lia|]. split; [intros p Hp; inversion Hp|].
    split; [intros _ p _ Hp; inversion Hp|reflexivity].
  - eexists. split; [reflexivity|]. cbn [docs products].
    destruct (find_to_list_sound (product_in (w :: ws)) 1000 (Db.products db))
      as (Hsub & Hlen & Hsound & Hcomplete).
    split; [exact Hsub|]. split; [exact Hlen|]. split; [|split; [|discriminate]].
    + intros p Hp. destruct (Hsound p Hp) as [Hin Hq].
      split; [exact Hin|]. apply contains_true, Hq.
    + intros Hsmall p Hp Hwish. apply Hcomplete; [exact Hsmall|exact Hp|].
      apply contains_true, Hwish.
Qed.

Lemma get_wishlist_shows_catalogue_products_witness :
  (get_wishlist (User.mk "u1" "Alice" "alice@example.org" false ["p404"; "p3"] 50) market).1
  = Return [cap_product].
Proof.
  destruct (get_wishlist_shows_catalogue_products
              (User.mk "u1" "Alice" "alice@example.org" false ["p404"; "p3"] 50) market)
    as (shown & Hrun & _).
  rewrite Hrun. cbn [fst]. f_equal. injection Hrun as <-. reflexivity.
Defined.

(** ** The catalogue *)

Lemma asked_spec (param : option string) (test : string -> bool) (P : string -> Prop) :
  (forall s, test s = true <-> P s) ->
  match (if truthy param then param else None) with
  | Some s => test s
  | None => true
  end = true <-> asked param P.
Proof.
  intros Htest. unfold asked, truthy. destruct param as [s|].
  - destruct (String.eqb_spec s "") as [->|Hne]; cbn [negb].
    + split; [intros _ s' [= <-] Hs'; contradiction|reflexivity].
    + rewrite Htest. split; [intros HP s' [= <-] _; exact HP|intros H; auto].
  - split; [intros _ s' Hs'; discriminate|reflexivity].
Qed.

Lemma product_matches_wanted (size color design : option string) (p : Product.t) :
  product_matches (products_query size color design) p = true <-> wanted size color design p.
Proof.
  unfold product_matches, products_query, wanted.
  cbn [ProductQuery.sizes ProductQuery.colors ProductQuery.design_category].
  rewrite !andb_true_iff.
  rewrite (asked_spec size (fun s => contains s (Product.sizes p))
             (fun s => s ∈ Product.sizes p)) by (intros s; apply contains_true).
  rewrite (asked_spec color (fun c => contains c (Product.colors p))
             (fun c => c ∈ Product.colors p)) by (intros s; apply contains_true).
  rewrite (asked_spec design (fun d => String.eqb (Product.design_category p) d)
             (fun d => Product.design_category p = d)) by (intros s; apply String.eqb_eq).
  tauto.
Qed.

(** [get_products] never fails and never writes.  It returns products of
    the catalogue, in the catalogue's order and at most 1000 of them, each
    of which has every size, colour and design category that was asked
    for; with a catalogue of at most 1000 products it returns every such
    product.  A parameter that is absent or the empty string asks nothing,
    so with no parameter set the first 1000 products come back. *)
Theorem get_products_filters (size color design : option string) (db : Db.t) :
  exists shown,
    get_products size color design db = (Return shown, db)
    /\ sublist shown (Db.products db)
    /\ (length shown <= 1000)%nat
    /\ (forall p, p ∈ shown -> p ∈ Db.products db /\ wanted size color design p)
    /\ ((length (Db.products db) <= 1000)%nat ->
        forall p, p ∈ Db.products db -> wanted size color design p -> p ∈ shown)
    /\ (truthy size = false -> truthy color = false -> truthy design = false ->
        shown = take 1000 (Db.products db)).
Proof.
  eexists. split; [reflexivity|]. cbn [docs products].
  destruct (find_to_list_sound (product_matches (products_query size color design)) 1000
              (Db.products db)) as (Hsub & Hlen & Hsound & Hcomplete).
  split; [exact Hsub|]. split; [exact Hlen|]. split; [|split].
  - intros p Hp. destruct (Hsound p Hp) as [Hin Hq].
    split; [exact Hin|]. apply product_matches_wanted, Hq.
  - intros Hsmall p Hp Hw. apply Hcomplete; [exact Hsmall|exact Hp|].
    apply product_matches_wanted, Hw.
  - intros Hs Hc Hd. unfold products_query. rewrite Hs, Hc, Hd.
    rewrite matching_all; [reflexivity|]. apply Forall_forall. reflexivity.
Qed.

Lemma get_products_filters_witness :
  (get_products (Some "") (Some "black") None market).1
  = Return [hoodie_product; cap_product]
  /\ (get_products (Some "") None (Some "") market).1 = Return (Db.products market).
Proof.
  destruct (get_products_filters (Some "") (Some "black") None market)
    as (shown & Hrun & _).
  destruct (get_products_filters (Some "") None (Some "") market)
    as (shown' & Hrun' & _ & _ & _ & _ & Hall).
  split.
  - rewrite Hrun. injection Hrun as <-. reflexivity.
  - rewrite Hrun'. cbn [fst]. f_equal. rewrite Hall by reflexivity. reflexivity.
Defined.

(** [create_product] succeeds exactly when the [stock] of the request is
    a BSON integer.  It then appends the product with rating 0.0 and no
    reviews counted, under the id drawn for the call, and returns it; when
    the id is new to the catalogue, [get_product] on it then returns that
    product, and what [get_product] finds under any other id is as before.
    For another [stock] the driver raises [OverflowError] and the store is
    as it was. *)
Theorem create_product_then_get (product_id : string) (now : datetime)
    (product_data : ProductCreate.t) (admin : User.t) (db : Db.t) :
  (bson_int (ProductCreate.stock product_data) = true ->
   exists product db',
     create_product product_id now product_data admin db = (Return product, db')
     /\ Db.products db' = Db.products db ++ [product]
     /\ Product.id product = product_id
     /\ Product.rating product = 0%Q
     /\ Product.review_count product = 0
     /\ carries product_data product
     /\ (first_match (product_with_id product_id) (Db.products db) = None ->
         get_product product_id db' = (Return product, db'))
     /\ (forall other, other <> product_id ->
         (get_product other db').1 = (get_product other db).1))
  /\ (bson_int (ProductCreate.stock product_data) = false ->
      create_product product_id now product_data admin db = (Raise OverflowError, db)).
Proof.
  rewrite create_product_run. split; intros ->; [|reflexivity].
  eexists _, _. split; [reflexivity|]. cbn [put products Db.products].
  repeat (split; [reflexivity|]). split; [repeat split|]. split.
  - intros Hnew. unfold get_product. run. rewrite first_match_app, Hnew.
    unfold product_with_id at 1. cbn [product_doc Product.id]. rewrite String.eqb_refl.
    reflexivity.
  - intros other Hne. unfold get_product. run. rewrite first_match_app.
    unfold product_with_id at 2. cbn [product_doc Product.id].
    apply String.eqb_neq in Hne. rewrite String.eqb_sym, Hne.
    destruct (first_match (product_with_id other) (Db.products db)); reflexivity.
Qed.

Lemma create_product_then_get_witness :
  get_product "p4"
    (create_product "p4" 70 (ProductCreate.mk "Socks" "Warm" (5 # 1) [] ["M"] ["red"] "plain" 12)
       alice market).2
  = (Return (Product.mk "p4" "Socks" "Warm" (5 # 1) [] ["M"] ["red"] "plain" 12 (0 # 1) 0 70),
     (create_product "p4" 70 (ProductCreate.mk "Socks" "Warm" (5 # 1) [] ["M"] ["red"] "plain" 12)
        alice market).2)
  /\ create_product "p5" 70
       (ProductCreate.mk "Socks" "Warm" (5 # 1) [] ["M"] ["red"] "plain" (2 ^ 63)) alice market
     = (Raise OverflowError, market).
Proof.
  split.
  - destruct (proj1 (create_product_then_get "p4" 70
                (ProductCreate.mk "Socks" "Warm" (5 # 1) [] ["M"] ["red"] "plain" 12) alice
                market) eq_refl)
      as (product & db' & Hrun & _ & _ & _ & _ & _ & Hget & _).
    injection Hrun as <- <-. apply Hget. reflexivity.
  - apply (proj2 (create_product_then_get "p5" 70
              (ProductCreate.mk "Socks" "Warm" (5 # 1) [] ["M"] ["red"] "plain" (2 ^ 63)) alice
              market)).
    reflexivity.
Defined.

(** [update_product] raises 404 "Product not found" and changes nothing
    when no product has the id.  Otherwise, when the [stock] of the request
    is a BSON integer, it replaces the eight fields of the request body on
    the first product with the id and keeps that product's id, rating,
    review count and creation time; it returns the product as stored, which
    is what [get_product] then returns; users, reviews, carts and orders
    are not touched.  For another [stock] the driver raises
    [OverflowError] and the store is as it was. *)
Theorem update_product_keeps_aggregate (product_id : string) (product_data : ProductCreate.t)
    (admin : User.t) (db : Db.t) :
  (first_match (product_with_id product_id) (Db.products db) = None ->
   update_product product_id product_data admin db
   = (Raise (HTTPException 404 "Product not found"), db))
  /\ (forall old,
      first_match (product_with_id product_id) (Db.products db) = Some old ->
      (bson_int (ProductCreate.stock product_data) = true ->
       exists updated db',
         update_product product_id product_data admin db = (Return (Some updated), db')
         /\ get_product product_id db' = (Return updated, db')
         /\ Product.id updated = Product.id old
         /\ Product.rating updated = Product.rating old
         /\ Product.review_count updated = Product.review_count old
         /\ Product.created_at updated = Product.created_at old
         /\ carries product_data updated
         /\ Db.users db' = Db.users db
         /\ Db.reviews db' = Db.reviews db
         /\ Db.carts db' = Db.carts db
         /\ Db.orders db' = Db.orders db)
      /\ (bson_int (ProductCreate.stock product_data) = false ->
          update_product product_id product_data admin db = (Raise OverflowError, db))).
Proof.
  rewrite update_product_run. split.
  - intros ->. reflexivity.
  - intros old Hold. rewrite Hold. split; intros ->; [|reflexivity]. cbv zeta.
    exists (set_product_data product_data old). eexists.
    assert (Hfound : first_match (product_with_id product_id)
                       (set_first (product_with_id product_id)
                          (set_product_data product_data) (Db.products db))
                     = Some (set_product_data product_data old)).
    { rewrite first_match_set_first by (intros d Hd; exact Hd). rewrite Hold. reflexivity. }
    split.
    { cbn [put products Db.products]. rewrite Hfound. reflexivity. }
    split.
    { unfold get_product. run. rewrite Hfound. reflexivity. }
    repeat split.
Qed.

Lemma update_product_keeps_aggregate_witness :
  (exists updated db',
      update_product "p1"
        (ProductCreate.mk "Tee" "New cut" (22 # 1) [] ["M"; "L"] ["red"] "plain" 8)
        alice market = (Return (Some updated), db')
      /\ Product.rating updated = 4 # 1
      /\ Product.review_count updated = 1
      /\ Product.stock updated = 8)
  /\ update_product "p1"
       (ProductCreate.mk "Tee" "New cut" (22 # 1) [] ["M"; "L"] ["red"] "plain" (- 2 ^ 63 - 1))
       alice market = (Raise OverflowError, market).
Proof.
  split.
  - destruct (proj1 (proj2 (update_product_keeps_aggregate "p1"
                       (ProductCreate.mk "Tee" "New cut" (22 # 1) [] ["M"; "L"] ["red"] "plain" 8)
                       alice market) _ eq_refl) eq_refl)
      as (updated & db' & Hrun & _ & _ & Hrating & Hcount & _ & Hdata & _).
    exists updated, db'. split; [exact Hrun|]. split; [exact Hrating|]. split; [exact Hcount|].
    apply Hdata.
  - apply (proj2 (proj2 (update_product_keeps_aggregate "p1"
                    (ProductCreate.mk "Tee" "New cut" (22 # 1) [] ["M"; "L"] ["red"] "plain"
                       (- 2 ^ 63 - 1))
                    alice market) _ eq_refl)).
    reflexivity.
Defined.

Lemma drop_first_no_match {A} (q : A -> bool) (l : list A) :
  first_match q l = None -> drop_first q l = l.
Proof.
  induction l as [|x l IH]; [reflexivity|]. cbn [first_match drop_first].
  destruct (q x); [discriminate|]. intros H. rewrite (IH H). reflexivity.
Qed.

Lemma no_match_after_drop {A B} `{EqDecision B} (f : A -> B) (q : A -> bool) (b : B)
    (l : list A) :
  (forall d, q d = true <-> f d = b) ->
  NoDup (f <$> l) ->
  first_match q (drop_first q l) = None.
Proof.
  intros Hq. induction l as [|x l IH]; [reflexivity|].
  rewrite fmap_cons, NoDup_cons. intros [Hx Hl]. cbn [drop_first].
  destruct (q x) eqn:E.
  - apply first_match_None, Forall_forall. intros d Hd.
    destruct (q d) eqn:Ed; [|reflexivity]. exfalso. apply Hx.
    apply Hq in E. apply Hq in Ed. rewrite E, <- Ed. apply list_elem_of_fmap_2, Hd.
  - cbn [first_match]. rewrite E. apply IH, Hl.
Qed.

(** [delete_product] raises 404 "Product not found" exactly when no product
    has the id, and then changes nothing.  Otherwise it answers "Product
    deleted" and removes the first product with the id and nothing else:
    the reviews of the product, and the wishlists and carts that name it,
    stay in the store.  When product ids are unique, [get_product] on the
    id afterwards raises 404. *)
Theorem delete_product_keeps_reviews (product_id : string) (admin : User.t) (db : Db.t) :
  ((delete_product product_id admin db).1 = Raise (HTTPException 404 "Product not found")
   <-> first_match (product_with_id product_id) (Db.products db) = None)
  /\ (first_match (product_with_id product_id) (Db.products db) = None ->
      (delete_product product_id admin db).2 = db)
  /\ (forall p,
      first_match (product_with_id product_id) (Db.products db) = Some p ->
      exists db',
        delete_product product_id admin db = (Return "Product deleted", db')
        /\ Db.products db' = drop_first (product_with_id product_id) (Db.products db)
        /\ length (Db.products db') = pred (length (Db.products db))
        /\ Db.reviews db' = Db.reviews db
        /\ (get_reviews product_id db').1 = (get_reviews product_id db).1
        /\ Db.users db' = Db.users db
        /\ Db.carts db' = Db.carts db
        /\ Db.orders db' = Db.orders db
        /\ (NoDup (Product.id <$> Db.products db) ->
            get_product product_id db'
            = (Raise (HTTPException 404 "Product not found"), db'))).
Proof.
  unfold delete_product. run.
  destruct (first_match (product_with_id product_id) (Db.products db)) as [p|] eqn:Hp;
    cbn [Z.eqb fst snd].
  - split; [split; discriminate|]. split; [discriminate|].
    intros p' _. eexists. split; [reflexivity|]. cbn [Db.products Db.reviews Db.users].
    split; [reflexivity|]. split.
    { clear -Hp. induction (Db.products db) as [|x l IH]; [discriminate|].
      cbn [first_match drop_first length] in *. destruct (product_with_id product_id x).
      - reflexivity.
      - cbn [length]. rewrite (IH Hp). destruct l; [discriminate|reflexivity]. }
    repeat (split; [reflexivity|]).
    intros Hunique. unfold get_product. run.
    rewrite (no_match_after_drop Product.id (product_with_id product_id) product_id);
      [reflexivity|intros d; apply String.eqb_eq|exact Hunique].
  - split; [split; reflexivity|]. split; [|intros p' Hp'; discriminate].
    intros _. rewrite (drop_first_no_match _ _ Hp). destruct db. reflexivity.
Qed.

Lemma delete_product_keeps_reviews_witness :
  (get_reviews "p1" (delete_product "p1" alice market).2).1
  = Return [Review.mk "rev0" "p1" "u2" "Bob" 4 "fine" 10]
  /\ (get_product "p1" (delete_product "p1" alice market).2).1
     = Raise (HTTPException 404 "Product not found").
Proof.
  destruct (delete_product_keeps_reviews "p1" alice market) as (_ & _ & Hdel).
  destruct (Hdel _ eq_refl) as (db' & Hrun & _ & _ & _ & Hreviews & _ & _ & _ & Hgone).
  rewrite Hrun. cbn [snd]. split.
  - etransitivity; [exact Hreviews|reflexivity].
  - rewrite Hgone; [reflexivity|].
    repeat first [apply NoDup_nil_2|apply NoDup_cons_2; [intros Hin|]];
      repeat (apply elem_of_cons in Hin as [Hin|Hin]; [discriminate|]); inversion Hin.
Defined.

(** ** What a request can do to each collection *)

(** Unfolds a handler and splits on everything it branches on. *)
Ltac crack :=
  run;
  repeat match goal with
         | |- context [match ?x with _ => _ end] => destruct x eqn:?; cbn [fst snd]
         | |- context [if ?x then _ else _] => destruct x eqn:?; cbn [fst snd]
         end.

(** One request leaves the users as they are, or appends one user who is
    no admin, has an empty wishlist and an e-mail nobody had, or replaces
    the wishlist of the first user with some id. *)
Lemma step_users (db db' : Db.t) :
  step db db' ->
  Db.users db' = Db.users db
  \/ (exists doc,
        Db.users db' = Db.users db ++ [doc]
        /\ UserDoc.is_admin doc = false
        /\ UserDoc.wishlist doc = []
        /\ first_match (user_with_email (UserDoc.email doc)) (Db.users db) = None)
  \/ (exists uid wishlist,
        Db.users db' = set_first (user_with_id uid) (set_wishlist wishlist) (Db.users db)).
Proof.
  intros Hstep. destruct Hstep.
  - rewrite register_run.
    destruct (first_match (user_with_email (UserCreate.email user_data)) (Db.users db)) eqn:He.
    + left. reflexivity.
    + right. left. eexists. split; [reflexivity|]. repeat split. exact He.
  - left. rewrite create_product_run. crack; reflexivity.
  - left. rewrite update_product_run. crack; reflexivity.
  - left. unfold delete_product. crack; reflexivity.
  - left. rewrite create_review_run. crack; reflexivity.
  - left. rewrite add_to_cart_run. crack; reflexivity.
  - left. rewrite update_cart_item_run. crack; reflexivity.
  - left. rewrite remove_from_cart_run. crack; reflexivity.
  - rewrite add_to_wishlist_run. cbn [snd]. destruct (contains _ _).
    + left. reflexivity.
    + right. right. eexists _, _. reflexivity.
  - rewrite remove_from_wishlist_run. cbn [snd]. destruct (contains _ _).
    + right. right. eexists _, _. reflexivity.
    + left. reflexivity.
  - left. rewrite create_order_run. crack; reflexivity.
Qed.

(** One request leaves the reviews as they are, or appends one review by a
    user who had not reviewed that product. *)
Lemma step_reviews (db db' : Db.t) :
  step db db' ->
  Db.reviews db' = Db.reviews db
  \/ exists doc,
       Db.reviews db' = Db.reviews db ++ [doc]
       /\ first_match (review_of_product_by (Review.product_id doc) (Review.user_id doc))
            (Db.reviews db) = None.
Proof.
  intros Hstep. destruct Hstep.
  - left. rewrite register_run. crack; reflexivity.
  - left. rewrite create_product_run. crack; reflexivity.
  - left. rewrite update_product_run. crack; reflexivity.
  - left. unfold delete_product. crack; reflexivity.
  - rewrite create_review_run.
    destruct (first_match (product_with_id product_id) (Db.products db));
      [|left; reflexivity].
    destruct (first_match (review_of_product_by product_id (User.id user)) (Db.reviews db))
      eqn:Hnone; [left; reflexivity|].
    destruct (bson_int _); [|left; reflexivity].
    right. eexists. cbv zeta.
    destruct (aggregate _) as [[rating review_count]|e]; cbn [snd put products reviews
      Db.reviews]; (split; [reflexivity|exact Hnone]).
  - left. rewrite add_to_cart_run. crack; reflexivity.
  - left. rewrite update_cart_item_run. crack; reflexivity.
  - left. rewrite remove_from_cart_run. crack; reflexivity.
  - left. rewrite add_to_wishlist_run. crack; reflexivity.
  - left. rewrite remove_from_wishlist_run. crack; reflexivity.
  - left. rewrite create_order_run. crack; reflexivity.
Qed.

(** One request leaves the orders as they are or appends one order. *)
Lemma step_orders (db db' : Db.t) :
  step db db' ->
  Db.orders db' = Db.orders db \/ exists order, Db.orders db' = Db.orders db ++ [order].
Proof.
  intros Hstep. destruct Hstep.
  - left. rewrite register_run. crack; reflexivity.
  - left. rewrite create_product_run. crack; reflexivity.
  - left. rewrite update_product_run. crack; reflexivity.
  - left. unfold delete_product. crack; reflexivity.
  - left. rewrite create_review_run. crack; reflexivity.
  - left. rewrite add_to_cart_run. crack; reflexivity.
  - left. rewrite update_cart_item_run. crack; reflexivity.
  - left. rewrite remove_from_cart_run. crack; reflexivity.
  - left. rewrite add_to_wishlist_run. crack; reflexivity.
  - left. rewrite remove_from_wishlist_run. crack; reflexivity.
  - rewrite create_order_run.
    destruct (encodable _); [right; eexists; reflexivity|left; reflexivity].
Qed.

(** ** What no sequence of requests does *)

(** No request edits or deletes a review or an order: whatever requests
    are served, the reviews and the orders there were are still there,
    unchanged and in their places, before any new ones. *)
Theorem reviews_and_orders_are_kept (db db' : Db.t) :
  steps db db' ->
  Db.reviews db `prefix_of` Db.reviews db' /\ Db.orders db `prefix_of` Db.orders db'.
Proof.
  induction 1 as [|db db' db'' _ [IHr IHo] Hstep]; [split; reflexivity|].
  split.
  - destruct (step_reviews _ _ Hstep) as [->|(doc & -> & _)];
      [exact IHr|apply prefix_app_r, IHr].
  - destruct (step_orders _ _ Hstep) as [->|(order & ->)];
      [exact IHo|apply prefix_app_r, IHo].
Qed.

Lemma reviews_and_orders_are_kept_witness :
  Db.reviews market
    `prefix_of` Db.reviews
                  (create_review "rev1" 20 "p1" (ReviewCreate.mk 5 "great") alice market).2
  /\ Db.orders market
       `prefix_of` Db.orders
                     (create_review "rev1" 20 "p1" (ReviewCreate.mk 5 "great") alice market).2.
Proof.
  apply reviews_and_orders_are_kept.
  apply (steps_step market market); [apply steps_refl|].
  apply (step_create_review "rev1" 20 "p1" (ReviewCreate.mk 5 "great") alice market).
  reflexivity.
Defined.

Lemma review_pair_fresh (doc : Review.t) (l : list Review.t) :
  first_match (review_of_product_by (Review.product_id doc) (Review.user_id doc)) l = None ->
  review_pair doc ∉ review_pair <$> l.
Proof.
  intros Hnone Hin. apply list_elem_of_fmap in Hin as (r & Hpair & Hr).
  apply first_match_None in Hnone. rewrite Forall_forall in Hnone.
  specialize (Hnone r Hr). unfold review_of_product_by in Hnone.
  injection Hpair as Hp Hu. rewrite <- Hp, <- Hu, !String.eqb_refl in Hnone. discriminate.
Qed.

(** At most one review per (product, user) pair: a store in which no two
    reviews have the same product and the same user stays so under every
    sequence of requests. *)
Theorem one_review_per_product_and_user (db db' : Db.t) :
  NoDup (review_pair <$> Db.reviews db) ->
  steps db db' ->
  NoDup (review_pair <$> Db.reviews db').
Proof.
  intros Hinv Hsteps. induction Hsteps as [|db db' db'' _ IH Hstep]; [exact Hinv|].
  specialize (IH Hinv).
  destruct (step_reviews _ _ Hstep) as [->|(doc & -> & Hnone)]; [exact IH|].
  rewrite fmap_app. apply NoDup_app. split; [exact IH|]. split.
  - intros pair Hin Hin'. apply list_elem_of_singleton in Hin'. subst pair.
    exact (review_pair_fresh _ _ Hnone Hin).
  - apply NoDup_singleton.
Qed.

Lemma one_review_per_product_and_user_witness :
  NoDup (review_pair
           <$> Db.reviews
                 (create_review "rev2" 30 "p1" (ReviewCreate.mk 1 "again") alice
                    (create_review "rev1" 20 "p1" (ReviewCreate.mk 5 "great") alice
                       market).2).2).
Proof.
  apply (one_review_per_product_and_user market).
  - apply NoDup_singleton.
  - eapply steps_step; [apply (steps_step market market); [apply steps_refl|]|].
    + apply (step_create_review "rev1" 20 "p1" (ReviewCreate.mk 5 "great") alice market).
      reflexivity.
    + apply (step_create_review "rev2" 30 "p1" (ReviewCreate.mk 1 "again") alice).
      vm_compute. reflexivity.
Defined.

Lemma email_stays (email : string) (db db' : Db.t) :
  email ∈ UserDoc.email <$> Db.users db -> steps db db' ->
  email ∈ UserDoc.email <$> Db.users db'.
Proof.
  intros Hin Hsteps. induction Hsteps as [|db db' db'' _ IH Hstep]; [exact Hin|].
  specialize (IH Hin).
  destruct (step_users _ _ Hstep) as [->|[(doc & -> & _)|(uid & w & ->)]].
  - exact IH.
  - rewrite fmap_app. apply elem_of_app. left. exact IH.
  - rewrite fmap_set_first by reflexivity. exact IH.
Qed.

(** E-mails stay unique: a store in which no two users have the same
    e-mail stays so under every sequence of requests. *)
Theorem emails_stay_unique (db db' : Db.t) :
  NoDup (UserDoc.email <$> Db.users db) ->
  steps db db' ->
  NoDup (UserDoc.email <$> Db.users db').
Proof.
  intros Hinv Hsteps. induction Hsteps as [|db db' db'' _ IH Hstep]; [exact Hinv|].
  specialize (IH Hinv).
  destruct (step_users _ _ Hstep) as [->|[(doc & -> & _ & _ & Hnone)|(uid & w & ->)]].
  - exact IH.
  - rewrite fmap_app. apply NoDup_app. split; [exact IH|]. split; [|apply NoDup_singleton].
    intros email Hin Hin'. apply list_elem_of_singleton in Hin'. subst email.
    apply list_elem_of_fmap in Hin as (u & He & Hu).
    apply first_match_None in Hnone. rewrite Forall_forall in Hnone.
    specialize (Hnone u Hu). unfold user_with_email in Hnone.
    rewrite <- He, String.eqb_refl in Hnone. discriminate.
  - rewrite fmap_set_first by reflexivity. exact IH.
Qed.

Lemma emails_stay_unique_witness :
  NoDup (UserDoc.email
           <$> Db.users
                 (register "k" toy_hmac toy_hashpw "u3" "salt" 60 61
                    (UserCreate.mk "Al" "alice@example.org" "pw")
                    (register "k" toy_hmac toy_hashpw "u4" "salt" 50 51
                       (UserCreate.mk "Carol" "carol@example.org" "pw") market).2).2).
Proof.
  apply (emails_stay_unique market).
  - repeat first [apply NoDup_nil_2|apply NoDup_cons_2; [intros Hin|]];
      repeat (apply elem_of_cons in Hin as [Hin|Hin]; [discriminate|]); inversion Hin.
  - eapply steps_step; [apply (steps_step market market); [apply steps_refl|]|];
      apply step_register.
Defined.

(** ** Who gets in *)

Section RouteProperties.

Variable JWT_SECRET : string.
Variable hmac_sha256 : string -> string -> Jwt.payload -> string.
Variable bcrypt_hashpw : string -> string -> string.
Variable bcrypt_checkpw : string -> string -> bool.

Lemma get_current_user_run (now : datetime) (token : Jwt.token) (db : Db.t) :
  (exists detail,
      get_current_user JWT_SECRET hmac_sha256 now token db
      = (Raise (HTTPException 401 detail), db))
  \/ (exists user,
        stored_user (User.id user) db = Some user
        /\ get_current_user JWT_SECRET hmac_sha256 now token db = (Return user, db)).
Proof.
  unfold get_current_user.
  destruct (Jwt.decode _ _ _ _ _) as [payload|[|]]; [|left; eexists; reflexivity..].
  destruct (Jwt.user_id payload) as [uid|]; run.
  - change (user_with_claimed_id (Some uid)) with (user_with_id uid).
    destruct (first_match (user_with_id uid) (Db.users db)) as [doc|] eqn:Hdoc;
      [|left; eexists; reflexivity].
    right. exists (without_password doc). split; [|reflexivity].
    assert (Hid : User.id (without_password doc) = uid).
    { apply first_match_Some in Hdoc as [_ Hid]. apply String.eqb_eq, Hid. }
    rewrite Hid. unfold stored_user. rewrite Hdoc. reflexivity.
  - assert (Hnone : first_match (user_with_claimed_id None) (Db.users db) = None).
    { apply first_match_None, Forall_forall. reflexivity. }
    rewrite Hnone. left. eexists. reflexivity.
Qed.

(** [get_current_user] never writes, and it returns a user only for a token
    of algorithm HS256 whose signature is the MAC of its claims under the
    server's secret, whose expiry (if it has one) lies after the time of
    the request, and whose [user_id] claim names a stored user; what it
    returns is that stored user, without the password hash. *)
Theorem get_current_user_sound (now : datetime) (token : Jwt.token) (db : Db.t) :
  (get_current_user JWT_SECRET hmac_sha256 now token db).2 = db
  /\ forall user,
       (get_current_user JWT_SECRET hmac_sha256 now token db).1 = Return user ->
       exists claims uid,
         token = Jwt.Compact "HS256" claims (hmac_sha256 JWT_SECRET "HS256" claims)
         /\ (forall exp, Jwt.exp claims = Some exp -> now < exp)
         /\ Jwt.user_id claims = Some uid
         /\ stored_user uid db = Some user
         /\ User.id user = uid.
Proof.
  unfold get_current_user, Jwt.decode, JWT_ALGORITHM.
  destruct token as [alg claims signature|s]; [|split; [reflexivity|discriminate]].
  destruct (String.eqb_spec alg "HS256") as [->|_]; cbn [negb];
    [|split; [reflexivity|discriminate]].
  destruct (String.eqb_spec signature (hmac_sha256 JWT_SECRET "HS256" claims)) as [->|_];
    cbn [negb]; [|split; [reflexivity|discriminate]].
  assert (Hfind :
    forall db,
      (bind (find_one users (user_with_claimed_id (Jwt.user_id claims)))
         (fun user => match user with
                      | Some user => ret (without_password user)
                      | None => raise (HTTPException 401 "User not found")
                      end) db).2 = db
      /\ forall user,
           (bind (find_one users (user_with_claimed_id (Jwt.user_id claims)))
              (fun user => match user with
                           | Some user => ret (without_password user)
                           | None => raise (HTTPException 401 "User not found")
                           end) db).1 = Return user ->
           exists uid,
             Jwt.user_id claims = Some uid /\ stored_user uid db = Some user
             /\ User.id user = uid).
  { intros db0. unfold stored_user.
    destruct (Jwt.user_id claims) as [uid|]; run.
    - change (user_with_claimed_id (Some uid)) with (user_with_id uid).
      destruct (first_match (user_with_id uid) (Db.users db0)) as [doc|] eqn:Hdoc;
        (split; [reflexivity|]); [|discriminate].
      intros user [= <-]. exists uid. split; [reflexivity|].
      split; [rewrite Hdoc; reflexivity|].
      apply first_match_Some in Hdoc as [_ Hid]. apply String.eqb_eq, Hid.
    - assert (Hnone : first_match (user_with_claimed_id None) (Db.users db0) = None).
      { apply first_match_None, Forall_forall. reflexivity. }
      rewrite Hnone. split; [reflexivity|discriminate]. }
  destruct (Jwt.exp claims) as [exp|] eqn:Hexp.
  - destruct (Z.leb_spec exp now) as [Hle|Hlt]; [split; [reflexivity|discriminate]|].
    destruct (Hfind db) as [Hdb Huser]. split; [exact Hdb|].
    intros user Hret. destruct (Huser user Hret) as (uid & Hu & Hs & Hid).
    exists claims, uid. split; [reflexivity|]. split; [|auto].
    intros exp' Hexp'. rewrite Hexp in Hexp'. injection Hexp' as <-. exact Hlt.
  - destruct (Hfind db) as [Hdb Huser]. split; [exact Hdb|].
    intros user Hret. destruct (Huser user Hret) as (uid & Hu & Hs & Hid).
    exists claims, uid. split; [reflexivity|]. split; [|auto].
    intros exp' Hexp'. rewrite Hexp in Hexp'. discriminate.
Qed.

(** A route that depends on [get_current_user] is refused with a 401 and
    an unchanged store, or it runs on a stored user (the one the token
    names).  A token that is no JWT or whose signature is not the server's
    gets "Invalid token"; one whose expiry has come gets "Token expired". *)
Theorem protected_routes_gate {A} (now : datetime) (token : Jwt.token)
    (route : User.t -> handler A) (db : Db.t) :
  ((exists detail,
       depends_current_user JWT_SECRET hmac_sha256 now token route db
       = (Raise (HTTPException 401 detail), db))
   \/ (exists user,
         stored_user (User.id user) db = Some user
         /\ depends_current_user JWT_SECRET hmac_sha256 now token route db = route user db))
  /\ (forall s,
      token = Jwt.Malformed s ->
      depends_current_user JWT_SECRET hmac_sha256 now token route db
      = (Raise (HTTPException 401 "Invalid token"), db))
  /\ (forall alg claims signature,
      token = Jwt.Compact alg claims signature ->
      alg <> "HS256" \/ signature <> hmac_sha256 JWT_SECRET alg claims ->
      depends_current_user JWT_SECRET hmac_sha256 now token route db
      = (Raise (HTTPException 401 "Invalid token"), db))
  /\ (forall claims exp,
      token = Jwt.Compact "HS256" claims (hmac_sha256 JWT_SECRET "HS256" claims) ->
      Jwt.exp claims = Some exp -> exp <= now ->
      depends_current_user JWT_SECRET hmac_sha256 now token route db
      = (Raise (HTTPException 401 "Token expired"), db)).
Proof.
  split; [|split; [|split]].
  - unfold depends_current_user, bind.
    destruct (get_current_user_run now token db) as [(detail & ->)|(user & Hs & ->)];
      [left|right]; eauto.
  - intros s ->. reflexivity.
  - intros alg claims signature -> Hbad.
    unfold depends_current_user, bind, get_current_user, Jwt.decode, JWT_ALGORITHM.
    destruct (String.eqb_spec alg "HS256") as [->|_]; [|reflexivity].
    destruct Hbad as [Halg|Hsig]; [contradiction|].
    apply String.eqb_neq in Hsig. rewrite Hsig. reflexivity.
  - intros claims exp -> Hexp Hnow.
    unfold depends_current_user, bind, get_current_user, Jwt.decode, JWT_ALGORITHM.
    rewrite !String.eqb_refl, Hexp. cbn [negb].
    destruct (Z.leb_spec exp now) as [_|Hlt]; [reflexivity|lia].
Qed.

(** An admin route is refused with a 401, or with 403 "Admin access
    required" when the token names a stored user whose admin flag is not
    set, the store unchanged both times; otherwise it runs on a stored user
    whose admin flag is set. *)
Theorem admin_routes_gate {A} (now : datetime) (token : Jwt.token)
    (route : User.t -> handler A) (db : Db.t) :
  (exists detail,
      depends_admin_user JWT_SECRET hmac_sha256 now token route db
      = (Raise (HTTPException 401 detail), db))
  \/ (exists user,
        stored_user (User.id user) db = Some user
        /\ User.is_admin user = false
        /\ depends_admin_user JWT_SECRET hmac_sha256 now token route db
           = (Raise (HTTPException 403 "Admin access required"), db))
  \/ (exists admin,
        stored_user (User.id admin) db = Some admin
        /\ User.is_admin admin = true
        /\ depends_admin_user JWT_SECRET hmac_sha256 now token route db = route admin db).
Proof.
  unfold depends_admin_user, bind.
  destruct (get_current_user_run now token db) as [(detail & ->)|(user & Hs & ->)].
  - left. eauto.
  - right. unfold get_admin_user. destruct (User.is_admin user) eqn:Hadmin; cbn [negb].
    + right. exists user. auto.
    + left. exists user. auto.
Qed.

(** ** Accounts: signing up, signing in, and who is an admin *)

Lemma first_match_set_first_keeps {A B} (q q' : A -> bool) (upd : A -> A) (g : A -> B)
    (l : list A) :
  (forall x, q (upd x) = q x) -> (forall x, g (upd x) = g x) ->
  g <$> first_match q (set_first q' upd l) = g <$> first_match q l.
Proof.
  intros Hq Hg. induction l as [|x l IH]; simpl; [reflexivity|].
  destruct (q' x); simpl.
  - rewrite Hq. destruct (q x); [simpl; rewrite Hg|]; reflexivity.
  - destruct (q x); [reflexivity|exact IH].
Qed.




(** Registering, then asking who one is.  After a registration with an
    e-mail and an id nobody had, and whatever requests follow, the token
    that [register] returned opens [GET /auth/me] until seven days after it
    was issued, and the answer is the registered account: the id, name and
    e-mail of the registration, no admin, created at the time of the
    registration. *)
Theorem register_then_get_me (user_id salt : string) (now now' at_ : datetime)
    (user_data : UserCreate.t) (db db' : Db.t) :
  first_match (user_with_email (UserCreate.email user_data)) (Db.users db) = None ->
  first_match (user_with_id user_id) (Db.users db) = None ->
  steps (register JWT_SECRET hmac_sha256 bcrypt_hashpw user_id salt now now' user_data db).2
    db' ->
  at_ < now' + 7 * 86400 ->
  exists token me,
    (register JWT_SECRET hmac_sha256 bcrypt_hashpw user_id salt now now' user_data db).1
    = Return
        (AuthResponse.mk token
           (PublicUser.mk user_id (UserCreate.name user_data) (UserCreate.email user_data)
              false))
    /\ depends_current_user JWT_SECRET hmac_sha256 at_ token get_me db' = (Return me, db')
    /\ User.id me = user_id
    /\ User.name me = UserCreate.name user_data
    /\ User.email me = UserCreate.email user_data
    /\ User.is_admin me = false
    /\ User.created_at me = now.
Proof.
  intros Hnew Hfresh Hsteps Hat. rewrite register_run, Hnew in *. cbn [fst snd] in *.
  match type of Hsteps with
  | steps ?db1 _ =>
      assert (Hstored : stored_user user_id db1
                        = Some (User.mk user_id (UserCreate.name user_data)
                                  (UserCreate.email user_data) false [] now))
  end.
  { unfold stored_user. cbn [put users Db.users].
    rewrite first_match_app, Hfresh. unfold user_with_id at 1. cbn [UserDoc.id].
    rewrite String.eqb_refl. reflexivity. }
  destruct (steps_keep_account _ _ _ _ Hstored Hsteps)
    as (me & Hme & Hid & Hname & Hemail & Hadmin & Hcreated).
  cbn [User.id User.name User.email User.is_admin User.created_at] in *.
  eexists _, me. split; [reflexivity|].
  unfold depends_current_user, bind, get_me, ret.
  rewrite get_current_user_create_token.
  destruct (Z.leb_spec (now' + seven_days) at_) as [Hle|_]; [unfold seven_days in Hle; lia|].
  rewrite Hme. split; [reflexivity|]. auto.
Qed.

(** No request makes an admin: a user who is an admin after some requests
    was stored as an admin before them.  So while no stored user is an
    admin, every admin route is refused, with a 401 or a 403, and writes
    nothing. *)
Theorem no_request_grants_admin (db db' : Db.t) :
  steps db db' ->
  (forall uid u',
      stored_user uid db' = Some u' -> User.is_admin u' = true ->
      exists u, stored_user uid db = Some u /\ User.is_admin u = true)
  /\ (Forall (fun u => UserDoc.is_admin u = false) (Db.users db) ->
      forall A now token (route : User.t -> handler A),
        exists status detail,
          depends_admin_user JWT_SECRET hmac_sha256 now token route db'
          = (Raise (HTTPException status detail), db')
          /\ (status = 401 \/ status = 403)).
Proof.
  intros Hsteps.
  assert (Hadmins :
    forall uid u',
      stored_user uid db' = Some u' -> User.is_admin u' = true ->
      exists u, stored_user uid db = Some u /\ User.is_admin u = true).
  { induction Hsteps as [|db db' db'' _ IH Hstep]; [eauto|].
    intros uid u'' Hu'' Hadmin.
    assert (Hflag : UserDoc.is_admin <$> first_match (user_with_id uid) (Db.users db')
                    = Some true).
    { revert Hu''. unfold stored_user.
      destruct (step_users _ _ Hstep) as [->|[(doc & -> & Hno & _)|(uid' & w & ->)]].
      - destruct (first_match _ _) as [d|]; [|discriminate].
        intros [= <-]. cbn. f_equal. exact Hadmin.
      - rewrite first_match_app.
        destruct (first_match (user_with_id uid) (Db.users db')) as [d|].
        + intros [= <-]. cbn. f_equal. exact Hadmin.
        + destruct (user_with_id uid doc); [|discriminate].
          intros [= <-]. cbn in Hadmin. congruence.
      - intros Hd. rewrite <- (first_match_set_first_keeps _ (user_with_id uid')
                                 (set_wishlist w)) by reflexivity.
        destruct (first_match _ _) as [d|]; [|discriminate].
        injection Hd as <-. cbn. f_equal. exact Hadmin. }
    destruct (first_match (user_with_id uid) (Db.users db')) as [d|] eqn:Hd;
      [|discriminate].
    injection Hflag as Hflag. apply (IH uid (without_password d)); [|exact Hflag].
    unfold stored_user. rewrite Hd. reflexivity. }
  split; [exact Hadmins|].
  intros Hnone A now token route. unfold depends_admin_user, bind.
  destruct (get_current_user_run now token db') as [(detail & ->)|(user & Hs & ->)].
  - exists 401, detail. auto.
  - unfold get_admin_user. destruct (User.is_admin user) eqn:Hadmin; cbn [negb].
    + destruct (Hadmins _ _ Hs Hadmin) as (u & Hu & Hflag). exfalso.
      revert Hu. unfold stored_user.
      destruct (first_match (user_with_id (User.id user)) (Db.users db)) as [d|] eqn:Hd;
        [|discriminate].
      intros [= <-]. apply first_match_Some in Hd as [Hin _].
      rewrite Forall_forall in Hnone. specialize (Hnone d Hin). cbn in Hflag. congruence.
    + exists 403, "Admin access required". auto.
Qed.

End RouteProperties.


Lemma register_then_get_me_witness :
  exists token me,
    (register "k" toy_hmac toy_hashpw "u3" "$2b$12$hash.of." 60 61
       (UserCreate.mk "Carol" "carol@example.org" "carol") market).1
    = Return (AuthResponse.mk token (PublicUser.mk "u3" "Carol" "carol@example.org" false))
    /\ depends_current_user "k" toy_hmac 1000 token get_me
         (add_to_cart 65 (tee 1) alice
            (register "k" toy_hmac toy_hashpw "u3" "$2b$12$hash.of." 60 61
               (UserCreate.mk "Carol" "carol@example.org" "carol") market).2).2
       = (Return me,
          (add_to_cart 65 (tee 1) alice
             (register "k" toy_hmac toy_hashpw "u3" "$2b$12$hash.of." 60 61
                (UserCreate.mk "Carol" "carol@example.org" "carol") market).2).2)
    /\ User.id me = "u3"
    /\ User.name me = "Carol"
    /\ User.email me = "carol@example.org"
    /\ User.is_admin me = false
    /\ User.created_at me = 60.
Proof.
  apply (register_then_get_me "k" toy_hmac toy_hashpw "u3" "$2b$12$hash.of." 60 61 1000
           (UserCreate.mk "Carol" "carol@example.org" "carol") market).
  - reflexivity.
  - reflexivity.
  - eapply steps_step; [apply steps_refl|].
    apply (step_add_to_cart 65 (tee 1) alice). reflexivity.
  - reflexivity.
Defined.

Lemma no_request_grants_admin_witness :
  (forall uid u',
      stored_user uid (add_to_wishlist "p2" alice market).2 = Some u' ->
      User.is_admin u' = true ->
      exists u, stored_user uid market = Some u /\ User.is_admin u = true)
  /\ (Forall (fun u => UserDoc.is_admin u = false) (Db.users market) ->
      forall A now token (route : User.t -> handler A),
        exists status detail,
          depends_admin_user "k" toy_hmac now token route (add_to_wishlist "p2" alice market).2
          = (Raise (HTTPException status detail), (add_to_wishlist "p2" alice market).2)
          /\ (status = 401 \/ status = 403)).
Proof.
  apply (no_request_grants_admin "k" toy_hmac market).
  eapply steps_step; [apply steps_refl|].
  apply (step_add_to_wishlist "p2" alice market). reflexivity.
Defined.

(** ** Reviews: refusals, and what [GET /products/{id}/reviews] shows *)

(** [create_review] is refused with 404 "Product not found" when no
    product has the id, and with 400 "You already reviewed this product"
    when the product exists and the caller has a review of it; the store is
    left as it was both times.  When neither refusal applies, the rating
    decides: a rating that is a BSON integer is inserted with the review,
    so a second review of the product by the same user is refused with the
    400; for a rating that is no 64-bit integer the driver raises
    [OverflowError] at the insert, and the store is as it was, so nothing
    stands in the way of a later review. *)
Theorem create_review_refusals (review_id : string) (now : datetime) (product_id : string)
    (review_data : ReviewCreate.t) (user : User.t) (db : Db.t) :
  (first_match (product_with_id product_id) (Db.products db) = None ->
   create_review review_id now product_id review_data user db
   = (Raise (HTTPException 404 "Product not found"), db))
  /\ (forall p r,
      first_match (product_with_id product_id) (Db.products db) = Some p ->
      r ∈ Db.reviews db -> Review.product_id r = product_id ->
      Review.user_id r = User.id user ->
      create_review review_id now product_id review_data user db
      = (Raise (HTTPException 400 "You already reviewed this product"), db))
  /\ (forall p,
      first_match (product_with_id product_id) (Db.products db) = Some p ->
      (forall r, r ∈ Db.reviews db -> Review.product_id r = product_id ->
                 Review.user_id r <> User.id user) ->
      (bson_int (ReviewCreate.rating review_data) = true ->
       review_doc review_id now product_id review_data user
         ∈ Db.reviews (create_review review_id now product_id review_data user db).2
       /\ forall review_id2 now2 review_data2 user2,
           User.id user2 = User.id user ->
           create_review review_id2 now2 product_id review_data2 user2
             (create_review review_id now product_id review_data user db).2
           = (Raise (HTTPException 400 "You already reviewed this product"),
              (create_review review_id now product_id review_data user db).2))
      /\ (bson_int (ReviewCreate.rating review_data) = false ->
          create_review review_id now product_id review_data user db
          = (Raise OverflowError, db))).
Proof.
  split; [|split].
  - intros Hp. rewrite create_review_run, Hp. reflexivity.
  - intros p r Hp Hr Hpid Huid. rewrite create_review_run, Hp.
    destruct (first_match (review_of_product_by product_id (User.id user)) (Db.reviews db))
      eqn:Hnone; [reflexivity|].
    apply first_match_None in Hnone. rewrite Forall_forall in Hnone.
    specialize (Hnone r Hr). unfold review_of_product_by in Hnone.
    rewrite Hpid, Huid, !String.eqb_refl in Hnone. discriminate.
  - intros p Hp Hfresh.
    assert (Hnone : first_match (review_of_product_by product_id (User.id user))
                      (Db.reviews db) = None).
    { apply first_match_None, Forall_forall. intros r Hr. unfold review_of_product_by.
      destruct (String.eqb_spec (Review.product_id r) product_id) as [Hpid|]; [|reflexivity].
      apply String.eqb_neq, (Hfresh r Hr Hpid). }
    rewrite (create_review_run review_id). rewrite Hp, Hnone.
    split; intros ->; [|reflexivity]. cbv zeta.
    assert (Hreviewed :
      forall ps review_id2 now2 review_data2 user2,
        first_match (product_with_id product_id) ps <> None ->
        User.id user2 = User.id user ->
        create_review review_id2 now2 product_id review_data2 user2
          (put products ps
             (put reviews
                (Db.reviews db ++ [review_doc review_id now product_id review_data user]) db))
        = (Raise (HTTPException 400 "You already reviewed this product"),
           put products ps
             (put reviews
                (Db.reviews db ++ [review_doc review_id now product_id review_data user])
                db))).
    { intros ps review_id2 now2 review_data2 user2 Hsome Huser2. rewrite create_review_run.
      cbn [put products reviews Db.products Db.reviews].
      destruct (first_match (product_with_id product_id) ps); [|contradiction].
      rewrite Huser2, first_match_app, Hnone. unfold review_of_product_by, review_doc.
      cbn [Review.product_id Review.user_id]. rewrite !String.eqb_refl. reflexivity. }
    destruct (aggregate _) as [[rating count]|e]; cbn [snd].
    + split; [cbn [put products reviews Db.reviews]; apply elem_of_app; right; left|].
      intros. apply Hreviewed; [|assumption].
      rewrite first_match_set_first by (intros d Hd; exact Hd).
      rewrite Hp. discriminate.
    + split; [cbn [put reviews Db.reviews]; apply elem_of_app; right; left|].
      intros. specialize (Hreviewed (Db.products db)). cbn [put products] in Hreviewed.
      apply Hreviewed; [|assumption]. rewrite Hp. discriminate.
Qed.

Lemma take_take_app {A} (n : nat) (l k : list A) :
  take n (take n l ++ k) = take n (l ++ k).
Proof.
  destruct (Nat.le_gt_cases (length l) n) as [Hle|Hgt].
  - rewrite (take_ge l) by exact Hle. reflexivity.
  - rewrite !take_app_le by (rewrite ?length_take; lia). apply take_idemp.
Qed.

Lemma matching_other_review (other product_id : string) (doc : Review.t) (l : list Review.t) :
  Review.product_id doc = product_id -> other <> product_id ->
  matching (review_of_product other) (l ++ [doc]) = matching (review_of_product other) l.
Proof.
  intros Hdoc Hother. rewrite matching_app. cbn [matching]. unfold review_of_product at 2.
  rewrite Hdoc. destruct (String.eqb_spec product_id other) as [->|_]; [contradiction|].
  apply app_nil_r.
Qed.

(** A review that [create_review] returned is listed by [get_reviews] of
    its product after the reviews that were listed before, as long as the
    listing has room: the listing is cut at 1000 reviews.  The listings of
    the other products do not change. *)
Theorem create_review_then_get_reviews (review_id : string) (now : datetime)
    (product_id : string) (review_data : ReviewCreate.t) (user : User.t) (db db' : Db.t)
    (doc : Review.t) :
  create_review review_id now product_id review_data user db = (Return doc, db') ->
  exists shown,
    get_reviews product_id db = (Return shown, db)
    /\ get_reviews product_id db' = (Return (take 1000 (shown ++ [doc])), db')
    /\ ((length shown < 1000)%nat -> get_reviews product_id db' = (Return (shown ++ [doc]), db'))
    /\ Review.product_id doc = product_id
    /\ Review.user_id doc = User.id user
    /\ Review.rating doc = ReviewCreate.rating review_data
    /\ Review.comment doc = ReviewCreate.comment review_data
    /\ (forall other, other <> product_id ->
        (get_reviews other db').1 = (get_reviews other db).1).
Proof.
  rewrite create_review_run.
  destruct (first_match (product_with_id product_id) (Db.products db)); [|discriminate].
  destruct (first_match (review_of_product_by product_id (User.id user)) (Db.reviews db));
    [discriminate|].
  destruct (bson_int _); [|discriminate].
  cbv zeta. destruct (aggregate _) as [[rating count]|e]; [|discriminate].
  intros [= <- <-]. eexists. split; [reflexivity|].
  unfold get_reviews, find_to_list. cbn [docs put reviews products Db.reviews].
  assert (Hshown :
    take 1000
      (matching (review_of_product product_id)
         (Db.reviews db ++ [review_doc review_id now product_id review_data user]))
    = take 1000
        (take 1000 (matching (review_of_product product_id) (Db.reviews db))
         ++ [review_doc review_id now product_id review_data user])).
  { rewrite take_take_app, matching_app. cbn [matching]. unfold review_of_product at 2.
    cbn [review_doc Review.product_id]. rewrite String.eqb_refl. reflexivity. }
  split; [rewrite Hshown; reflexivity|].
  split.
  { intros Hlen. rewrite Hshown. rewrite take_ge; [reflexivity|].
    rewrite length_app. cbn [length]. lia. }
  do 4 (split; [reflexivity|]).
  intros other Hother. cbn [fst].
  rewrite (matching_other_review other product_id) by (reflexivity || exact Hother).
  reflexivity.
Qed.

(** Alice reviews the tee that Bob has reviewed. *)
Lemma create_review_then_get_reviews_witness :
  exists shown,
    get_reviews "p1" market = (Return shown, market)
    /\ get_reviews "p1" (create_review "rev1" 200 "p1" (ReviewCreate.mk 5 "great") alice market).2
       = (Return
            (take 1000
               (shown ++ [review_doc "rev1" 200 "p1" (ReviewCreate.mk 5 "great") alice])),
          (create_review "rev1" 200 "p1" (ReviewCreate.mk 5 "great") alice market).2)
    /\ ((length shown < 1000)%nat ->
        get_reviews "p1"
          (create_review "rev1" 200 "p1" (ReviewCreate.mk 5 "great") alice market).2
        = (Return (shown ++ [review_doc "rev1" 200 "p1" (ReviewCreate.mk 5 "great") alice]),
           (create_review "rev1" 200 "p1" (ReviewCreate.mk 5 "great") alice market).2))
    /\ Review.product_id (review_doc "rev1" 200 "p1" (ReviewCreate.mk 5 "great") alice) = "p1"
    /\ Review.user_id (review_doc "rev1" 200 "p1" (ReviewCreate.mk 5 "great") alice)
       = User.id alice
    /\ Review.rating (review_doc "rev1" 200 "p1" (ReviewCreate.mk 5 "great") alice)
       = ReviewCreate.rating (ReviewCreate.mk 5 "great")
    /\ Review.comment (review_doc "rev1" 200 "p1" (ReviewCreate.mk 5 "great") alice)
       = ReviewCreate.comment (ReviewCreate.mk 5 "great")
    /\ (forall other, other <> "p1" ->
        (get_reviews other
           (create_review "rev1" 200 "p1" (ReviewCreate.mk 5 "great") alice market).2).1
        = (get_reviews other market).1).
Proof.
  apply (create_review_then_get_reviews "rev1" 200 "p1" (ReviewCreate.mk 5 "great") alice
           market).
  vm_compute. reflexivity.
Defined.

(** ** Orders: what the listings show *)

Lemma insert_desc_perm {A} (f : A -> Z) (d : A) (l : list A) : insert_desc f d l ≡ₚ d :: l.
Proof.
  induction l as [|x l IH]; cbn [insert_desc]; [reflexivity|].
  destruct (Z.leb (f x) (f d)); [reflexivity|].
  rewrite IH. apply Permutation_swap.
Qed.

Lemma sort_desc_perm {A} (f : A -> Z) (l : list A) : sort_desc f l ≡ₚ l.
Proof.
  induction l as [|x l IH]; cbn [sort_desc]; [reflexivity|].
  rewrite insert_desc_perm, IH. reflexivity.
Qed.

Lemma insert_desc_sorted {A} (f : A -> Z) (d : A) (l : list A) :
  StronglySorted (fun a b => f b <= f a) l ->
  StronglySorted (fun a b => f b <= f a) (insert_desc f d l).
Proof.
  induction 1 as [|x l Hl IH Hx]; cbn [insert_desc]; [repeat constructor|].
  destruct (Z.leb_spec (f x) (f d)) as [Hle|Hlt].
  - constructor; [constructor; assumption|].
    constructor; [exact Hle|]. eapply Forall_impl; [exact Hx|]. cbn. intros y Hy. lia.
  - constructor; [exact IH|]. rewrite insert_desc_perm. constructor; [lia|exact Hx].
Qed.

Lemma sort_desc_sorted {A} (f : A -> Z) (l : list A) :
  StronglySorted (fun a b => f b <= f a) (sort_desc f l).
Proof.
  induction l as [|x l IH]; cbn [sort_desc]; [constructor|].
  apply insert_desc_sorted, IH.
Qed.

(** A document later than all the others is sorted to the front. *)
Lemma sort_desc_latest {A} (f : A -> Z) (d : A) (l : list A) :
  Forall (fun x => f x < f d) l -> sort_desc f (l ++ [d]) = d :: sort_desc f l.
Proof.
  induction 1 as [|x l Hx _ IH]; [reflexivity|].
  cbn [app sort_desc]. rewrite IH. cbn [insert_desc].
  destruct (Z.leb_spec (f d) (f x)) as [Hle|_]; [lia|reflexivity].
Qed.

(** What a sorted, cut listing holds: documents of the collection that
    match, by decreasing field, at most [n]; all of the matching ones when
    they are at most [n], and otherwise none that is below one left out. *)
Lemma find_sort_to_list_sound {A} (q : A -> bool) (f : A -> Z) (n : nat) (l : list A) :
  let shown := take n (sort_desc f (matching q l)) in
  StronglySorted (fun a b => f b <= f a) shown
  /\ (length shown <= n)%nat
  /\ (forall d, d ∈ shown -> d ∈ l /\ q d = true)
  /\ ((length (matching q l) <= n)%nat -> shown ≡ₚ matching q l)
  /\ (forall d d', d ∈ shown -> d' ∈ l -> q d' = true -> d' ∉ shown -> f d' <= f d).
Proof.
  intros shown. subst shown.
  pose proof (sort_desc_sorted f (matching q l)) as Hsorted.
  pose proof (sort_desc_perm f (matching q l)) as Hperm.
  rewrite <- (take_drop n (sort_desc f (matching q l))) in Hsorted.
  split; [exact (StronglySorted_app_1_l _ _ _ Hsorted)|].
  split; [rewrite length_take; lia|]. split; [|split].
  - intros d Hd. apply in_matching. rewrite <- Hperm.
    eapply elem_of_sublist; [exact Hd|apply sublist_take].
  - intros Hlen. rewrite take_ge; [exact Hperm|]. rewrite Hperm. exact Hlen.
  - intros d d' Hd Hd' Hq Hout.
    apply (StronglySorted_app_1_elem_of _ _ _ d d' Hsorted Hd).
    assert (Hin : d' ∈ sort_desc f (matching q l)).
    { rewrite Hperm. apply in_matching. auto. }
    rewrite <- (take_drop n (sort_desc f (matching q l))) in Hin.
    apply elem_of_app in Hin as [Hin|Hin]; [contradiction|exact Hin].
Qed.

(** [GET /orders] never fails and never writes.  It lists orders of the
    caller only, newest first and at most 1000; all of the caller's orders
    when the caller has at most 1000, and otherwise the newest: no order of
    the caller that is left out is later than one that is listed. *)
Theorem get_user_orders_newest_first (user : User.t) (db : Db.t) :
  exists shown,
    get_user_orders user db = (Return shown, db)
    /\ newest_first shown
    /\ (length shown <= 1000)%nat
    /\ (forall o, o ∈ shown -> o ∈ Db.orders db /\ Order.user_id o = User.id user)
    /\ ((length (matching (order_of (User.id user)) (Db.orders db)) <= 1000)%nat ->
        shown ≡ₚ matching (order_of (User.id user)) (Db.orders db))
    /\ (forall o o',
        o ∈ shown -> o' ∈ Db.orders db -> Order.user_id o' = User.id user -> o' ∉ shown ->
        Order.created_at o' <= Order.created_at o).
Proof.
  eexists. split; [reflexivity|]. cbn [docs orders].
  destruct (find_sort_to_list_sound (order_of (User.id user)) Order.created_at 1000
              (Db.orders db)) as (Hsorted & Hlen & Hsound & Hall & Hnewest).
  split; [exact Hsorted|]. split; [exact Hlen|]. split; [|split; [exact Hall|]].
  - intros o Ho. destruct (Hsound o Ho) as [Hin Hq]. split; [exact Hin|].
    apply String.eqb_eq, Hq.
  - intros o o' Ho Ho' Hu. apply Hnewest; [exact Ho|exact Ho'|].
    apply String.eqb_eq, Hu.
Qed.

(** [GET /admin/orders] never fails and never writes.  It lists stored
    orders, newest first and at most 1000: every order, once each, when the
    store has at most 1000, and otherwise the newest. *)
Theorem get_all_orders_newest_first (admin : User.t) (db : Db.t) :
  exists shown,
    get_all_orders admin db = (Return shown, db)
    /\ newest_first shown
    /\ (length shown <= 1000)%nat
    /\ (forall o, o ∈ shown -> o ∈ Db.orders db)
    /\ ((length (Db.orders db) <= 1000)%nat -> shown ≡ₚ Db.orders db)
    /\ (forall o o',
        o ∈ shown -> o' ∈ Db.orders db -> o' ∉ shown ->
        Order.created_at o' <= Order.created_at o).
Proof.
  eexists. split; [reflexivity|]. cbn [docs orders].
  destruct (find_sort_to_list_sound (fun _ : Order.t => true) Order.created_at 1000
              (Db.orders db)) as (Hsorted & Hlen & Hsound & Hall & Hnewest).
  assert (Hm : matching (fun _ : Order.t => true) (Db.orders db) = Db.orders db).
  { apply matching_all, Forall_forall. reflexivity. }
  rewrite Hm in *.
  split; [exact Hsorted|]. split; [exact Hlen|]. split; [|split; [exact Hall|]].
  - intros o Ho. apply (Hsound o Ho).
  - intros o o' Ho Ho'. apply Hnewest; [exact Ho|exact Ho'|reflexivity].
Qed.

Lemma matching_order_other (uid uid' : string) (order : Order.t) (l : list Order.t) :
  Order.user_id order = uid -> uid' <> uid ->
  matching (order_of uid') (l ++ [order]) = matching (order_of uid') l.
Proof.
  intros Ho Hother. rewrite matching_app. cbn [matching]. unfold order_of at 2.
  rewrite Ho. destruct (String.eqb_spec uid uid') as [->|_]; [contradiction|].
  apply app_nil_r.
Qed.

(** Placing an order, then listing one's orders.  When an order that the
    driver can encode (its quantities are 64-bit integers, so that
    [create_order] succeeds) is placed later than every stored order of
    the caller, [GET /orders] shows it first, followed by what it showed
    before (the last of a full listing of 1000 is dropped); the listings
    of the other users do not change. *)
Theorem create_order_then_get_user_orders (order_id : string) (now : datetime)
    (order_data : OrderCreate.t) (user : User.t) (db : Db.t) :
  (forall o, o ∈ Db.orders db -> Order.user_id o = User.id user -> Order.created_at o < now) ->
  encodable (order_doc order_id now order_data user) = true ->
  exists order db' shown,
    create_order order_id now order_data user db = (Return order, db')
    /\ get_user_orders user db = (Return shown, db)
    /\ get_user_orders user db' = (Return (order :: take 999 shown), db')
    /\ Order.id order = order_id
    /\ Order.created_at order = now
    /\ (forall other,
        User.id other <> User.id user ->
        (get_user_orders other db').1 = (get_user_orders other db).1).
Proof.
  intros Hlater Henc. rewrite create_order_run, Henc.
  eexists _, _, _. split; [reflexivity|]. split; [reflexivity|].
  unfold get_user_orders, find_sort_to_list.
  cbn [docs put orders carts Db.orders fst snd].
  split; [|split; [reflexivity|split; [reflexivity|]]].
  - rewrite matching_app. cbn [matching]. unfold order_of at 2.
    cbn [order_doc Order.user_id]. rewrite String.eqb_refl.
    rewrite sort_desc_latest.
    + cbn [take]. rewrite take_take. reflexivity.
    + apply Forall_forall. intros o Ho. apply in_matching in Ho as [Ho Hq].
      cbn [Order.created_at]. apply Hlater; [exact Ho|]. apply String.eqb_eq, Hq.
  - intros other Hother.
    rewrite (matching_order_other (User.id user)) by (reflexivity || exact Hother).
    reflexivity.
Qed.

(** Alice orders at time 200, after her orders of times 10 and 30. *)
Lemma create_order_then_get_user_orders_witness :
  exists order db' shown,
    create_order "o4" 200 alice_order alice market = (Return order, db')
    /\ get_user_orders alice market = (Return shown, market)
    /\ get_user_orders alice db' = (Return (order :: take 999 shown), db')
    /\ Order.id order = "o4"
    /\ Order.created_at order = 200
    /\ (forall other,
        User.id other <> User.id alice ->
        (get_user_orders other db').1 = (get_user_orders other market).1).
Proof.
  apply (create_order_then_get_user_orders "o4" 200 alice_order alice market);
    [|reflexivity].
  intros o Ho. cbn in Ho.
  repeat (apply elem_of_cons in Ho as [->|Ho]; [intros _; reflexivity || discriminate|]).
  inversion Ho.
Defined.

(** ** The store holds BSON documents *)

Lemma Forall_set_first_upd {A} (P : A -> Prop) (q : A -> bool) (upd : A -> A) (l : list A) :
  Forall P l -> (forall d, P d -> P (upd d)) -> Forall P (set_first q upd l).
Proof.
  intros Hl Hupd. apply Forall_set_first; [exact Hl|].
  intros d Hd _. apply Hupd. rewrite Forall_forall in Hl. apply Hl, Hd.
Qed.

Lemma step_bson_store (db db' : Db.t) : bson_store db -> step db db' -> bson_store db'.
Proof.
  intros Hs Hstep. pose proof Hs as (Hp & Hr & Hc & Ho). destruct Hstep.
  - rewrite register_run. destruct (first_match _ _); exact Hs.
  - rewrite create_product_run. destruct (bson_int _) eqn:Hstock; [|exact Hs].
    split; [|repeat split; assumption]. cbn [snd put products Db.products].
    apply Forall_app. split; [exact Hp|]. constructor; [|constructor].
    rewrite encodable_product_doc. exact Hstock.
  - rewrite update_product_run. destruct (first_match _ _); [|exact Hs].
    destruct (bson_int _) eqn:Hstock; [|exact Hs]. cbv zeta.
    split; [|repeat split; assumption]. cbn [snd put products Db.products].
    apply Forall_set_first_upd; [exact Hp|]. intros d Hd.
    unfold encodable, product_bson in *. cbn [set_product_data Product.stock
      Product.review_count]. apply andb_true_iff in Hd as [_ ->]. rewrite Hstock.
    reflexivity.
  - unfold delete_product. crack; (split; [|repeat split; assumption]);
      apply Forall_drop_first, Hp.
  - rewrite create_review_run. destruct (first_match _ (Db.products db)); [|exact Hs].
    destruct (first_match _ (Db.reviews db)); [exact Hs|].
    destruct (bson_int _) eqn:Hrating; [|exact Hs]. cbv zeta.
    assert (Hr' : Forall (fun r => encodable r = true)
                    (Db.reviews db
                     ++ [review_doc review_id now product_id review_data user])).
    { apply Forall_app. split; [exact Hr|]. constructor; [exact Hrating|constructor]. }
    destruct (aggregate _) as [[rating review_count]|e] eqn:Hagg;
      cbn [snd]; (split; [|split; [exact Hr'|split; assumption]]); [|exact Hp].
    cbn [put products reviews Db.products].
    apply aggregate_Return in Hagg as [-> _].
    apply Forall_set_first_upd; [exact Hp|]. intros d Hd.
    unfold encodable, product_bson in *. cbn [set_rating Product.stock Product.review_count].
    apply andb_true_iff in Hd as [-> _]. unfold reviews_read.
    rewrite bson_int_length_take. reflexivity.
  - rewrite add_to_cart_run.
    destruct (first_match _ _); (destruct (encodable _) eqn:Hitems; [|exact Hs]);
      (split; [exact Hp|split; [exact Hr|split; [|exact Ho]]]);
      cbn [snd put carts Db.carts].
    + apply Forall_set_first_upd; [exact Hc|]. intros d _. exact Hitems.
    + apply Forall_app. split; [exact Hc|]. constructor; [exact Hitems|constructor].
  - rewrite update_cart_item_run. destruct (first_match _ _); [|exact Hs]. cbv zeta.
    destruct (encodable _) eqn:Hitems; [|exact Hs].
    split; [exact Hp|split; [exact Hr|split; [|exact Ho]]]. cbn [snd put carts Db.carts].
    apply Forall_set_first_upd; [exact Hc|]. intros d _. exact Hitems.
  - rewrite remove_from_cart_run. destruct (first_match _ _); [|exact Hs]. cbv zeta.
    destruct (encodable _) eqn:Hitems; [|exact Hs].
    split; [exact Hp|split; [exact Hr|split; [|exact Ho]]]. cbn [snd put carts Db.carts].
    apply Forall_set_first_upd; [exact Hc|]. intros d _. exact Hitems.
  - rewrite add_to_wishlist_run. destruct (contains _ _); exact Hs.
  - rewrite remove_from_wishlist_run. destruct (contains _ _); exact Hs.
  - rewrite create_order_run. destruct (encodable _) eqn:Horder; [|exact Hs].
    split; [exact Hp|split; [exact Hr|split]]; cbn [snd Db.carts Db.orders].
    + apply Forall_drop_first, Hc.
    + apply Forall_app. split; [exact Ho|]. constructor; [exact Horder|constructor].
Qed.

(** Every integer in the store is a 64-bit integer: the empty store holds
    BSON documents only, and a store that does still does after any
    sequence of requests, because every write encodes what it writes.  In
    such a store the line items of every cart are BSON-encodable, which is
    what the cart routes need to write them back. *)
Theorem requests_keep_bson_store :
  bson_store Db.empty
  /\ (forall db db', bson_store db -> steps db db' -> bson_store db')
  /\ (forall db uid items,
        bson_store db -> line_items uid db = Some items -> encodable items = true).
Proof.
  split; [repeat split; constructor|]. split.
  - intros db db' Hs Hsteps. induction Hsteps as [|db db' db'' _ IH Hstep]; [exact Hs|].
    eapply step_bson_store; [apply IH, Hs|exact Hstep].
  - intros db uid items (_ & _ & Hc & _). unfold line_items.
    destruct (first_match (cart_of uid) (Db.carts db)) as [cart|] eqn:Hcart; [|discriminate].
    intros [= <-]. apply first_match_Some in Hcart as [Hin _].
    rewrite Forall_forall in Hc. exact (Hc cart Hin).
Qed.

(** On [shop]: Alice puts three more tees in her cart, and a request for
    [2^63 - 2] more is refused; the quantities in the store stay 64-bit
    integers. *)
Lemma requests_keep_bson_store_witness :
  bson_store
    (add_to_cart 210 (tee (2 ^ 63 - 2)) alice (add_to_cart 200 (tee 3) alice shop).2).2
  /\ line_items "u1"
       (add_to_cart 210 (tee (2 ^ 63 - 2)) alice (add_to_cart 200 (tee 3) alice shop).2).2
     = Some [tee 5].
Proof.
  destruct requests_keep_bson_store as (_ & Hkeep & _).
  split; [|reflexivity].
  apply (Hkeep shop).
  - repeat split; repeat constructor.
  - eapply steps_step; [eapply steps_step; [apply steps_refl|]|].
    + apply (step_add_to_cart 200 (tee 3) alice shop). reflexivity.
    + apply (step_add_to_cart 210 (tee (2 ^ 63 - 2)) alice). reflexivity.
Defined.
